(** * intervalsicu-plan-sync: the interval formatter, the validator, the
      JSON import and the upload orchestrator, embedded and verified.

    The development follows the TypeScript sources function by function:
    - [src/utils/workout-formatter.ts]  -> Module [Formatter]
    - [src/utils/workout-validator.ts]  -> Module [WorkoutValidator]
    - [src/utils/json-parser.ts]        -> Module [JsonParser]
    - [src/utils/intervals-icu.ts]      -> Module [IntervalsIcu]

    Conventions of the embedding.
    - A JS string is a [string] of ASCII characters; case conversion, [trim]
      and the regular expressions are the ASCII fragments of the JS ones.
    - The numeric fields (seconds, meters, minutes, kilometers, counts) are
      integral JS numbers in the safe range: [Z]. The one place where the
      source leaves the integers, [(d / 1000).toFixed(1)], is computed on
      binary64 with the Standard Library's [SpecFloat].
    - An optional field is an [option]; a JS object used as a map from own
      keys to strings is a [gmap string string].
    - Truthiness is written out: the empty string, [0] and [undefined] are
      falsy. *)

From Stdlib Require Import ZArith Strings.Ascii Strings.String Floats.SpecFloat.
From stdpp Require Import base option list gmap strings pretty.

Set Warnings "-register-all".

Local Open Scope string_scope.
Local Open Scope Z_scope.
Local Open Scope list_scope.

(** ** JavaScript strings *)

Module JS.

(** The line feed, the separator of [split('\n')] and [join('\n')]. *)
Definition LF : ascii := "010"%char.
Definition CR : ascii := "013"%char.
Definition nl : string := String LF "".

Definition isDigit (c : ascii) : bool :=
  let n := nat_of_ascii c in (48 <=? n)%nat && (n <=? 57)%nat.

Definition isUpper (c : ascii) : bool :=
  let n := nat_of_ascii c in (65 <=? n)%nat && (n <=? 90)%nat.

Definition isLower (c : ascii) : bool :=
  let n := nat_of_ascii c in (97 <=? n)%nat && (n <=? 122)%nat.

(** [\s] of a regular expression and the characters [trim] removes. *)
Definition isSpace (c : ascii) : bool := Ascii.is_space c.

(** The characters [.] does not match. *)
Definition isLineTerminator (c : ascii) : bool :=
  bool_decide (c = LF) || bool_decide (c = CR).

(** [\w]: letters, digits and the underscore. *)
Definition isWordChar (c : ascii) : bool :=
  isDigit c || isUpper c || isLower c || bool_decide (c = "_"%char).

Definition lowerChar (c : ascii) : ascii :=
  if isUpper c then ascii_of_nat (nat_of_ascii c + 32) else c.

Definition upperChar (c : ascii) : ascii :=
  if isLower c then ascii_of_nat (nat_of_ascii c - 32) else c.

Fixpoint mapChars (f : ascii -> ascii) (s : string) : string :=
  match s with
  | "" => ""
  | String c s' => String (f c) (mapChars f s')
  end.

Definition toLowerCase : string -> string := mapChars lowerChar.
Definition toUpperCase : string -> string := mapChars upperChar.

(** A string in a boolean position. *)
Definition truthy (s : string) : bool := negb (bool_decide (s = "")).

(** An optional string in a boolean position. *)
Definition truthyOpt (o : option string) : bool :=
  match o with
  | Some s => truthy s
  | None => false
  end.

(** [a || b] on strings. *)
Definition orElse (a b : string) : string := if truthy a then a else b.

(** [s.startsWith(p)], returning what follows the prefix. *)
Fixpoint stripPrefix (p s : string) : option string :=
  match p, s with
  | "", _ => Some s
  | String a p', String b s' =>
      if bool_decide (a = b) then stripPrefix p' s' else None
  | String _ _, "" => None
  end.

(** The same with the letters compared case-insensitively, as a literal
    of a pattern with the [i] flag matches. *)
Fixpoint stripPrefixCI (p s : string) : option string :=
  match p, s with
  | "", _ => Some s
  | String a p', String b s' =>
      if bool_decide (lowerChar a = lowerChar b)
      then stripPrefixCI p' s' else None
  | String _ _, "" => None
  end.

Definition startsWith (p s : string) : bool := bool_decide (is_Some (stripPrefix p s)).

(** [s.includes(needle)] *)
Fixpoint includes (needle s : string) : bool :=
  match s with
  | "" => bool_decide (needle = "")
  | String _ s' => startsWith needle s || includes needle s'
  end.

(** [s.replace(pat, '')] with a string pattern: the first occurrence of
    [pat] is removed. *)
Fixpoint removeFirst (pat s : string) : string :=
  match stripPrefix pat s with
  | Some rest => rest
  | None =>
      match s with
      | "" => ""
      | String c s' => String c (removeFirst pat s')
      end
  end.

Fixpoint takeWhile (p : ascii -> bool) (s : string) : string :=
  match s with
  | "" => ""
  | String c s' => if p c then String c (takeWhile p s') else ""
  end.

Fixpoint dropWhile (p : ascii -> bool) (s : string) : string :=
  match s with
  | "" => ""
  | String c s' => if p c then dropWhile p s' else s
  end.

Definition trimStart (s : string) : string := dropWhile isSpace s.
Definition trimEnd (s : string) : string :=
  String.rev (dropWhile isSpace (String.rev s)).
Definition trim (s : string) : string := trimEnd (trimStart s).

(** [s.split('\n')]: the pieces between line feeds; [cur] is the piece
    being read, reversed. *)
Fixpoint split_go (cur : string) (s : string) : list string :=
  match s with
  | "" => [String.rev cur]
  | String c s' =>
      if bool_decide (c = LF) then String.rev cur :: split_go "" s'
      else split_go (String c cur) s'
  end.
Definition splitLines (s : string) : list string := split_go "" s.

(** [xs.join(sep)] *)
Definition join (sep : string) (xs : list string) : string := String.concat sep xs.

End JS.

(** ** JavaScript numbers *)

Module Num.

(** Template-literal interpolation [`${n}`] of an integral number. *)
Definition toString (n : Z) : string := pretty n.

(** A number in a boolean position ([undefined] and [0] are falsy). *)
Definition truthy (n : option Z) : bool :=
  match n with
  | Some v => negb (v =? 0)
  | None => false
  end.

Definition prec : Z := 53.
Definition emax : Z := 1024.

(** The binary64 value of an integer. *)
Definition ofZ (n : Z) : spec_float := binary_normalize prec emax n 0 false.

(** [a / b] on binary64. *)
Definition div (a b : Z) : spec_float := SFdiv prec emax (ofZ a) (ofZ b).

(** [x.toFixed(1)]: the integer [n] for which [n / 10] is nearest to the
    exact value of [x], the larger one on a tie, printed with one
    fraction digit. (Values from [1e21] on print in exponent form in JS;
    they are beyond the safe range the model reads.) *)
Definition tenths (m : positive) (e : Z) : Z :=
  if 0 <=? e then 10 * Z.pos m * 2 ^ e
  else (20 * Z.pos m + 2 ^ (- e)) / 2 ^ (1 - e).

Definition toFixed1 (x : spec_float) : string :=
  match x with
  | S754_zero _ => "0.0"
  | S754_infinity false => "Infinity"
  | S754_infinity true => "-Infinity"
  | S754_nan => "NaN"
  | S754_finite s m e =>
      let n := tenths m e in
      (if s then "-" else "") +:+ pretty (n / 10) +:+ "." +:+ pretty (n mod 10)
  end.

End Num.

(** ** The data model ([src/types/workout.ts]) *)

Module Ramp.
Record t := mk { start : string; end_ : string }.
End Ramp.

Module Interval.
(** [duration] and [recovery] are seconds when time-based and meters when
    distance-based; [durationType] is ['time'], ['distance'] or absent. *)
Record t := mk {
  repeat : Z;
  duration : Z;
  durationType : option string;
  intensity : string;
  recovery : option Z;
  recoveryIntensity : option string;
  ramp : option Ramp.t;
}.
End Interval.

Module Workout.
(** [type] holds the discipline as the string the plan carries
    (['run'], ['bike'], ['swim'], ['strength'], ['rest']); [duration] is in
    minutes and [distance] in kilometers. *)
Record t := mk {
  id : string;
  date : string;
  type : string;
  name : string;
  description : string;
  duration : option Z;
  distance : option Z;
  intensity : option string;
  intervals : option (list Interval.t);
  notes : option string;
}.
End Workout.

Module TrainingPlan.
(** [weeks] is [None] when the week count is [NaN]. *)
Record t := mk {
  id : string;
  name : string;
  startDate : string;
  endDate : string;
  weeks : option Z;
  workouts : list Workout.t;
  source : option string;
}.
End TrainingPlan.

(** ** [src/utils/workout-formatter.ts] *)

Module Formatter.

Abbreviation PaceMapping := (gmap string string).

(** [/^\d+:\d+/.test(s)] *)
Definition testPacePrefix (s : string) : bool :=
  match JS.takeWhile JS.isDigit s, JS.dropWhile JS.isDigit s with
  | String _ _, String c (String d _) =>
      bool_decide (c = ":"%char) && JS.isDigit d
  | _, _ => false
  end.

(** [/^Z[1-5]$/i.test(s)] *)
Definition testZone (s : string) : bool :=
  match s with
  | String z (String d "") =>
      bool_decide (JS.lowerChar z = "z"%char)
      && bool_decide (d ∈ ["1"; "2"; "3"; "4"; "5"]%char)
  | _ => false
  end.

(** The lexicon of [formatIntensity], keyed by the lowercased label. *)
Definition intensityMap (workoutType : string) : gmap string string :=
  list_to_map [
    ("easy", if bool_decide (workoutType = "run") then "Easy pace" else "Z2");
    ("recovery", "Z1");
    ("endurance", "Z2");
    ("aerobic", "Z2");
    ("tempo", "Z3");
    ("threshold", "Z4");
    ("lactate threshold", "Z4");
    ("lt", "Z4");
    ("vo2 max", "Z5");
    ("vo2max", "Z5");
    ("intervals", "Z5");
    ("5k pace", "5K pace");
    ("10k pace", "10K pace");
    ("marathon pace", "Marathon pace");
    ("half marathon pace", "Half Marathon pace");
    ("ftp", "100%");
    ("sweet spot", "88-93%")
  ].

(** [obj[key]] in a boolean position, with the value it then has. *)
Definition truthyEntry (m : gmap string string) (key : string) : option string :=
  match m !! key with
  | Some v => if JS.truthy v then Some v else None
  | None => None
  end.

Definition formatIntensity
    (intensity workoutType : string) (paceMapping : PaceMapping) : string :=
  if negb (JS.truthy intensity) then
    if bool_decide (workoutType = "run") then "Easy pace" else "moderate"
  else
    match truthyEntry paceMapping intensity with
    | Some mappedValue =>
        if (JS.includes "/km" mappedValue || JS.includes "/mi" mappedValue
            || testPacePrefix mappedValue)
           && negb (JS.includes "pace" (JS.toLowerCase mappedValue))
        then mappedValue +:+ " Pace"
        else mappedValue
    | None =>
        if testZone intensity then JS.toUpperCase intensity
        else if JS.includes "%" intensity then intensity
        else
          let normalized := JS.trim (JS.toLowerCase intensity) in
          match truthyEntry (intensityMap workoutType) normalized with
          | Some token => token
          | None => intensity
          end
    end.

Definition formatSingleInterval
    (interval : Interval.t) (workoutType : string) (paceMapping : PaceMapping)
    : string :=
  let isDistanceBased :=
    bool_decide (Interval.durationType interval = Some "distance") in
  let durationStr :=
    if isDistanceBased then
      if 1000 <=? Interval.duration interval
      then Num.toFixed1 (Num.div (Interval.duration interval) 1000) +:+ "km"
      else Num.toString (Interval.duration interval) +:+ "m"
    else
      if 60 <=? Interval.duration interval then
        let minutes := Interval.duration interval / 60 in
        let seconds := Interval.duration interval mod 60 in
        if 0 <? seconds
        then Num.toString minutes +:+ "m" +:+ Num.toString seconds +:+ "s"
        else Num.toString minutes +:+ "m"
      else Num.toString (Interval.duration interval) +:+ "s" in
  let intensityStr :=
    formatIntensity (Interval.intensity interval) workoutType paceMapping in
  match Interval.ramp interval with
  | Some r => durationStr +:+ " Ramp " +:+ Ramp.start r +:+ "-" +:+ Ramp.end_ r
  | None => durationStr +:+ " " +:+ intensityStr
  end.

Definition formatRecovery
    (interval : Interval.t) (workoutType : string) (paceMapping : PaceMapping)
    : string :=
  match Interval.recovery interval with
  | None => ""
  | Some recovery =>
      if recovery =? 0 then ""
      else
        let isDistanceBased :=
          bool_decide (Interval.durationType interval = Some "distance") in
        let recoveryStr :=
          if isDistanceBased then
            if 1000 <=? recovery
            then Num.toFixed1 (Num.div recovery 1000) +:+ "km"
            else Num.toString recovery +:+ "m"
          else
            if 60 <=? recovery then
              let minutes := recovery / 60 in
              let seconds := recovery mod 60 in
              if 0 <? seconds
              then Num.toString minutes +:+ "m" +:+ Num.toString seconds +:+ "s"
              else Num.toString minutes +:+ "m"
            else Num.toString recovery +:+ "s" in
        let recoveryIntensity :=
          JS.orElse (default "" (Interval.recoveryIntensity interval)) "Easy" in
        let intensityStr :=
          formatIntensity recoveryIntensity workoutType paceMapping in
        recoveryStr +:+ " " +:+ intensityStr
  end.

(** The lines one interval adds to [lines] in the loop of
    [formatIntervals]. *)
Definition intervalLines
    (interval : Interval.t) (workoutType : string) (paceMapping : PaceMapping)
    : list string :=
  ((if 1 <? Interval.repeat interval
    then [Num.toString (Interval.repeat interval) +:+ "x"] else [])
   ++ ["- " +:+ formatSingleInterval interval workoutType paceMapping]
   ++ (if Num.truthy (Interval.recovery interval)
       then ["- " +:+ formatRecovery interval workoutType paceMapping] else []))%list.

Definition formatIntervals
    (intervals : list Interval.t) (workoutType : string)
    (paceMapping : PaceMapping) : string :=
  let lines :=
    fold_left (fun lines interval =>
                 (lines ++ intervalLines interval workoutType paceMapping)%list)
              intervals [] in
  JS.join JS.nl lines.

(** *** The patterns of [detectWorkoutPhases] and [formatPhaseText]

    Each matcher is the backtracking search of the pattern it is named
    after, specialised to that pattern. *)

(** [(.+)] at the end of a pattern: the longest run of characters other
    than line terminators, at least one. *)
Definition dotPlus (s : string) : option string :=
  match JS.takeWhile (fun c => negb (JS.isLineTerminator c)) s with
  | "" => None
  | m => Some m
  end.

(** [\s*(.+)]: the whitespace is taken greedily and given back one
    character at a time while [(.+)] cannot match behind it. *)
Fixpoint spacesThenDotPlus (s : string) : option string :=
  match s with
  | "" => None
  | String c s' =>
      if JS.isSpace c then
        match spacesThenDotPlus s' with
        | Some g => Some g
        | None => dotPlus s
        end
      else dotPlus s
  end.

(** [:?\s*(.+)]: the colon is taken when present and given back when the
    rest cannot match behind it. *)
Definition colonSpacesThenDotPlus (s : string) : option string :=
  match s with
  | String ":" s' =>
      match spacesThenDotPlus s' with
      | Some g => Some g
      | None => spacesThenDotPlus s
      end
  | _ => spacesThenDotPlus s
  end.

(** [line.match(/^(k1|k2|...):?\s*(.+)/i)]: group 2 of the match. *)
Fixpoint matchPhase (keywords : list string) (line : string) : option string :=
  match keywords with
  | [] => None
  | k :: rest =>
      match JS.stripPrefixCI k line with
      | Some tail =>
          match colonSpacesThenDotPlus tail with
          | Some g => Some g
          | None => matchPhase rest line
          end
      | None => matchPhase rest line
      end
  end.

Definition warmupPattern : string -> option string :=
  matchPhase ["warmup"; "warm-up"; "warm up"].
Definition cooldownPattern : string -> option string :=
  matchPhase ["cooldown"; "cool-down"; "cool down"].

(** The result of [text.match(re)]: [match[0]], [match[1]], [match[2]]. *)
Record Match := mkMatch { whole : string; group1 : string; group2 : string }.

(** The first alternative of [(a1|a2|...)] that matches at the start of
    [s], case-insensitively, and after which [after] accepts the rest;
    the matched text is returned as [s] spells it. *)
Fixpoint firstAlt (alts : list string) (after : string -> bool) (s : string)
    : option string :=
  match alts with
  | [] => None
  | a :: rest =>
      match JS.stripPrefixCI a s with
      | Some tail =>
          if after tail then Some (String.substring 0 (String.length a) s)
          else firstAlt rest after s
      | None => firstAlt rest after s
      end
  end.

(** [\b] behind a letter: the end of the text or a non-word character. *)
Definition wordBoundary (rest : string) : bool :=
  match rest with
  | "" => true
  | String c _ => negb (JS.isWordChar c)
  end.

(** [(\d+)\s*(u1|u2|...)] followed by [after], tried at the start of [s].
    The digits and the whitespace are taken greedily; giving characters
    back cannot help, as the next character is then a digit or a
    whitespace and no unit starts with one. *)
Definition quantityAt (units : list string) (after : string -> bool) (s : string)
    : option Match :=
  let digits := JS.takeWhile JS.isDigit s in
  let rest := JS.dropWhile JS.isDigit s in
  if JS.truthy digits then
    let spaces := JS.takeWhile JS.isSpace rest in
    match firstAlt units after (JS.dropWhile JS.isSpace rest) with
    | Some unit => Some (mkMatch (digits +:+ spaces +:+ unit) digits unit)
    | None => None
    end
  else None.

(** The leftmost position of [text] at which the pattern matches. *)
Fixpoint search (matchAt : string -> option Match) (text : string) : option Match :=
  match matchAt text with
  | Some m => Some m
  | None =>
      match text with
      | "" => None
      | String _ text' => search matchAt text'
      end
  end.

(** [/(\d+)\s*(min|minute|minutes|m)/i] *)
Definition timePattern : string -> option Match :=
  search (quantityAt ["min"; "minute"; "minutes"; "m"] (fun _ => true)).

(** [/(\d+)\s*(km|k|miles?|m)\b/i] *)
Definition distancePattern : string -> option Match :=
  search (quantityAt ["km"; "k"; "miles"; "mile"; "m"] wordBoundary).

Definition formatPhaseText (text : string) (paceMapping : PaceMapping) : string :=
  let timeMatch := timePattern text in
  let distanceMatch := distancePattern text in
  match timeMatch with
  | Some m =>
      let duration := group1 m in
      let intensity := JS.orElse (JS.trim (JS.removeFirst (whole m) text)) "Easy" in
      "- " +:+ duration +:+ "m " +:+ formatIntensity intensity "run" paceMapping
  | None =>
      match distanceMatch with
      | Some m =>
          let distance := group1 m in
          let unit := JS.toLowerCase (group2 m) in
          let distanceStr :=
            if JS.includes "k" unit then distance +:+ "km" else distance +:+ "m" in
          let intensity :=
            JS.orElse (JS.trim (JS.removeFirst (whole m) text)) "Easy" in
          "- " +:+ distanceStr +:+ " " +:+ formatIntensity intensity "run" paceMapping
      | None => "- " +:+ text
      end
  end.

Record Phases := mkPhases {
  warmup : option string;
  mainSet : option string;
  cooldown : option string;
}.

(** The body of the loop over the lines of the description. *)
Definition phaseStep (paceMapping : PaceMapping) (phases : Phases) (line : string)
    : Phases :=
  match warmupPattern line with
  | Some g =>
      mkPhases (Some (formatPhaseText g paceMapping))
               (mainSet phases) (cooldown phases)
  | None =>
      match cooldownPattern line with
      | Some g =>
          mkPhases (warmup phases) (mainSet phases)
                   (Some (formatPhaseText g paceMapping))
      | None => phases
      end
  end.

Definition detectWorkoutPhases (description : string) (paceMapping : PaceMapping)
    : Phases :=
  let lines := List.filter JS.truthy (map JS.trim (JS.splitLines description)) in
  fold_left (phaseStep paceMapping) lines (mkPhases None None None).

(** The interval synthesized from the scalars of a workout without
    intervals. *)
Definition syntheticInterval (workout : Workout.t) : Interval.t :=
  Interval.mk
    1
    (match Workout.distance workout with
     | Some d => if d =? 0 then default 0 (Workout.duration workout) * 60
                 else d * 1000
     | None => default 0 (Workout.duration workout) * 60
     end)
    (Some (if Num.truthy (Workout.distance workout) then "distance" else "time"))
    (JS.orElse (default "" (Workout.intensity workout)) "Easy")
    None None None.

Definition formatWorkoutForIntervalsICU
    (workout : Workout.t) (paceMapping : PaceMapping) : string :=
  let intervalsToFormat := default [] (Workout.intervals workout) in
  let structured : option (list Interval.t) :=
    if (length intervalsToFormat =? 0)%nat then
      if Num.truthy (Workout.distance workout)
         || Num.truthy (Workout.duration workout)
      then Some [syntheticInterval workout]
      else None
    else Some intervalsToFormat in
  match structured with
  | None => Workout.description workout
  | Some intervalsToFormat =>
      let phases := detectWorkoutPhases (Workout.description workout) paceMapping in
      let sections : list string := [] in
      let sections :=
        if JS.truthyOpt (warmup phases)
        then (sections ++ ["Warmup"; default "" (warmup phases); ""])%list
        else sections in
      let sections :=
        if (0 <? length intervalsToFormat)%nat then
          let sections :=
            if JS.truthyOpt (warmup phases) || JS.truthyOpt (cooldown phases)
               || (1 <? length intervalsToFormat)%nat
            then (sections ++ ["Main Set"])%list
            else sections in
          let intervalText :=
            formatIntervals intervalsToFormat (Workout.type workout) paceMapping in
          (sections ++ [intervalText; ""])%list
        else if JS.truthyOpt (mainSet phases)
        then (sections ++ ["Main Set"; default "" (mainSet phases); ""])%list
        else sections in
      let sections :=
        if JS.truthyOpt (cooldown phases)
        then (sections ++ ["Cooldown"; default "" (cooldown phases); ""])%list
        else sections in
      let formatted := JS.trim (JS.join JS.nl sections) in
      if negb (JS.truthy formatted) then Workout.description workout
      else
        let hasAdditionalInfo :=
          (20 <? String.length (Workout.description workout))%nat
          && negb (JS.includes formatted (Workout.description workout)) in
        if hasAdditionalInfo then formatted else formatted
  end.

End Formatter.

(** ** The host: dates

    [new Date(s).getTime()] is the engine's; the validator is written over
    any function [dateTime], [None] standing for the [NaN] time value of an
    invalid date. [Engine.isoDateTime] is the reading of ECMAScript's
    date-only form [YYYY-MM-DD] (UTC midnight, out-of-range fields
    invalid), used to run the validator. *)

Module Engine.

Definition digitValue (c : ascii) : Z := Z.of_nat (nat_of_ascii c) - 48.

Fixpoint decimalValue (acc : Z) (s : string) : Z :=
  match s with
  | "" => acc
  | String c s' => decimalValue (10 * acc + digitValue c) s'
  end.

Definition isLeapYear (y : Z) : bool :=
  ((y mod 4 =? 0) && negb (y mod 100 =? 0)) || (y mod 400 =? 0).

Definition daysInMonth (y m : Z) : Z :=
  if m =? 2 then (if isLeapYear y then 29 else 28)
  else if (m =? 4) || (m =? 6) || (m =? 9) || (m =? 11) then 30
  else 31.

(** Days from 1970-01-01 to the civil date [y]-[m]-[d]. *)
Definition daysFromCivil (y m d : Z) : Z :=
  let y' := if m <=? 2 then y - 1 else y in
  let era := y' / 400 in
  let yoe := y' - era * 400 in
  let mp := (m + 9) mod 12 in
  let doy := (153 * mp + 2) / 5 + d - 1 in
  let doe := yoe * 365 + yoe / 4 - yoe / 100 + doy in
  era * 146097 + doe - 719468.

Definition msPerDay : Z := 1000 * 60 * 60 * 24.

Definition isoDateTime (s : string) : option Z :=
  match list_ascii_of_string s with
  | [y1; y2; y3; y4; h1; m1; m2; h2; d1; d2] =>
      if forallb JS.isDigit [y1; y2; y3; y4; m1; m2; d1; d2]
         && bool_decide (h1 = "-"%char) && bool_decide (h2 = "-"%char)
      then
        let y := decimalValue 0 (string_of_list_ascii [y1; y2; y3; y4]) in
        let m := decimalValue 0 (string_of_list_ascii [m1; m2]) in
        let d := decimalValue 0 (string_of_list_ascii [d1; d2]) in
        if (1 <=? m) && (m <=? 12) && (1 <=? d) && (d <=? daysInMonth y m)
        then Some (daysFromCivil y m d * msPerDay)
        else None
      else None
  | _ => None
  end.

End Engine.

(** ** [src/utils/workout-validator.ts] *)

Module PartialWorkout.
(** [Partial<Workout>]: every field may be absent. *)
Record t := mk {
  id : option string;
  date : option string;
  type : option string;
  name : option string;
  description : option string;
  duration : option Z;
  distance : option Z;
  intensity : option string;
  intervals : option (list Interval.t);
  notes : option string;
}.
End PartialWorkout.

Module PartialTrainingPlan.
(** [Partial<TrainingPlan>] *)
Record t := mk {
  id : option string;
  name : option string;
  startDate : option string;
  endDate : option string;
  weeks : option Z;
  workouts : option (list PartialWorkout.t);
  source : option string;
}.
End PartialTrainingPlan.

Module WorkoutValidator.

Record Validation := mkValidation { valid : bool; errors : list string }.

Definition isValidWorkoutType (type : string) : bool :=
  bool_decide (type ∈ ["run"; "bike"; "swim"; "strength"; "rest"]).

Definition isValidIntensity (intensity : string) : bool :=
  bool_decide (intensity ∈ ["easy"; "moderate"; "hard"; "race"]).

(** [/^\d{4}-\d{2}-\d{2}$/.test(s)] *)
Definition iso8601Regex (s : string) : bool :=
  match list_ascii_of_string s with
  | [y1; y2; y3; y4; h1; m1; m2; h2; d1; d2] =>
      forallb JS.isDigit [y1; y2; y3; y4; m1; m2; d1; d2]
      && bool_decide (h1 = "-"%char) && bool_decide (h2 = "-"%char)
  | _ => false
  end.

(** [Math.ceil(a / b)] for [0 <= a] and [0 < b]. *)
Definition ceilDiv (a b : Z) : Z := (a + b - 1) / b.

Section Host.

Variable dateTime : string -> option Z.

Definition isValidISODate (dateString : string) : bool :=
  if negb (iso8601Regex dateString) then false
  else bool_decide (is_Some (dateTime dateString)).

Definition validateWorkout (workout : PartialWorkout.t) : Validation :=
  let errors : list string := [] in
  let errors :=
    if negb (JS.truthyOpt (PartialWorkout.id workout))
    then errors ++ ["Workout ID is required"] else errors in
  let errors :=
    if negb (JS.truthyOpt (PartialWorkout.date workout))
    then errors ++ ["Workout date is required"]
    else if negb (isValidISODate (default "" (PartialWorkout.date workout)))
    then errors ++ ["Invalid date format. Use YYYY-MM-DD"] else errors in
  let errors :=
    if negb (JS.truthyOpt (PartialWorkout.type workout))
    then errors ++ ["Workout type is required"]
    else if negb (isValidWorkoutType (default "" (PartialWorkout.type workout)))
    then errors ++ ["Invalid workout type: "
                    +:+ default "" (PartialWorkout.type workout)]
    else errors in
  let errors :=
    if negb (JS.truthyOpt (PartialWorkout.name workout))
    then errors ++ ["Workout name is required"] else errors in
  let errors :=
    if negb (JS.truthyOpt (PartialWorkout.description workout))
    then errors ++ ["Workout description is required"] else errors in
  let errors :=
    if match PartialWorkout.duration workout with
       | Some d => d <? 0
       | None => false
       end
    then errors ++ ["Duration must be positive"] else errors in
  let errors :=
    if match PartialWorkout.distance workout with
       | Some d => d <? 0
       | None => false
       end
    then errors ++ ["Distance must be positive"] else errors in
  let errors :=
    if JS.truthyOpt (PartialWorkout.intensity workout)
       && negb (isValidIntensity (default "" (PartialWorkout.intensity workout)))
    then errors ++ ["Invalid intensity: "
                    +:+ default "" (PartialWorkout.intensity workout)]
    else errors in
  mkValidation (length errors =? 0)%nat errors.

(** [end <= start] on the two [Date] objects. *)
Definition dateLe (a b : string) : bool :=
  match dateTime a, dateTime b with
  | Some ta, Some tb => ta <=? tb
  | _, _ => false
  end.

(** The body of [plan.workouts.forEach((workout, index) => ...)],
    [index] being the position of the head of [workouts]. *)
Fixpoint validateEach (workouts : list PartialWorkout.t) (index : nat)
    (errors : list string) : list string :=
  match workouts with
  | [] => errors
  | workout :: rest =>
      let workoutValidation := validateWorkout workout in
      let errors :=
        if negb (valid workoutValidation)
        then errors ++ ["Workout " +:+ pretty (index + 1)%nat +:+ ": "
                        +:+ JS.join ", " (WorkoutValidator.errors workoutValidation)]
        else errors in
      validateEach rest (S index) errors
  end.

Definition validateTrainingPlan (plan : PartialTrainingPlan.t) : Validation :=
  let errors : list string := [] in
  let errors :=
    if negb (JS.truthyOpt (PartialTrainingPlan.id plan))
    then errors ++ ["Plan ID is required"] else errors in
  let errors :=
    if negb (JS.truthyOpt (PartialTrainingPlan.name plan))
    then errors ++ ["Plan name is required"] else errors in
  let errors :=
    if negb (JS.truthyOpt (PartialTrainingPlan.startDate plan))
    then errors ++ ["Start date is required"]
    else if negb (isValidISODate (default "" (PartialTrainingPlan.startDate plan)))
    then errors ++ ["Invalid start date format"] else errors in
  let errors :=
    if negb (JS.truthyOpt (PartialTrainingPlan.endDate plan))
    then errors ++ ["End date is required"]
    else if negb (isValidISODate (default "" (PartialTrainingPlan.endDate plan)))
    then errors ++ ["Invalid end date format"] else errors in
  let errors :=
    match PartialTrainingPlan.workouts plan with
    | None => errors ++ ["Workouts array is required"]
    | Some ws =>
        if (length ws =? 0)%nat
        then errors ++ ["Plan must have at least one workout"] else errors
    end in
  let errors :=
    if JS.truthyOpt (PartialTrainingPlan.startDate plan)
       && JS.truthyOpt (PartialTrainingPlan.endDate plan)
       && isValidISODate (default "" (PartialTrainingPlan.startDate plan))
       && isValidISODate (default "" (PartialTrainingPlan.endDate plan))
    then
      let start := default "" (PartialTrainingPlan.startDate plan) in
      let end_ := default "" (PartialTrainingPlan.endDate plan) in
      if dateLe end_ start
      then errors ++ ["End date must be after start date"] else errors
    else errors in
  let errors :=
    match PartialTrainingPlan.workouts plan with
    | Some ws => validateEach ws 0 errors
    | None => errors
    end in
  mkValidation (length errors =? 0)%nat errors.

(** [calculateWeeks]: [None] is [NaN]. *)
Definition calculateWeeks (startDate endDate : string) : option Z :=
  match dateTime startDate, dateTime endDate with
  | Some start, Some end_ =>
      let diffTime := Z.abs (end_ - start) in
      let diffDays := ceilDiv diffTime (1000 * 60 * 60 * 24) in
      Some (ceilDiv diffDays 7)
  | _, _ => None
  end.

End Host.

(** *** Identifiers

    [generateWorkoutId] and [generatePlanId] read the clock and the
    random source: [now] is [Date.now()] and [suffix] is
    [Math.random().toString(36).substr(2, 9)] at the call. *)
Definition generateWorkoutId (now : Z) (suffix : string) : string :=
  "workout_" +:+ Num.toString now +:+ "_" +:+ suffix.

Definition generatePlanId (now : Z) (suffix : string) : string :=
  "plan_" +:+ Num.toString now +:+ "_" +:+ suffix.

End WorkoutValidator.

(** ** [src/types/api.ts] *)

Module Api.

(** [APIResult<T>]: [{ success: true; data }] or [{ success: false; error }]. *)
Inductive APIResult (T : Type) : Type :=
| Success (data : T)
| Failure (error : string).
Arguments Success {T} data.
Arguments Failure {T} error.

Definition success {T} (r : APIResult T) : bool :=
  match r with
  | Success _ => true
  | Failure _ => false
  end.

Record IntervalsICUConfig := mkConfig {
  apiKey : string;
  athleteId : option string;
}.

Record IntervalsICUEvent := mkEvent {
  external_id : option string;
  category : string;
  start_date_local : string;
  name : string;
  description : string;
  type : option string;
  moving_time : option Z;
  distance : option Z;
}.

Record IntervalsICUUploadResponse := mkUploadResponse {
  response_id : Z;
  athlete_id : Z;
  response_start_date_local : string;
  response_name : string;
}.

(** [IntervalsICUError], of which the client reads [message]; a body
    without one has [None]. *)
Record IntervalsICUError := mkError {
  error_message : option string;
  error_status : Z;
}.

End Api.

(** ** [src/utils/json-parser.ts] *)

Module Json.

(** What [JSON.parse] returns. *)
Inductive t : Type :=
| Null
| Bool (b : bool)
| Number (n : Z)
| Str (s : string)
| Array (items : list t)
| Object (members : list (string * t)).

(** The value of the member [key], the last one written when the key is
    repeated; [None] is [undefined]. *)
Fixpoint lookup (key : string) (members : list (string * t)) : option t :=
  match members with
  | [] => None
  | (k, v) :: rest =>
      match lookup key rest with
      | Some v' => Some v'
      | None => if bool_decide (k = key) then Some v else None
      end
  end.

(** [v.key] for the property names the importer reads. *)
Definition get (key : string) (v : t) : option t :=
  match v with
  | Object members => lookup key members
  | _ => None
  end.

(** [typeof v === 'object' && v !== null] *)
Definition isObject (v : t) : bool :=
  match v with
  | Object _ | Array _ => true
  | _ => false
  end.

Definition truthy (v : option t) : bool :=
  match v with
  | None | Some Null => false
  | Some (Bool b) => b
  | Some (Number n) => negb (n =? 0)
  | Some (Str s) => JS.truthy s
  | Some (Array _) | Some (Object _) => true
  end.

(** [v] when [v] is truthy and [typeof v === 'string']. *)
Definition nonEmptyString (v : option t) : option string :=
  match v with
  | Some (Str s) => if JS.truthy s then Some s else None
  | _ => None
  end.

End Json.

Module ImportedWorkout.
(** The workout record the importer builds. The optional fields are cast,
    not checked: they hold the JSON value as it was read. *)
Record t := mk {
  id : option string;
  date : string;
  type : string;
  name : string;
  description : Json.t;
  duration : option Json.t;
  distance : option Json.t;
  intensity : option Json.t;
  intervals : option Json.t;
  notes : option Json.t;
}.

Definition withId (w : t) (i : string) : t :=
  mk (Some i) (date w) (type w) (name w) (description w) (duration w)
     (distance w) (intensity w) (intervals w) (notes w).
End ImportedWorkout.

Module ImportedPlan.
Record t := mk {
  id : string;
  name : string;
  startDate : string;
  endDate : string;
  weeks : option Z;
  workouts : list ImportedWorkout.t;
  source : option string;
}.

Definition withSource (p : t) (s : string) : t :=
  mk (id p) (name p) (startDate p) (endDate p) (weeks p) (workouts p) (Some s).
End ImportedPlan.

Module JsonParser.

(** [{ valid: true, ... }] with its payload, or [{ valid: false, error }]. *)
Inductive Checked (A : Type) : Type :=
| Valid (a : A)
| Invalid (error : string).
Arguments Valid {A} a.
Arguments Invalid {A} error.

Definition valid {A} (c : Checked A) : bool :=
  match c with
  | Valid _ => true
  | Invalid _ => false
  end.

Record File := mkFile {
  file_name : string;
  file_type : string;
  file_size : Z;
  (** the text [FileReader] reads, [None] when reading fails *)
  file_text : option string;
}.

Definition endsWith (suffix s : string) : bool :=
  JS.startsWith (String.rev suffix) (String.rev s).

Definition validateJSONFile (file : File) : Checked unit :=
  if negb (endsWith ".json" (file_name file))
     && negb (bool_decide (file_type file = "application/json"))
  then Invalid "File must be a JSON file"
  else
    let maxSize := 5 * 1024 * 1024 in
    if maxSize <? file_size file
    then Invalid "JSON file must be less than 5MB"
    else Valid tt.

(** [/^\d{4}-\d{2}-\d{2}$/.test(s)] *)
Definition dateRegex (s : string) : bool := WorkoutValidator.iso8601Regex s.

Definition validTypes : list string := ["run"; "bike"; "swim"; "strength"; "rest"].
Definition validIntensities : list string := ["easy"; "moderate"; "hard"; "race"].

Definition validateWorkout (workout : Json.t) (index : nat)
    : Checked ImportedWorkout.t :=
  let at_index := "Workout at index " +:+ pretty index in
  if negb (Json.isObject workout)
  then Invalid (at_index +:+ " is not an object")
  else
    let w := workout in
    match Json.nonEmptyString (Json.get "date" w) with
    | None =>
        Invalid (at_index
          +:+ " is missing a valid 'date' field (expected YYYY-MM-DD format)")
    | Some date =>
    if negb (dateRegex date)
    then Invalid (at_index +:+ " has invalid date format: " +:+ date
                  +:+ ". Expected YYYY-MM-DD")
    else
    match Json.nonEmptyString (Json.get "type" w) with
    | None => Invalid (at_index +:+ " is missing a valid 'type' field")
    | Some type =>
    if negb (bool_decide (type ∈ validTypes))
    then Invalid (at_index +:+ " has invalid type: " +:+ type
                  +:+ ". Expected one of: " +:+ JS.join ", " validTypes)
    else
    match Json.nonEmptyString (Json.get "name" w) with
    | None => Invalid (at_index +:+ " is missing a valid 'name' field")
    | Some name =>
    let imported :=
      ImportedWorkout.mk None date type name
        (if Json.truthy (Json.get "description" w)
         then default (Json.Str "") (Json.get "description" w)
         else Json.Str "")
        (Json.get "duration" w) (Json.get "distance" w)
        (Json.get "intensity" w) (Json.get "intervals" w)
        (Json.get "notes" w) in
    match Json.nonEmptyString (Json.get "intensity" w) with
    | Some intensity =>
        if negb (bool_decide (intensity ∈ validIntensities))
        then Invalid (at_index +:+ " has invalid intensity: " +:+ intensity
                      +:+ ". Expected one of: " +:+ JS.join ", " validIntensities)
        else Valid imported
    | None => Valid imported
    end end end end.

Section Host.

(** The engine's date parsing, and the clock reading and random suffix
    the [n]-th generated identifier is built from. *)
Variable dateTime : string -> option Z.
Variable idSource : nat -> Z * string.
(** [JSON.parse]: [None] when it throws. *)
Variable JSON_parse : string -> option Json.t.

(** The loop over [obj.workouts]; [i] is the index of the head of
    [workouts] and [validatedWorkouts] what was pushed so far. *)
Fixpoint validateAll (workouts : list Json.t) (i : nat)
    (validatedWorkouts : list ImportedWorkout.t)
    : Checked (list ImportedWorkout.t) :=
  match workouts with
  | [] => Valid validatedWorkouts
  | workout :: rest =>
      match validateWorkout workout i with
      | Invalid error => Invalid error
      | Valid result =>
          let id := WorkoutValidator.generateWorkoutId
                      (fst (idSource i)) (snd (idSource i)) in
          validateAll rest (S i)
            (validatedWorkouts ++ [ImportedWorkout.withId result id])
      end
  end.

Definition validateTrainingPlanJSON (data : Json.t) : Checked ImportedPlan.t :=
  if negb (Json.isObject data)
  then Invalid "Invalid JSON: expected an object"
  else
    let obj := data in
    match Json.nonEmptyString (Json.get "name" obj) with
    | None => Invalid "Missing required field: 'name' (string)"
    | Some name =>
    match Json.nonEmptyString (Json.get "startDate" obj) with
    | None => Invalid "Missing required field: 'startDate' (YYYY-MM-DD format)"
    | Some startDate =>
    match Json.nonEmptyString (Json.get "endDate" obj) with
    | None => Invalid "Missing required field: 'endDate' (YYYY-MM-DD format)"
    | Some endDate =>
    if negb (dateRegex startDate)
    then Invalid ("Invalid startDate format: " +:+ startDate
                  +:+ ". Expected YYYY-MM-DD")
    else if negb (dateRegex endDate)
    then Invalid ("Invalid endDate format: " +:+ endDate
                  +:+ ". Expected YYYY-MM-DD")
    else
    match Json.get "workouts" obj with
    | Some (Json.Array workouts) =>
        if (length workouts =? 0)%nat
        then Invalid "Workouts array is empty"
        else
          match validateAll workouts 0 [] with
          | Invalid error => Invalid error
          | Valid validatedWorkouts =>
              let n := length workouts in
              Valid (ImportedPlan.mk
                       (WorkoutValidator.generatePlanId
                          (fst (idSource n)) (snd (idSource n)))
                       name startDate endDate
                       (WorkoutValidator.calculateWeeks dateTime startDate endDate)
                       validatedWorkouts
                       (Some "json-import"))
          end
    | _ => Invalid "Missing required field: 'workouts' (array)"
    end end end end.

(** [readJSONFile]: the parsed text, or the message of the rejection. *)
Definition readJSONFile (file : File) : Checked Json.t :=
  match file_text file with
  | None => Invalid "Failed to read file"
  | Some text =>
      match JSON_parse text with
      | Some data => Valid data
      | None =>
          Invalid "Failed to parse JSON file. Please ensure it is valid JSON."
      end
  end.

Definition processJSONFile (file : File) : Api.APIResult ImportedPlan.t :=
  match validateJSONFile file with
  | Invalid error => Api.Failure error
  | Valid _ =>
      match readJSONFile file with
      | Invalid message => Api.Failure message
      | Valid data =>
          match validateTrainingPlanJSON data with
          | Invalid error => Api.Failure error
          | Valid plan =>
              Api.Success (ImportedPlan.withSource plan (file_name file))
          end
      end
  end.

End Host.

End JsonParser.

(** ** [src/utils/intervals-icu.ts] *)

Module IntervalsIcu.

Import Api.

Definition INTERVALS_ICU_BASE_URL : string := "https://intervals.icu/api/v1".

(** The discipline-to-category table of [formatWorkoutForAPI]. *)
Definition categoryMap : gmap string string :=
  list_to_map [("run", "Run"); ("bike", "Ride"); ("swim", "Swim");
               ("strength", "WeightTraining")].

Definition formatWorkoutForAPI (workout : Workout.t) : IntervalsICUEvent :=
  let formattedDate :=
    if JS.includes "T" (Workout.date workout)
    then Workout.date workout
    else Workout.date workout +:+ "T00:00:00" in
  let isRestDay := bool_decide (Workout.type workout = "rest") in
  let formattedDescription :=
    match Workout.intervals workout with
    | Some intervals =>
        if (0 <? length intervals)%nat
        then Formatter.formatWorkoutForIntervalsICU workout ∅
        else Workout.description workout
    | None => Workout.description workout
    end in
  mkEvent
    (Some (Workout.id workout))
    (if isRestDay then "NOTE" else "WORKOUT")
    formattedDate
    (Workout.name workout)
    formattedDescription
    (if isRestDay then None
     else Some (default "Run"
                  (Formatter.truthyEntry categoryMap (Workout.type workout))))
    (if Num.truthy (Workout.duration workout)
     then Some (default 0 (Workout.duration workout) * 60) else None)
    (if Num.truthy (Workout.distance workout)
     then Some (default 0 (Workout.distance workout) * 1000) else None).

(** *** The network

    What [fetch] and the reading of the response body can do. A thrown
    value is an [Error] with its message, or something else. *)
Inductive Thrown : Type :=
| ThrownError (message : string)
| ThrownOther.

Inductive FetchOutcome : Type :=
| FetchRejected (t : Thrown)
| ResponseNotOk (body : Thrown + IntervalsICUError)
| ResponseOk (body : Thrown + IntervalsICUUploadResponse).

Record Request := mkRequest {
  url : string;
  method : string;
  authorization : string;
  body : IntervalsICUEvent;
}.

(** What a run does to the outside, in order: an upload attempt with the
    request it sent and the result it settled with, a call of the progress
    callback, a wait. *)
Inductive Effect : Type :=
| Upload (request : Request) (result : APIResult IntervalsICUUploadResponse)
| Progress (current total : nat)
| Wait (ms : Z).

Definition requestsOf (log : list Effect) : list Request :=
  omap (fun e => match e with Upload r _ => Some r | _ => None end) log.

Definition resultsOf (log : list Effect)
    : list (APIResult IntervalsICUUploadResponse) :=
  omap (fun e => match e with Upload _ r => Some r | _ => None end) log.

Record Results := mkResults {
  succeeded : nat;
  failed : nat;
  errors : list string;
}.

Section Host.

(** [btoa], and the network: the outcome of a request, given the
    requests sent before it. *)
Variable btoa : string -> string.
Variable network : list Request -> Request -> FetchOutcome.

Definition createAuthHeader (apiKey : string) : string :=
  let credentials := btoa ("API_KEY:" +:+ apiKey) in
  "Basic " +:+ credentials.

(** [error instanceof Error ? error.message : 'Unknown error occurred'] *)
Definition caught (t : Thrown) : string :=
  match t with
  | ThrownError message => message
  | ThrownOther => "Unknown error occurred"
  end.

Definition uploadSingleWorkout
    (workout : Workout.t) (config : IntervalsICUConfig) (log : list Effect)
    : APIResult IntervalsICUUploadResponse * list Effect :=
  let athleteId := JS.orElse (default "" (athleteId config)) "0" in
  let event := formatWorkoutForAPI workout in
  let request :=
    mkRequest
      (INTERVALS_ICU_BASE_URL +:+ "/athlete/" +:+ athleteId +:+ "/events")
      "POST" (createAuthHeader (apiKey config)) event in
  let result :=
    match network (requestsOf log) request with
    | FetchRejected t => Failure (caught t)
    | ResponseNotOk (inl t) => Failure (caught t)
    | ResponseNotOk (inr errorData) =>
        Failure (JS.orElse (default "" (error_message errorData))
                   ("Failed to upload workout: " +:+ Workout.name workout))
    | ResponseOk (inl t) => Failure (caught t)
    | ResponseOk (inr data) => Success data
    end in
  (result, log ++ [Upload request result]).

(** The [for] loop of [uploadWorkoutPlan] from index [i] on, [workouts]
    being [plan.workouts] from that index. *)
Fixpoint uploadLoop
    (workouts : list Workout.t) (i total : nat) (config : IntervalsICUConfig)
    (onProgress : bool) (results : Results) (log : list Effect)
    : Results * list Effect :=
  match workouts with
  | [] => (results, log)
  | workout :: rest =>
      let '(result, log) := uploadSingleWorkout workout config log in
      let results :=
        match result with
        | Success _ =>
            mkResults (succeeded results + 1) (failed results) (errors results)
        | Failure error =>
            mkResults (succeeded results) (failed results + 1)
              (errors results
               ++ [Workout.name workout +:+ " (" +:+ Workout.date workout
                   +:+ "): " +:+ error])
        end in
      let log := if onProgress then log ++ [Progress (i + 1) total] else log in
      let log := if (i <? total - 1)%nat then log ++ [Wait 200] else log in
      uploadLoop rest (S i) total config onProgress results log
  end.

(** [onProgress] tells whether the callback was passed. The tallies the
    loop ends with are returned next to the result. *)
Definition uploadWorkoutPlan
    (plan : TrainingPlan.t) (config : IntervalsICUConfig) (onProgress : bool)
    (log : list Effect)
    : APIResult Results * Results * list Effect :=
  let results := mkResults 0 0 [] in
  let total := length (TrainingPlan.workouts plan) in
  let '(results, log) :=
    uploadLoop (TrainingPlan.workouts plan) 0 total config onProgress
               results log in
  if (0 <? failed results)%nat then
    (Failure ("Uploaded " +:+ pretty (succeeded results) +:+ " workouts, "
              +:+ pretty (failed results) +:+ " failed. Errors: "
              +:+ JS.join "; " (errors results)),
     results, log)
  else (Success results, results, log).

End Host.

End IntervalsIcu.

(** ** [src/utils/storage.ts] *)

Module Storage.

(** [localStorage]: its entries and what the host refuses. A [disabled]
    storage throws at every access; a [full] one throws at [setItem]. The
    helpers catch what is thrown. *)
Record LocalStorage := mkStorage {
  entries : gmap string string;
  disabled : bool;
  full : bool;
}.

Definition INTERVALS_API_KEY : string := "intervals_icu_api_key".
Definition GOOGLE_AI_API_KEY : string := "google_ai_api_key".
Definition PREFERENCES : string := "user_preferences".

(** The [service] argument: ['intervals'] or ['googleai']. *)
Inductive Service : Type :=
| intervals
| googleai.

Definition storageKey (service : Service) : string :=
  match service with
  | intervals => INTERVALS_API_KEY
  | googleai => GOOGLE_AI_API_KEY
  end.

Definition saveAPIKey (service : Service) (key : string) (ls : LocalStorage)
    : LocalStorage :=
  if disabled ls || full ls then ls
  else mkStorage (<[storageKey service := key]> (entries ls)) (disabled ls) (full ls).

(** [None] is [null]. *)
Definition getAPIKey (service : Service) (ls : LocalStorage) : option string :=
  if disabled ls then None
  else entries ls !! storageKey service.

Definition clearAPIKeys (ls : LocalStorage) : LocalStorage :=
  if disabled ls then ls
  else mkStorage (delete GOOGLE_AI_API_KEY (delete INTERVALS_API_KEY (entries ls)))
         (disabled ls) (full ls).

(** [{ intervals: !!getAPIKey('intervals'), googleai: !!getAPIKey('googleai') }] *)
Definition hasAPIKeys (ls : LocalStorage) : bool * bool :=
  (JS.truthyOpt (getAPIKey intervals ls), JS.truthyOpt (getAPIKey googleai ls)).

Definition clearAllStorage (ls : LocalStorage) : LocalStorage :=
  if disabled ls then ls
  else mkStorage ∅ (disabled ls) (full ls).

End Storage.

(** ** [src/components/PlanPreview.tsx]: the edits of a plan

    Each handler hands the edited plan to [onPlanUpdate]; the model returns
    that plan. *)

Module PlanPreview.

(** [{ ...plan, workouts }] *)
Definition withWorkouts (plan : TrainingPlan.t) (workouts : list Workout.t)
    : TrainingPlan.t :=
  TrainingPlan.mk (TrainingPlan.id plan) (TrainingPlan.name plan)
    (TrainingPlan.startDate plan) (TrainingPlan.endDate plan)
    (TrainingPlan.weeks plan) workouts (TrainingPlan.source plan).

Definition handleWorkoutUpdate (plan : TrainingPlan.t) (updatedWorkout : Workout.t)
    : TrainingPlan.t :=
  let updatedWorkouts :=
    map (fun w => if bool_decide (Workout.id w = Workout.id updatedWorkout)
                  then updatedWorkout else w)
        (TrainingPlan.workouts plan) in
  withWorkouts plan updatedWorkouts.

Definition handleWorkoutDelete (plan : TrainingPlan.t) (id : string)
    : TrainingPlan.t :=
  let updatedWorkouts :=
    List.filter (fun w => negb (bool_decide (Workout.id w = id)))
                (TrainingPlan.workouts plan) in
  withWorkouts plan updatedWorkouts.

Definition handlePlanNameChange (plan : TrainingPlan.t) (name : string)
    : TrainingPlan.t :=
  TrainingPlan.mk (TrainingPlan.id plan) name
    (TrainingPlan.startDate plan) (TrainingPlan.endDate plan)
    (TrainingPlan.weeks plan) (TrainingPlan.workouts plan)
    (TrainingPlan.source plan).


End PlanPreview.

(** ** The preview route: [handleUpload]

    The handler of the "Upload to intervals.icu" button. Its console output
    is left out; what it leaves on the page is its [Outcome]. *)

Module PreviewPage.

(** [{ ...w, description }] *)
Definition withDescription (w : Workout.t) (description : string) : Workout.t :=
  Workout.mk (Workout.id w) (Workout.date w) (Workout.type w) (Workout.name w)
    description (Workout.duration w) (Workout.distance w) (Workout.intensity w)
    (Workout.intervals w) (Workout.notes w).

(** The navigation to the success page with its search parameters, or the
    error banner. *)
Inductive Outcome : Type :=
| Navigated (planName workoutCount : string)
| ErrorShown (message : string).

Section Host.

Variable btoa : string -> string.
Variable network : list IntervalsIcu.Request -> IntervalsIcu.Request
                   -> IntervalsIcu.FetchOutcome.

Definition handleUpload
    (storage : Storage.LocalStorage) (plan : TrainingPlan.t)
    (paceMapping : gmap string string) (log : list IntervalsIcu.Effect)
    : Outcome * list IntervalsIcu.Effect :=
  let apiKey := Storage.getAPIKey Storage.intervals storage in
  if negb (JS.truthyOpt apiKey)
  then (ErrorShown "intervals.icu API key not found", log)
  else
    let planToUpload :=
      PlanPreview.withWorkouts plan
        (map (fun w =>
                withDescription w
                  (Formatter.formatWorkoutForIntervalsICU w paceMapping))
             (TrainingPlan.workouts plan)) in
    let '(result, _, log) :=
      IntervalsIcu.uploadWorkoutPlan btoa network planToUpload
        (Api.mkConfig (default "" apiKey) None) true log in
    match result with
    | Api.Failure error => (ErrorShown error, log)
    | Api.Success _ =>
        (Navigated (TrainingPlan.name plan)
           (pretty (length (TrainingPlan.workouts plan))), log)
    end.

End Host.

End PreviewPage.

(** ** The vocabulary of the specification

    Definitions that follow the words of the specification, to be compared
    with the functions above. *)

Module Spec.

(** Every character of [s] satisfies [p]. *)
Fixpoint allChars (p : ascii -> bool) (s : string) : bool :=
  match s with
  | "" => true
  | String c s' => p c && allChars p s'
  end.

Definition isNumeralChar (c : ascii) : bool :=
  JS.isDigit c || bool_decide (c = "-"%char).

(** *** Durations (the formatter's rule 4) *)

(** Decimal kilometers to one decimal place. *)
Definition kilometers (meters : Z) : string :=
  Num.toFixed1 (Num.div meters 1000) +:+ "km".

(** Whole meters. *)
Definition wholeMeters (meters : Z) : string := Num.toString meters +:+ "m".

(** Minutes, plus the leftover seconds when there are some. *)
Definition minutesAndSeconds (seconds : Z) : string :=
  if 0 <? seconds mod 60
  then Num.toString (seconds / 60) +:+ "m"
       +:+ Num.toString (seconds mod 60) +:+ "s"
  else Num.toString (seconds / 60) +:+ "m".

(** Whole seconds. *)
Definition wholeSeconds (seconds : Z) : string := Num.toString seconds +:+ "s".


(** The duration text of a segment of [value] meters or seconds. *)
Definition durationText (distance : bool) (value : Z) : string :=
  if distance
  then if 1000 <=? value then kilometers value else wholeMeters value
  else if 60 <=? value then minutesAndSeconds value else wholeSeconds value.



(** *** Mapped intensities (the formatter's rule 5a) *)





(** *** The scenarios of the formatter *)

(** [{type: "run", duration: 30, distance: 5, intensity: "easy"}], no
    intervals, empty description. *)
Definition easyRun (id date name : string) (notes : option string) : Workout.t :=
  Workout.mk id date "run" name "" (Some 30) (Some 5) (Some "easy") None notes.

(** [{repeat: 5, duration: 1000, durationType: "distance",
      intensity: "5K pace", recovery: 200, recoveryIntensity: "Easy"}] *)
Definition kilometerRepeats : Interval.t :=
  Interval.mk 5 1000 (Some "distance") "5K pace" (Some 200) (Some "Easy") None.

(** The lines [detectWorkoutPhases] scans. *)
Definition descriptionLines (description : string) : list string :=
  List.filter JS.truthy (map JS.trim (JS.splitLines description)).

(** The lines of a text. *)
Definition linesOf (text : string) : list string := JS.splitLines text.

(** *** The validator's rules (the validator's contract)

    A rule is a pair: whether it is violated, and the error string it
    reports. The rules are listed in validation order. *)

Definition messages (rules : list (bool * string)) : list string :=
  map snd (List.filter fst rules).

Definition violations (rules : list (bool * string)) : nat :=
  length (List.filter fst rules).

Definition isNegative (n : option Z) : bool :=
  match n with
  | Some v => v <? 0
  | None => false
  end.

Section Rules.

Variable dateTime : string -> option Z.

Definition workoutRules (w : PartialWorkout.t) : list (bool * string) :=
  let date := default "" (PartialWorkout.date w) in
  let type := default "" (PartialWorkout.type w) in
  let intensity := default "" (PartialWorkout.intensity w) in
  [ (negb (JS.truthyOpt (PartialWorkout.id w)), "Workout ID is required");
    (negb (JS.truthy date), "Workout date is required");
    (JS.truthy date && negb (WorkoutValidator.isValidISODate dateTime date),
     "Invalid date format. Use YYYY-MM-DD");
    (negb (JS.truthy type), "Workout type is required");
    (JS.truthy type && negb (WorkoutValidator.isValidWorkoutType type),
     "Invalid workout type: " +:+ type);
    (negb (JS.truthyOpt (PartialWorkout.name w)), "Workout name is required");
    (negb (JS.truthyOpt (PartialWorkout.description w)),
     "Workout description is required");
    (isNegative (PartialWorkout.duration w), "Duration must be positive");
    (isNegative (PartialWorkout.distance w), "Distance must be positive");
    (JS.truthy intensity && negb (WorkoutValidator.isValidIntensity intensity),
     "Invalid intensity: " +:+ intensity) ].

Definition planRules (plan : PartialTrainingPlan.t) : list (bool * string) :=
  let start := default "" (PartialTrainingPlan.startDate plan) in
  let end_ := default "" (PartialTrainingPlan.endDate plan) in
  [ (negb (JS.truthyOpt (PartialTrainingPlan.id plan)), "Plan ID is required");
    (negb (JS.truthyOpt (PartialTrainingPlan.name plan)), "Plan name is required");
    (negb (JS.truthy start), "Start date is required");
    (JS.truthy start && negb (WorkoutValidator.isValidISODate dateTime start),
     "Invalid start date format");
    (negb (JS.truthy end_), "End date is required");
    (JS.truthy end_ && negb (WorkoutValidator.isValidISODate dateTime end_),
     "Invalid end date format");
    (match PartialTrainingPlan.workouts plan with None => true | Some _ => false end,
     "Workouts array is required");
    (match PartialTrainingPlan.workouts plan with Some [] => true | _ => false end,
     "Plan must have at least one workout");
    (JS.truthy start && JS.truthy end_
     && WorkoutValidator.isValidISODate dateTime start
     && WorkoutValidator.isValidISODate dateTime end_
     && WorkoutValidator.dateLe dateTime end_ start,
     "End date must be after start date") ].

(** The one string an invalid workout at position [index] (from 0)
    contributes to the errors of its plan. *)
Definition workoutReport (index : nat) (w : PartialWorkout.t) : option string :=
  match messages (workoutRules w) with
  | [] => None
  | ms => Some ("Workout " +:+ pretty (index + 1)%nat +:+ ": " +:+ JS.join ", " ms)
  end.

Definition workoutReports (ws : list PartialWorkout.t) : list string :=
  omap id (imap workoutReport ws).

(** The number of rules a plan violates, its workouts' included. *)
Definition planViolations (plan : PartialTrainingPlan.t) : nat :=
  violations (planRules plan)
  + sum_list (map (fun w => violations (workoutRules w))
                  (default [] (PartialTrainingPlan.workouts plan))).

(** One error string per violated rule, read for a whole plan. *)
Definition oneStringPerViolation (plan : PartialTrainingPlan.t) : Prop :=
  length (WorkoutValidator.errors
            (WorkoutValidator.validateTrainingPlan dateTime plan))
  = planViolations plan.

End Rules.

(** *** The upload tallies (the orchestrator's contract) *)

Definition isFailure {T} (r : Api.APIResult T) : bool := negb (Api.success r).

(** [K]: how many of the individual uploads failed. *)
Definition failures {T} (results : list (Api.APIResult T)) : nat :=
  length (List.filter isFailure results).

Definition successes {T} (results : list (Api.APIResult T)) : nat :=
  length (List.filter Api.success results).

(** ["<name> (<date>): <message>"] for a failed upload. *)
Definition itemError {T} (w : Workout.t) (r : Api.APIResult T) : option string :=
  match r with
  | Api.Success _ => None
  | Api.Failure message =>
      Some (Workout.name w +:+ " (" +:+ Workout.date w +:+ "): " +:+ message)
  end.

Definition itemErrors {T} (ws : list Workout.t) (results : list (Api.APIResult T))
    : list string :=
  omap (fun p => itemError (fst p) (snd p)) (zip ws results).

(** The error of a batch with failures. *)
Definition aggregateError (succeeded failed : nat) (errors : list string) : string :=
  "Uploaded " +:+ pretty succeeded +:+ " workouts, " +:+ pretty failed
  +:+ " failed. Errors: " +:+ JS.join "; " errors.

(** The effects of one run of [uploadWorkoutPlan]: what it appended to
    the log it started from. *)
Definition effectsOf (log log' : list IntervalsIcu.Effect)
    : list IntervalsIcu.Effect :=
  drop (length log) log'.


(** *** The sections of a formatted workout (the formatter's rule 3) *)

(** The intervals a workout is formatted from: its own when it has some,
    else the one synthesized from its distance or duration; [None] when it
    has neither. *)
Definition intervalData (w : Workout.t) : option (list Interval.t) :=
  match Workout.intervals w with
  | Some (interval :: rest) => Some (interval :: rest)
  | _ =>
      if Num.truthy (Workout.distance w) || Num.truthy (Workout.duration w)
      then Some [Formatter.syntheticInterval w]
      else None
  end.

(** Warmup when detected, then the main set, labeled when another phase is
    present or there are several intervals, then Cooldown when detected. *)
Definition sections (phases : Formatter.Phases) (intervals : list Interval.t)
    (workoutType : string) (paceMapping : gmap string string) : list string :=
  (if JS.truthyOpt (Formatter.warmup phases)
   then ["Warmup"; default "" (Formatter.warmup phases); ""] else [])
  ++ (if JS.truthyOpt (Formatter.warmup phases)
         || JS.truthyOpt (Formatter.cooldown phases)
         || (1 <? length intervals)%nat
      then ["Main Set"] else [])
  ++ [Formatter.formatIntervals intervals workoutType paceMapping; ""]
  ++ (if JS.truthyOpt (Formatter.cooldown phases)
      then ["Cooldown"; default "" (Formatter.cooldown phases); ""] else []).

(** No line of the description opens a warmup or a cooldown. *)
Definition noPhaseLines (description : string) : Prop :=
  forall line : string,
    In line (descriptionLines description) ->
    Formatter.warmupPattern line = None /\ Formatter.cooldownPattern line = None.

(** *** The phases of a description *)

(** The text behind the keyword on the last line that opens a warmup. *)
Definition lastWarmup (lines : list string) : option string :=
  last (omap Formatter.warmupPattern lines).

(** The same for a cooldown; a line that opens a warmup is not looked at
    again. *)
Definition lastCooldown (lines : list string) : option string :=
  last (omap (fun line =>
                match Formatter.warmupPattern line with
                | Some _ => None
                | None => Formatter.cooldownPattern line
                end) lines).

(** *** What the validator accepts *)

Section Acceptance.

Variable dateTime : string -> option Z.

(** A workout with an identifier, a valid date, a known discipline, a name
    and a description, no negative duration or distance, and an intensity
    that is absent, empty or known. *)
Definition workoutAccepted (w : PartialWorkout.t) : bool :=
  JS.truthyOpt (PartialWorkout.id w)
  && WorkoutValidator.isValidISODate dateTime (default "" (PartialWorkout.date w))
  && WorkoutValidator.isValidWorkoutType (default "" (PartialWorkout.type w))
  && JS.truthyOpt (PartialWorkout.name w)
  && JS.truthyOpt (PartialWorkout.description w)
  && negb (isNegative (PartialWorkout.duration w))
  && negb (isNegative (PartialWorkout.distance w))
  && (negb (JS.truthyOpt (PartialWorkout.intensity w))
      || WorkoutValidator.isValidIntensity (default "" (PartialWorkout.intensity w))).

(** A plan with an identifier, a name, two valid dates of which the end is
    strictly after the start, and at least one workout, all accepted. *)
Definition planAccepted (plan : PartialTrainingPlan.t) : bool :=
  let start := default "" (PartialTrainingPlan.startDate plan) in
  let end_ := default "" (PartialTrainingPlan.endDate plan) in
  JS.truthyOpt (PartialTrainingPlan.id plan)
  && JS.truthyOpt (PartialTrainingPlan.name plan)
  && WorkoutValidator.isValidISODate dateTime start
  && WorkoutValidator.isValidISODate dateTime end_
  && negb (WorkoutValidator.dateLe dateTime end_ start)
  && match PartialTrainingPlan.workouts plan with
     | Some (w :: ws) => forallb workoutAccepted (w :: ws)
     | _ => false
     end.

End Acceptance.

(** One week, in milliseconds. *)
Definition msPerWeek : Z := 7 * (1000 * 60 * 60 * 24).

(** *** The JSON import *)

(** The top level of a plan file is in order: an object with a non-empty
    name, start and end dates of the shape [YYYY-MM-DD] and the array
    [workouts]. *)
Definition planShape (data : Json.t) (workouts : list Json.t) : Prop :=
  Json.isObject data = true
  /\ (exists name, Json.nonEmptyString (Json.get "name" data) = Some name)
  /\ (exists startDate,
        Json.nonEmptyString (Json.get "startDate" data) = Some startDate
        /\ JsonParser.dateRegex startDate = true)
  /\ (exists endDate,
        Json.nonEmptyString (Json.get "endDate" data) = Some endDate
        /\ JsonParser.dateRegex endDate = true)
  /\ Json.get "workouts" data = Some (Json.Array workouts).

(** The workout at [index] of the file was imported as [imported]: its
    date, type and name are those of the file, checked, and its identifier
    is the one generated at that index. *)
Definition importedFrom (idSource : nat -> Z * string) (index : nat)
    (w : Json.t) (imported : ImportedWorkout.t) : Prop :=
  Json.get "date" w = Some (Json.Str (ImportedWorkout.date imported))
  /\ Json.get "type" w = Some (Json.Str (ImportedWorkout.type imported))
  /\ Json.get "name" w = Some (Json.Str (ImportedWorkout.name imported))
  /\ JsonParser.dateRegex (ImportedWorkout.date imported) = true
  /\ ImportedWorkout.type imported ∈ JsonParser.validTypes
  /\ ImportedWorkout.name imported <> ""
  /\ ImportedWorkout.id imported
     = Some (WorkoutValidator.generateWorkoutId
               (fst (idSource index)) (snd (idSource index))).

(** A file the importer reads: named [*.json] or typed as JSON, and of at
    most 5 MB. *)
Definition acceptedFile (file : JsonParser.File) : Prop :=
  ((exists stem, JsonParser.file_name file = stem +:+ ".json")
   \/ JsonParser.file_type file = "application/json")
  /\ JsonParser.file_size file <= 5 * 1024 * 1024.


(** *** The effects of a run of uploads *)

(** What the upload of the workout at [index] does, given the request it
    sent and the result it got: the attempt, the progress report when a
    callback was passed, the pause unless it was the last workout. *)
Definition roundEffects (onProgress : bool) (total index : nat)
    (round : IntervalsIcu.Request * Api.APIResult Api.IntervalsICUUploadResponse)
    : list IntervalsIcu.Effect :=
  [IntervalsIcu.Upload (fst round) (snd round)]
  ++ (if onProgress then [IntervalsIcu.Progress (index + 1) total] else [])
  ++ (if (index <? total - 1)%nat then [IntervalsIcu.Wait 200] else []).

Definition progressOf (log : list IntervalsIcu.Effect) : list (nat * nat) :=
  omap (fun e => match e with
                 | IntervalsIcu.Progress current total => Some (current, total)
                 | _ => None
                 end) log.

Definition waitsOf (log : list IntervalsIcu.Effect) : list Z :=
  omap (fun e => match e with IntervalsIcu.Wait ms => Some ms | _ => None end) log.

(** The address of the events of the configured athlete, of athlete 0 when
    none is configured. *)
Definition eventsUrl (config : Api.IntervalsICUConfig) : string :=
  "https://intervals.icu/api/v1/athlete/"
  +:+ match Api.athleteId config with
      | Some athlete => if bool_decide (athlete = "") then "0" else athlete
      | None => "0"
      end
  +:+ "/events".

(** A request of an upload: a POST to the events of the athlete, with the
    key in its authorization. *)
Definition uploadRequest (btoa : string -> string) (config : Api.IntervalsICUConfig)
    (request : IntervalsIcu.Request) : Prop :=
  IntervalsIcu.url request = eventsUrl config
  /\ IntervalsIcu.method request = "POST"
  /\ IntervalsIcu.authorization request
     = "Basic " +:+ btoa ("API_KEY:" +:+ Api.apiKey config).


(** *** The preview route *)

(** The browser has no usable intervals.icu key: its storage cannot be
    read, or holds none, or an empty one. *)
Definition noKey (storage : Storage.LocalStorage) : Prop :=
  Storage.disabled storage = true
  \/ Storage.entries storage !! "intervals_icu_api_key" = None
  \/ Storage.entries storage !! "intervals_icu_api_key" = Some "".

(** The description the preview route has sent for a workout: the text
    formatted with the pace mapping; for a workout with intervals, that text
    formatted once more, without the mapping. *)
Definition uploadedText (paceMapping : gmap string string) (w : Workout.t) : string :=
  let text := Formatter.formatWorkoutForIntervalsICU w paceMapping in
  match Workout.intervals w with
  | Some (_ :: _) =>
      Formatter.formatWorkoutForIntervalsICU (PreviewPage.withDescription w text) ∅
  | _ => text
  end.

End Spec.

(** * Verification *)

(** ** Strings and numerals *)

Lemma append_cons (c : ascii) (s t : string) : String c s +:+ t = String c (s +:+ t).
Proof. reflexivity. Qed.

Lemma append_nil_l (t : string) : "" +:+ t = t.
Proof. reflexivity. Qed.

Lemma append_assoc (s t u : string) : (s +:+ t) +:+ u = s +:+ (t +:+ u).
Proof.
  induction s as [|c s IH]; [reflexivity|].
  rewrite !append_cons. by rewrite IH.
Qed.

Lemma allChars_app p (s t : string) :
  Spec.allChars p (s +:+ t) = Spec.allChars p s && Spec.allChars p t.
Proof.
  induction s as [|c s IH]; [reflexivity|].
  rewrite append_cons. simpl. rewrite IH. by rewrite andb_assoc.
Qed.


Lemma pretty_N_char_numeral (x : N) : Spec.isNumeralChar (pretty_N_char x) = true.
Proof. unfold pretty_N_char. by repeat case_match. Qed.

Lemma pretty_N_go_numeral (x : N) (s : string) :
  Spec.allChars Spec.isNumeralChar s = true ->
  Spec.allChars Spec.isNumeralChar (pretty_N_go x s) = true.
Proof.
  revert s. induction (N.lt_wf_0 x) as [x _ IH]; intros s Hs.
  destruct (decide (x = 0)%N) as [->|Hx].
  - by rewrite pretty_N_go_0.
  - rewrite pretty_N_go_step by lia.
    apply IH; [apply N.div_lt; lia|].
    simpl. by rewrite pretty_N_char_numeral.
Qed.

Lemma pretty_N_numeral (x : N) : Spec.allChars Spec.isNumeralChar (pretty x) = true.
Proof.
  unfold pretty, pretty_N. case_decide; [done|].
  by apply pretty_N_go_numeral.
Qed.

(** A printed integer is made of digits and a minus sign. *)
Lemma toString_numeral (n : Z) : Spec.allChars Spec.isNumeralChar (Num.toString n) = true.
Proof.
  unfold Num.toString, pretty, pretty_Z.
  destruct n as [|p|p]; [done| |].
  - apply pretty_N_numeral.
  - rewrite allChars_app. simpl. apply pretty_N_numeral.
Qed.


(** ** Durations *)









(** The rounding of the kilometers is binary64's: 1150 m is the double
    nearest to 1.15, which lies below it, and reads "1.1km"; 1250 m is
    exactly 1.25 and is rounded up; 90 s has no leftover seconds. *)
Example duration_texts :
  map (Spec.durationText true) [1150; 1250; 21100; 400]
  = ["1.1km"; "1.3km"; "21.1km"; "400m"]
  /\ map (Spec.durationText false) [90; 95; 3600; 45]
     = ["1m30s"; "1m35s"; "60m"; "45s"].
Proof. split; vm_compute; reflexivity. Qed.

(** ** Mapped intensities *)

Lemma truthy_true (s : string) : s <> "" -> JS.truthy s = true.
Proof. intros H. unfold JS.truthy. by rewrite bool_decide_eq_false_2. Qed.






(** ** The scenarios *)

(** C4, as the code has it. The workout
    [{type: "run", duration: 30, distance: 5, intensity: "easy"}] without
    intervals and with an empty description formats, under the empty pace
    mapping, to the single line [- 5.0km Easy pace]: the step "5.0km Easy
    pace" behind the dash of a step line, with no Warmup section, no
    Cooldown section and no "Main Set" header. *)
Theorem easy_run_single_step_line :
  forall (id date name : string) (notes : option string),
    let text :=
      Formatter.formatWorkoutForIntervalsICU (Spec.easyRun id date name notes) ∅ in
    text = "- 5.0km Easy pace"
    /\ Spec.linesOf text = ["- " +:+ "5.0km Easy pace"]
    /\ JS.includes "Warmup" text = false
    /\ JS.includes "Cooldown" text = false
    /\ JS.includes "Main Set" text = false.
Proof.
  intros id date name notes. cbv zeta.
  assert (Formatter.formatWorkoutForIntervalsICU (Spec.easyRun id date name notes) ∅
          = "- 5.0km Easy pace") as -> by (vm_compute; reflexivity).
  repeat split; vm_compute; reflexivity.
Qed.

(** C4 as written fails: the text is not the bare step "5.0km Easy pace". *)
Lemma easy_run_not_bare_step :
  Formatter.formatWorkoutForIntervalsICU (Spec.easyRun "w1" "2024-05-01" "Easy Run" None) ∅
  <> "5.0km Easy pace".
Proof. vm_compute. discriminate. Qed.

Lemma if_same {A} (b : bool) (x : A) : (if b then x else x) = x.
Proof. by destruct b. Qed.

Lemma rev_app_allChars p (s acc : string) :
  Spec.allChars p (String.rev_app s acc) = Spec.allChars p s && Spec.allChars p acc.
Proof.
  revert acc. induction s as [|c s IH]; intros acc; simpl; [done|].
  rewrite IH. simpl. destruct (p c), (Spec.allChars p s); done.
Qed.

Lemma rev_app_empty (s acc : string) :
  String.rev_app s acc = "" -> s = "" /\ acc = "".
Proof.
  revert acc. induction s as [|c s IH]; intros acc; simpl; [done|].
  intros H. apply IH in H as [_ H]. discriminate H.
Qed.

Lemma dropWhile_empty p (s : string) : JS.dropWhile p s = "" -> Spec.allChars p s = true.
Proof.
  induction s as [|c s IH]; simpl; [done|].
  destruct (p c); [exact IH|discriminate].
Qed.

(** Trimming keeps a text that starts with a visible character. *)
Lemma trim_truthy (c : ascii) (s : string) :
  JS.isSpace c = false -> JS.truthy (JS.trim (String c s)) = true.
Proof.
  intros Hc. unfold JS.trim, JS.trimStart. simpl. rewrite Hc.
  apply truthy_true. unfold JS.trimEnd, String.rev. intros Hempty.
  pose proof (rev_app_empty _ _ Hempty) as [Hdrop _].
  apply dropWhile_empty in Hdrop.
  change (String.rev_app (String c s) "") with (String.rev_app s (String c "")) in Hdrop.
  rewrite rev_app_allChars in Hdrop. simpl in Hdrop. rewrite Hc in Hdrop.
  by rewrite andb_false_r in Hdrop.
Qed.

Lemma formatPhaseText_truthy (text : string) (paceMapping : gmap string string) :
  JS.truthy (Formatter.formatPhaseText text paceMapping) = true.
Proof.
  unfold Formatter.formatPhaseText. repeat case_match; reflexivity.
Qed.

Section Phases.

Variable paceMapping : gmap string string.

Lemma phaseStep_warmup_kept phases line :
  JS.truthyOpt (Formatter.warmup phases) = true ->
  JS.truthyOpt (Formatter.warmup (Formatter.phaseStep paceMapping phases line)) = true.
Proof.
  intros H. unfold Formatter.phaseStep. repeat case_match; simpl; try done.
  apply formatPhaseText_truthy.
Qed.

Lemma phaseStep_cooldown_kept phases line :
  JS.truthyOpt (Formatter.cooldown phases) = true ->
  JS.truthyOpt (Formatter.cooldown (Formatter.phaseStep paceMapping phases line)) = true.
Proof.
  intros H. unfold Formatter.phaseStep. repeat case_match; simpl; try done.
  apply formatPhaseText_truthy.
Qed.

Lemma phases_warmup_kept lines phases :
  JS.truthyOpt (Formatter.warmup phases) = true ->
  JS.truthyOpt
    (Formatter.warmup (fold_left (Formatter.phaseStep paceMapping) lines phases)) = true.
Proof.
  revert phases. induction lines as [|l lines IH]; intros phases H; simpl; [done|].
  by apply IH, phaseStep_warmup_kept.
Qed.

Lemma phases_cooldown_kept lines phases :
  JS.truthyOpt (Formatter.cooldown phases) = true ->
  JS.truthyOpt
    (Formatter.cooldown (fold_left (Formatter.phaseStep paceMapping) lines phases)) = true.
Proof.
  revert phases. induction lines as [|l lines IH]; intros phases H; simpl; [done|].
  by apply IH, phaseStep_cooldown_kept.
Qed.

(** A line the warmup pattern matches leaves a warmup phase. *)
Lemma phases_warmup_found lines phases line :
  In line lines -> is_Some (Formatter.warmupPattern line) ->
  JS.truthyOpt
    (Formatter.warmup (fold_left (Formatter.phaseStep paceMapping) lines phases)) = true.
Proof.
  revert phases. induction lines as [|l lines IH]; intros phases Hin [g Hg]; [done|].
  simpl. destruct Hin as [->|Hin].
  - apply phases_warmup_kept. unfold Formatter.phaseStep. rewrite Hg. simpl.
    apply formatPhaseText_truthy.
  - apply IH; [done|by exists g].
Qed.

(** A line the cooldown pattern matches, and the warmup pattern does not,
    leaves a cooldown phase. *)
Lemma phases_cooldown_found lines phases line :
  In line lines -> Formatter.warmupPattern line = None ->
  is_Some (Formatter.cooldownPattern line) ->
  JS.truthyOpt
    (Formatter.cooldown (fold_left (Formatter.phaseStep paceMapping) lines phases)) = true.
Proof.
  revert phases. induction lines as [|l lines IH]; intros phases Hin Hw [g Hg]; [done|].
  simpl. destruct Hin as [->|Hin].
  - apply phases_cooldown_kept. unfold Formatter.phaseStep. rewrite Hw, Hg. simpl.
    apply formatPhaseText_truthy.
  - apply IH; [done|done|by exists g].
Qed.

End Phases.

Lemma truthyOpt_Some (o : option string) :
  JS.truthyOpt o = true -> exists s, o = Some s /\ JS.truthy s = true.
Proof. destruct o as [s|]; simpl; [by exists s|done]. Qed.

Lemma formatIntervals_kilometerRepeats :
  Formatter.formatIntervals [Spec.kilometerRepeats] "run" ∅
  = JS.join JS.nl ["5x"; "- 1.0km 5K pace"; "- 200m Easy pace"].
Proof. vm_compute. reflexivity. Qed.

(** C5, as the code has it. A run workout whose description has, among its
    lines, "Warmup: 10 minutes easy" and "Cooldown: 5 minutes easy", and
    whose intervals are the single interval [Spec.kilometerRepeats], formats
    under the empty pace mapping to three sections in the order Warmup, Main
    Set, Cooldown; the main set is the lines "5x", "- 1.0km 5K pace" and
    "- 200m Easy pace". [w] and [c] are the step lines of the warmup and of
    the cooldown. *)
Theorem warmup_main_cooldown_sections :
  forall workout : Workout.t,
    Workout.type workout = "run" ->
    Workout.intervals workout = Some [Spec.kilometerRepeats] ->
    In "Warmup: 10 minutes easy" (Spec.descriptionLines (Workout.description workout)) ->
    In "Cooldown: 5 minutes easy" (Spec.descriptionLines (Workout.description workout)) ->
    exists w c : string,
      Formatter.warmup
        (Formatter.detectWorkoutPhases (Workout.description workout) ∅) = Some w
      /\ Formatter.cooldown
           (Formatter.detectWorkoutPhases (Workout.description workout) ∅) = Some c
      /\ Formatter.formatWorkoutForIntervalsICU workout ∅
         = JS.trim (JS.join JS.nl
             ["Warmup"; w; "";
              "Main Set"; "5x"; "- 1.0km 5K pace"; "- 200m Easy pace"; "";
              "Cooldown"; c; ""]).
Proof.
  intros workout Htype Hintervals Hwarm Hcool.
  unfold Formatter.formatWorkoutForIntervalsICU.
  rewrite Hintervals, Htype. cbv zeta.
  assert (JS.truthyOpt (Formatter.warmup
            (Formatter.detectWorkoutPhases (Workout.description workout) ∅)) = true)
    as Hw.
  { apply (phases_warmup_found ∅ _ _ _ Hwarm). by eexists. }
  assert (JS.truthyOpt (Formatter.cooldown
            (Formatter.detectWorkoutPhases (Workout.description workout) ∅)) = true)
    as Hc.
  { apply (phases_cooldown_found ∅ _ _ _ Hcool); [reflexivity|by eexists]. }
  destruct (Formatter.detectWorkoutPhases (Workout.description workout) ∅)
    as [[w|] m [c|]]; try discriminate Hw; try discriminate Hc.
  cbn [Formatter.warmup Formatter.cooldown JS.truthyOpt] in Hw, Hc.
  exists w, c. split; [reflexivity|]. split; [reflexivity|].
  cbn [id default length Nat.eqb Nat.ltb Nat.leb JS.truthyOpt Formatter.warmup
       Formatter.cooldown Formatter.mainSet].
  rewrite Hw, Hc. cbn [orb app].
  rewrite formatIntervals_kilometerRepeats.
  cbn [JS.join String.concat].
  rewrite !append_assoc, !append_cons, !append_nil_l.
  rewrite trim_truthy by reflexivity.
  cbn [negb]. apply if_same.
Qed.

Lemma warmup_main_cooldown_sections_witness :
  exists w c : string,
    Formatter.warmup
      (Formatter.detectWorkoutPhases
         (JS.join JS.nl ["Warmup: 10 minutes easy"; "Cooldown: 5 minutes easy"]) ∅)
    = Some w
    /\ Formatter.cooldown
         (Formatter.detectWorkoutPhases
            (JS.join JS.nl ["Warmup: 10 minutes easy"; "Cooldown: 5 minutes easy"]) ∅)
       = Some c
    /\ Formatter.formatWorkoutForIntervalsICU
         (Workout.mk "w1" "2024-05-01" "run" "Kilometer repeats"
            (JS.join JS.nl ["Warmup: 10 minutes easy"; "Cooldown: 5 minutes easy"])
            None None None (Some [Spec.kilometerRepeats]) None) ∅
       = JS.trim (JS.join JS.nl
           ["Warmup"; w; "";
            "Main Set"; "5x"; "- 1.0km 5K pace"; "- 200m Easy pace"; "";
            "Cooldown"; c; ""]).
Proof.
  apply (warmup_main_cooldown_sections
           (Workout.mk "w1" "2024-05-01" "run" "Kilometer repeats"
              (JS.join JS.nl ["Warmup: 10 minutes easy"; "Cooldown: 5 minutes easy"])
              None None None (Some [Spec.kilometerRepeats]) None)).
  - reflexivity.
  - reflexivity.
  - vm_compute. auto.
  - vm_compute. auto.
Defined.

(** The scenario in full, for a run. *)
Example run_scenario_text :
  Spec.linesOf
    (Formatter.formatWorkoutForIntervalsICU
       (Workout.mk "w1" "2024-05-01" "run" "Kilometer repeats"
          (JS.join JS.nl ["Warmup: 10 minutes easy"; "Cooldown: 5 minutes easy"])
          None None None (Some [Spec.kilometerRepeats]) None) ∅)
  = ["Warmup"; "- 10m utes easy"; "";
     "Main Set"; "5x"; "- 1.0km 5K pace"; "- 200m Easy pace"; "";
     "Cooldown"; "- 5m utes easy"].
Proof. vm_compute. reflexivity. Qed.

(** C5 as written fails for a workout that is not a run: the recovery of a
    bike workout reads "- 200m Z2". *)
Lemma bike_recovery_is_zone :
  let text :=
    Formatter.formatWorkoutForIntervalsICU
      (Workout.mk "w1" "2024-05-01" "bike" "Kilometer repeats"
         (JS.join JS.nl ["Warmup: 10 minutes easy"; "Cooldown: 5 minutes easy"])
         None None None (Some [Spec.kilometerRepeats]) None) ∅ in
  Spec.linesOf text
  = ["Warmup"; "- 10m utes easy"; "";
     "Main Set"; "5x"; "- 1.0km 5K pace"; "- 200m Z2"; "";
     "Cooldown"; "- 5m utes easy"]
  /\ ~ In "- 200m Easy pace" (Spec.linesOf text).
Proof.
  vm_compute. split; [reflexivity|].
  intros H. repeat (destruct H as [H|H]; [discriminate H|]). exact H.
Qed.

(** ** The validator *)

Lemma valid_iff_no_errors (errors : list string) :
  (length errors =? 0)%nat = true <-> errors = [].
Proof.
  destruct errors; simpl; split; intros H; done.
Qed.

(** Conditional pushes onto the error list, as appends. *)
Lemma push_if {A} (b : bool) (x : A) (l : list A) :
  (if b then l ++ [x] else l) = l ++ (if b then [x] else []).
Proof. destruct b; [done|by rewrite app_nil_r]. Qed.

Lemma push_if2 {A} (a b : bool) (x y : A) (l : list A) :
  (if a then l ++ [x] else if b then l ++ [y] else l)
  = l ++ (if a then [x] else if b then [y] else []).
Proof. destruct a, b; by rewrite ?app_nil_r. Qed.

Lemma push_if_nested {A} (a b : bool) (x : A) (l : list A) :
  (if a then (if b then l ++ [x] else l) else l)
  = l ++ (if a && b then [x] else []).
Proof. destruct a, b; by rewrite ?app_nil_r. Qed.

Lemma split_if2 {A} (t v : bool) (x y : A) :
  (if negb t then [x] else if negb v then [y] else [])
  = (if negb t then [x] else []) ++ (if t && negb v then [y] else []).
Proof. by destruct t, v. Qed.

Lemma messages_cons (b : bool) (m : string) (rules : list (bool * string)) :
  Spec.messages ((b, m) :: rules) = (if b then [m] else []) ++ Spec.messages rules.
Proof. by destruct b. Qed.

Lemma messages_nil : Spec.messages [] = [].
Proof. reflexivity. Qed.

(** The error list of a validator is built by a chain of [let]s. The chain
    is unwound from the outside, one [let] at a time, each conditional push
    being turned into an append before the next [let] is entered, so that
    the list stays one chain of appends. *)
Ltac zeta_outermost :=
  lazymatch goal with
  | |- context C [let x := ?a in @?b x] =>
      let t := eval cbv beta in (b a) in
      let g := context C [t] in
      change g
  end.

Ltac unwind_pushes :=
  repeat (zeta_outermost; rewrite ?push_if_nested, ?push_if2, ?push_if).

Section ValidatorFacts.

Variable dateTime : string -> option Z.

Lemma truthyOpt_default (o : option string) :
  JS.truthyOpt o = JS.truthy (default "" o).
Proof. by destruct o. Qed.

Lemma validateWorkout_valid (w : PartialWorkout.t) :
  WorkoutValidator.valid (WorkoutValidator.validateWorkout dateTime w)
  = (length (WorkoutValidator.errors
               (WorkoutValidator.validateWorkout dateTime w)) =? 0)%nat.
Proof. reflexivity. Qed.

(** [validateWorkout] reports the messages of the violated workout rules,
    one string for each, in validation order. *)
Lemma validateWorkout_errors (w : PartialWorkout.t) :
  WorkoutValidator.errors (WorkoutValidator.validateWorkout dateTime w)
  = Spec.messages (Spec.workoutRules dateTime w).
Proof.
  cbv beta delta [WorkoutValidator.validateWorkout]. unwind_pushes.
  cbn [WorkoutValidator.errors].
  unfold Spec.workoutRules, Spec.isNegative. cbv zeta.
  rewrite !messages_cons, messages_nil, !truthyOpt_default, !split_if2.
  rewrite <- !app_assoc, ?app_nil_r. reflexivity.
Qed.

Lemma validateEach_reports (ws : list PartialWorkout.t) (index : nat)
    (errors : list string) :
  WorkoutValidator.validateEach dateTime ws index errors
  = errors ++ omap id (imap (fun j => Spec.workoutReport dateTime (index + j)) ws).
Proof.
  revert index errors. induction ws as [|w ws IH]; intros index errors.
  - simpl. by rewrite app_nil_r.
  - cbn [WorkoutValidator.validateEach]. cbv zeta. rewrite IH.
    rewrite imap_cons. cbn [omap list_omap].
    assert (imap ((fun j => Spec.workoutReport dateTime (index + j)) ∘ S) ws
            = imap (fun j => Spec.workoutReport dateTime (S index + j)) ws) as ->.
    { apply imap_ext. intros j x _. simpl. f_equal. lia. }
    rewrite Nat.add_0_r.
    rewrite validateWorkout_valid, validateWorkout_errors.
    unfold Spec.workoutReport at 2.
    destruct (Spec.messages (Spec.workoutRules dateTime w)) as [|m ms]; simpl.
    + reflexivity.
    + by rewrite <- app_assoc.
Qed.

(** [validateTrainingPlan] reports the messages of the violated plan
    rules, then one string for each invalid workout. *)
Lemma validateTrainingPlan_errors (plan : PartialTrainingPlan.t) :
  WorkoutValidator.errors (WorkoutValidator.validateTrainingPlan dateTime plan)
  = Spec.messages (Spec.planRules dateTime plan)
    ++ Spec.workoutReports dateTime (default [] (PartialTrainingPlan.workouts plan)).
Proof.
  unfold Spec.planRules, Spec.workoutReports. cbv zeta.
  cbv beta delta [WorkoutValidator.validateTrainingPlan].
  destruct (PartialTrainingPlan.workouts plan) as [[|w ws]|];
    unwind_pushes; cbn [WorkoutValidator.errors length Nat.eqb default id];
    rewrite ?validateEach_reports;
    rewrite !messages_cons, messages_nil, !truthyOpt_default, !split_if2;
    cbn [app Nat.add]; rewrite <- ?app_assoc, ?app_nil_r; reflexivity.
Qed.

End ValidatorFacts.

Section ValidatorClaims.

Variable dateTime : string -> option Z.

Lemma validateTrainingPlan_valid (plan : PartialTrainingPlan.t) :
  WorkoutValidator.valid (WorkoutValidator.validateTrainingPlan dateTime plan)
  = (length (WorkoutValidator.errors
               (WorkoutValidator.validateTrainingPlan dateTime plan)) =? 0)%nat.
Proof. reflexivity. Qed.

Lemma violations_messages (rules : list (bool * string)) :
  length (Spec.messages rules) = Spec.violations rules.
Proof. unfold Spec.messages, Spec.violations. by rewrite length_map. Qed.

(** The string an invalid workout contributes is among the errors of the
    plan. *)
Lemma workoutReport_reported (ws : list PartialWorkout.t) (index : nat)
    (w : PartialWorkout.t) (report : string) :
  ws !! index = Some w ->
  Spec.workoutReport dateTime index w = Some report ->
  report ∈ Spec.workoutReports dateTime ws.
Proof.
  intros Hw Hreport. unfold Spec.workoutReports.
  apply list_elem_of_omap. exists (Some report). split; [|done].
  rewrite <- Hreport. by apply elem_of_lookup_imap_2.
Qed.

(** C7, as the code has it. [validateTrainingPlan] passes exactly when its
    error list is empty. Nothing short-circuits: the list holds one string
    for each violated plan-level rule, in validation order, followed by
    one string for each invalid workout, in plan order. The string of an
    invalid workout starts with its 1-based index, "Workout <index>: ",
    and carries the errors of that workout, joined by ", ";
    [validateWorkout] itself reports one string per violated workout
    rule. *)
Theorem validateTrainingPlan_reports :
  forall plan : PartialTrainingPlan.t,
    let r := WorkoutValidator.validateTrainingPlan dateTime plan in
    let workouts := default [] (PartialTrainingPlan.workouts plan) in
    (WorkoutValidator.valid r = true <-> WorkoutValidator.errors r = [])
    /\ WorkoutValidator.errors r
       = Spec.messages (Spec.planRules dateTime plan)
         ++ Spec.workoutReports dateTime workouts
    /\ (forall (index : nat) (w : PartialWorkout.t),
          workouts !! index = Some w ->
          WorkoutValidator.valid (WorkoutValidator.validateWorkout dateTime w) = false ->
          "Workout " +:+ pretty (index + 1)%nat +:+ ": "
            +:+ JS.join ", "
                  (WorkoutValidator.errors
                     (WorkoutValidator.validateWorkout dateTime w))
          ∈ WorkoutValidator.errors r)
    /\ (forall w : PartialWorkout.t,
          WorkoutValidator.errors (WorkoutValidator.validateWorkout dateTime w)
          = Spec.messages (Spec.workoutRules dateTime w)
          /\ length (WorkoutValidator.errors
                       (WorkoutValidator.validateWorkout dateTime w))
             = Spec.violations (Spec.workoutRules dateTime w)).
Proof.
  intros plan r workouts. subst r workouts. repeat split.
  - rewrite validateTrainingPlan_valid. apply valid_iff_no_errors.
  - rewrite validateTrainingPlan_valid. apply valid_iff_no_errors.
  - apply validateTrainingPlan_errors.
  - intros index w Hw Hinvalid.
    rewrite validateTrainingPlan_errors. apply elem_of_app. right.
    apply (workoutReport_reported _ index w); [done|].
    rewrite validateWorkout_valid, validateWorkout_errors in Hinvalid.
    rewrite validateWorkout_errors. unfold Spec.workoutReport.
    destruct (Spec.messages (Spec.workoutRules dateTime w)); [done|reflexivity].
  - apply validateWorkout_errors.
  - rewrite validateWorkout_errors. apply violations_messages.
Qed.

Lemma iso8601Regex_truthy (d : string) :
  WorkoutValidator.iso8601Regex d = true -> JS.truthy d = true.
Proof. by destruct d. Qed.

(** C8. A plan whose start date and end date are the same valid
    [YYYY-MM-DD] date fails validation, and "End date must be after start
    date" is among its errors. *)
Theorem equal_dates_rejected :
  forall (plan : PartialTrainingPlan.t) (d : string),
    PartialTrainingPlan.startDate plan = Some d ->
    PartialTrainingPlan.endDate plan = Some d ->
    WorkoutValidator.isValidISODate dateTime d = true ->
    WorkoutValidator.valid (WorkoutValidator.validateTrainingPlan dateTime plan) = false
    /\ "End date must be after start date"
       ∈ WorkoutValidator.errors (WorkoutValidator.validateTrainingPlan dateTime plan).
Proof.
  intros plan d Hstart Hend Hvalid.
  assert ("End date must be after start date"
          ∈ WorkoutValidator.errors
              (WorkoutValidator.validateTrainingPlan dateTime plan)) as Hin.
  { rewrite validateTrainingPlan_errors. apply elem_of_app. left.
    unfold Spec.planRules. rewrite Hstart, Hend. cbn [default from_option id].
    pose proof Hvalid as Hshape. unfold WorkoutValidator.isValidISODate in Hshape.
    destruct (WorkoutValidator.iso8601Regex d) eqn:Hregex; [|discriminate].
    cbn [negb] in Hshape. apply bool_decide_eq_true in Hshape as [t Ht].
    rewrite (iso8601Regex_truthy d Hregex), Hvalid.
    unfold WorkoutValidator.dateLe. rewrite Ht, Z.leb_refl.
    rewrite !messages_cons, messages_nil. cbn [andb negb].
    rewrite !elem_of_app. do 8 right. left. apply list_elem_of_here. }
  split; [|exact Hin].
  rewrite validateTrainingPlan_valid.
  destruct (WorkoutValidator.errors _); [by apply elem_of_nil in Hin|reflexivity].
Qed.

End ValidatorClaims.

Lemma validateTrainingPlan_reports_witness :
  WorkoutValidator.errors
    (WorkoutValidator.validateTrainingPlan Engine.isoDateTime
       (PartialTrainingPlan.mk None (Some "Base") (Some "2024-05-01") (Some "2024-04-01")
          None
          (Some [PartialWorkout.mk (Some "w1") (Some "2024-05-01") (Some "run")
                   (Some "Easy") (Some "30 min") None None None None None;
                 PartialWorkout.mk None (Some "2024-05-02") (Some "yoga")
                   (Some "Stretch") (Some "") None None None None None])
          None))
  = ["Plan ID is required"; "End date must be after start date";
     "Workout 2: Workout ID is required, Invalid workout type: yoga, Workout description is required"].
Proof.
  destruct (validateTrainingPlan_reports Engine.isoDateTime
    (PartialTrainingPlan.mk None (Some "Base") (Some "2024-05-01") (Some "2024-04-01")
       None
       (Some [PartialWorkout.mk (Some "w1") (Some "2024-05-01") (Some "run")
                (Some "Easy") (Some "30 min") None None None None None;
              PartialWorkout.mk None (Some "2024-05-02") (Some "yoga")
                (Some "Stretch") (Some "") None None None None None])
       None)) as (_ & -> & _).
  vm_compute. reflexivity.
Defined.

(** C7 as written fails: a workout that violates two rules contributes one
    string to the errors of its plan, not two. *)
Lemma two_violations_one_string :
  let plan :=
    PartialTrainingPlan.mk (Some "p1") (Some "Base") (Some "2024-04-01")
      (Some "2024-05-01") None
      (Some [PartialWorkout.mk None (Some "2024-04-02") (Some "run") None
               (Some "30 min easy") None None None None None])
      None in
  WorkoutValidator.errors
    (WorkoutValidator.validateTrainingPlan Engine.isoDateTime plan)
  = ["Workout 1: Workout ID is required, Workout name is required"]
  /\ Spec.planViolations Engine.isoDateTime plan = 2%nat
  /\ ~ Spec.oneStringPerViolation Engine.isoDateTime plan.
Proof.
  cbv zeta. split; [vm_compute; reflexivity|]. split; [vm_compute; reflexivity|].
  unfold Spec.oneStringPerViolation. vm_compute. discriminate.
Qed.

Lemma equal_dates_rejected_witness :
  "End date must be after start date"
  ∈ WorkoutValidator.errors
      (WorkoutValidator.validateTrainingPlan Engine.isoDateTime
         (PartialTrainingPlan.mk (Some "p1") (Some "Base") (Some "2024-05-01")
            (Some "2024-05-01") (Some 0)
            (Some [PartialWorkout.mk (Some "w1") (Some "2024-05-01") (Some "run")
                     (Some "Easy") (Some "30 min") None None None None None])
            None)).
Proof.
  apply (equal_dates_rejected Engine.isoDateTime _ "2024-05-01");
    reflexivity.
Defined.

(** ** The JSON import *)

Section ImportFacts.

Variable dateTime : string -> option Z.
Variable idSource : nat -> Z * string.

Lemma validateAll_accepts (workouts : list Json.t) (i : nat)
    (validated : list ImportedWorkout.t) :
  (forall (j : nat) (w : Json.t),
      workouts !! j = Some w ->
      JsonParser.valid (JsonParser.validateWorkout w (i + j)) = true) ->
  exists out : list ImportedWorkout.t,
    JsonParser.validateAll idSource workouts i validated = JsonParser.Valid out
    /\ length out = (length validated + length workouts)%nat.
Proof.
  revert i validated. induction workouts as [|w ws IH]; intros i validated Hall.
  - exists validated. simpl. split; [done|lia].
  - cbn [JsonParser.validateAll].
    pose proof (Hall 0%nat w eq_refl) as Hw. rewrite Nat.add_0_r in Hw.
    destruct (JsonParser.validateWorkout w i) as [result|error]; [|discriminate].
    cbv zeta.
    destruct (IH (S i) (validated ++ [ImportedWorkout.withId result
                (WorkoutValidator.generateWorkoutId (idSource i).1 (idSource i).2)]))
      as (out & Hout & Hlen).
    { intros j w' Hj. replace (S i + j)%nat with (i + S j)%nat by lia.
      by apply Hall. }
    exists out. split; [exact Hout|].
    rewrite Hlen, length_app. simpl. lia.
Qed.

(** C6, as the code has it. The direct JSON import checks the shape of the
    plan and of its workouts and nothing else: an object with a non-empty
    name, start and end dates of the shape [YYYY-MM-DD], and a non-empty
    array of workouts that each pass the importer's own workout check is
    imported, with its dates as they were read, whichever of the two
    dates comes first. *)
Theorem import_checks_shape_only :
  forall (data : Json.t) (name startDate endDate : string)
         (workouts : list Json.t),
    Json.isObject data = true ->
    Json.nonEmptyString (Json.get "name" data) = Some name ->
    Json.nonEmptyString (Json.get "startDate" data) = Some startDate ->
    Json.nonEmptyString (Json.get "endDate" data) = Some endDate ->
    JsonParser.dateRegex startDate = true ->
    JsonParser.dateRegex endDate = true ->
    Json.get "workouts" data = Some (Json.Array workouts) ->
    workouts <> [] ->
    (forall (i : nat) (w : Json.t),
        workouts !! i = Some w ->
        JsonParser.valid (JsonParser.validateWorkout w i) = true) ->
    exists plan : ImportedPlan.t,
      JsonParser.validateTrainingPlanJSON dateTime idSource data
      = JsonParser.Valid plan
      /\ ImportedPlan.name plan = name
      /\ ImportedPlan.startDate plan = startDate
      /\ ImportedPlan.endDate plan = endDate
      /\ length (ImportedPlan.workouts plan) = length workouts.
Proof.
  intros data name startDate endDate workouts
    Hobj Hname Hstart Hend Hshape1 Hshape2 Hws Hnonempty Hall.
  unfold JsonParser.validateTrainingPlanJSON.
  rewrite Hobj, Hname, Hstart, Hend, Hshape1, Hshape2, Hws. cbn [negb].
  destruct workouts as [|w ws]; [done|]. cbn [length Nat.eqb].
  destruct (validateAll_accepts (w :: ws) 0 [] Hall) as (out & -> & Hlen).
  eexists. split; [reflexivity|]. cbn. by repeat split.
Qed.

End ImportFacts.

Lemma import_checks_shape_only_witness :
  exists plan : ImportedPlan.t,
    JsonParser.validateTrainingPlanJSON Engine.isoDateTime
      (fun n => (1700000000000 + Z.of_nat n, "k3j9x2m1q"))
      (Json.Object
         [("name", Json.Str "Base");
          ("startDate", Json.Str "2024-06-01");
          ("endDate", Json.Str "2024-06-30");
          ("workouts",
           Json.Array
             [Json.Object [("date", Json.Str "2024-06-02"); ("type", Json.Str "run");
                           ("name", Json.Str "Easy Run")]])])
    = JsonParser.Valid plan
    /\ ImportedPlan.name plan = "Base"
    /\ ImportedPlan.startDate plan = "2024-06-01"
    /\ ImportedPlan.endDate plan = "2024-06-30"
    /\ length (ImportedPlan.workouts plan) = 1%nat.
Proof.
  apply (import_checks_shape_only Engine.isoDateTime _ _ "Base" "2024-06-01" "2024-06-30"
           [Json.Object [("date", Json.Str "2024-06-02"); ("type", Json.Str "run");
                         ("name", Json.Str "Easy Run")]]);
    try reflexivity.
  - discriminate.
  - intros [|[|i]] w Hw; simpl in Hw; [|discriminate..].
    injection Hw as <-. reflexivity.
Defined.

(** C6 as written fails: a plan that ends before it starts is imported, by
    [validateTrainingPlanJSON] and by [processJSONFile]. *)
Lemma reversed_dates_imported :
  let ids := fun n : nat => (1700000000000 + Z.of_nat n, "k3j9x2m1q") in
  let data :=
    Json.Object
      [("name", Json.Str "Base");
       ("startDate", Json.Str "2024-06-30");
       ("endDate", Json.Str "2024-06-01");
       ("workouts",
        Json.Array
          [Json.Object [("date", Json.Str "2024-06-02"); ("type", Json.Str "run");
                        ("name", Json.Str "Easy Run")]])] in
  let file := JsonParser.mkFile "plan.json" "application/json" 180 (Some "{...}") in
  WorkoutValidator.dateLe Engine.isoDateTime "2024-06-01" "2024-06-30" = true
  /\ JsonParser.valid
       (JsonParser.validateTrainingPlanJSON Engine.isoDateTime ids data) = true
  /\ Api.success
       (JsonParser.processJSONFile Engine.isoDateTime ids (fun _ => Some data) file)
     = true.
Proof. cbv zeta. repeat split; vm_compute; reflexivity. Qed.

(** ** The upload orchestrator *)

Lemma successes_failures {T} (results : list (Api.APIResult T)) :
  (Spec.successes results + Spec.failures results)%nat = length results.
Proof.
  unfold Spec.successes, Spec.failures, Spec.isFailure.
  induction results as [|[d|e] rs IH]; simpl; lia.
Qed.

Lemma itemErrors_length {T} (ws : list Workout.t) (results : list (Api.APIResult T)) :
  length ws = length results ->
  length (Spec.itemErrors ws results) = Spec.failures results.
Proof.
  unfold Spec.itemErrors, Spec.failures, Spec.isFailure.
  revert results. induction ws as [|w ws IH]; intros [|[d|e] rs] Hlen;
    simpl in *; try done.
  - apply IH. lia.
  - f_equal. apply IH. lia.
Qed.

Section UploadFacts.

Variable btoa : string -> string.
Variable network : list IntervalsIcu.Request -> IntervalsIcu.Request
                   -> IntervalsIcu.FetchOutcome.

Lemma uploadSingleWorkout_log workout config log :
  exists request result,
    IntervalsIcu.uploadSingleWorkout btoa network workout config log
    = (result, log ++ [IntervalsIcu.Upload request result])
    /\ IntervalsIcu.body request = IntervalsIcu.formatWorkoutForAPI workout.
Proof. unfold IntervalsIcu.uploadSingleWorkout. by eexists _, _. Qed.

(** What the loop adds to the tallies and to the log: the effects [evs]
    of its upload attempts. *)
Lemma uploadLoop_tally (ws : list Workout.t) :
  forall (i total : nat) config (onProgress : bool)
         (results : IntervalsIcu.Results) (log : list IntervalsIcu.Effect)
         results' log',
    IntervalsIcu.uploadLoop btoa network ws i total config onProgress results log
    = (results', log') ->
    exists evs : list IntervalsIcu.Effect,
      log' = log ++ evs
      /\ length (IntervalsIcu.resultsOf evs) = length ws
      /\ IntervalsIcu.succeeded results'
         = (IntervalsIcu.succeeded results
            + Spec.successes (IntervalsIcu.resultsOf evs))%nat
      /\ IntervalsIcu.failed results'
         = (IntervalsIcu.failed results
            + Spec.failures (IntervalsIcu.resultsOf evs))%nat
      /\ IntervalsIcu.errors results'
         = IntervalsIcu.errors results
           ++ Spec.itemErrors ws (IntervalsIcu.resultsOf evs)
      /\ map IntervalsIcu.body (IntervalsIcu.requestsOf evs)
         = map IntervalsIcu.formatWorkoutForAPI ws.
Proof.
  induction ws as [|w ws IH]; intros i total config onProgress results log
    results' log' Hrun.
  - injection Hrun as <- <-. exists [].
    repeat split; simpl; rewrite ?app_nil_r; (lia || done).
  - cbn [IntervalsIcu.uploadLoop] in Hrun.
    destruct (uploadSingleWorkout_log w config log)
      as (request & result & Hsingle & Hbody).
    rewrite Hsingle in Hrun. cbv zeta in Hrun.
    rewrite !push_if in Hrun.
    apply IH in Hrun as (evs & -> & Hlen & Hsucc & Hfail & Herrs & Hreqs).
    exists ([IntervalsIcu.Upload request result]
            ++ (if onProgress then [IntervalsIcu.Progress (i + 1) total] else [])
            ++ (if (i <? total - 1)%nat then [IntervalsIcu.Wait 200] else [])
            ++ evs).
    assert (forall tl,
      IntervalsIcu.resultsOf
        ([IntervalsIcu.Upload request result]
         ++ (if onProgress then [IntervalsIcu.Progress (i + 1) total] else [])
         ++ (if (i <? total - 1)%nat then [IntervalsIcu.Wait 200] else [])
         ++ tl)
      = result :: IntervalsIcu.resultsOf tl) as Hres.
    { intros tl. by destruct onProgress, (i <? total - 1)%nat. }
    assert (forall tl,
      IntervalsIcu.requestsOf
        ([IntervalsIcu.Upload request result]
         ++ (if onProgress then [IntervalsIcu.Progress (i + 1) total] else [])
         ++ (if (i <? total - 1)%nat then [IntervalsIcu.Wait 200] else [])
         ++ tl)
      = request :: IntervalsIcu.requestsOf tl) as Hreq.
    { intros tl. by destruct onProgress, (i <? total - 1)%nat. }
    rewrite Hres, Hreq. repeat split.
    + by rewrite <- !app_assoc.
    + simpl. by rewrite Hlen.
    + rewrite Hsucc. unfold Spec.successes. destruct result; simpl; lia.
    + rewrite Hfail. unfold Spec.failures, Spec.isFailure.
      destruct result; simpl; lia.
    + rewrite Herrs. unfold Spec.itemErrors.
      destruct result; simpl; [reflexivity|by rewrite <- app_assoc].
    + simpl. by rewrite Hbody, Hreqs.
Qed.

Lemma uploadWorkoutPlan_run plan config onProgress log :
  exists results evs,
    IntervalsIcu.uploadWorkoutPlan btoa network plan config onProgress log
    = (if (0 <? IntervalsIcu.failed results)%nat
       then Api.Failure
              (Spec.aggregateError (IntervalsIcu.succeeded results)
                 (IntervalsIcu.failed results) (IntervalsIcu.errors results))
       else Api.Success results,
       results, log ++ evs)
    /\ length (IntervalsIcu.resultsOf evs) = length (TrainingPlan.workouts plan)
    /\ IntervalsIcu.succeeded results = Spec.successes (IntervalsIcu.resultsOf evs)
    /\ IntervalsIcu.failed results = Spec.failures (IntervalsIcu.resultsOf evs)
    /\ IntervalsIcu.errors results
       = Spec.itemErrors (TrainingPlan.workouts plan) (IntervalsIcu.resultsOf evs)
    /\ map IntervalsIcu.body (IntervalsIcu.requestsOf evs)
       = map IntervalsIcu.formatWorkoutForAPI (TrainingPlan.workouts plan).
Proof.
  unfold IntervalsIcu.uploadWorkoutPlan.
  destruct (IntervalsIcu.uploadLoop btoa network (TrainingPlan.workouts plan) 0
              (length (TrainingPlan.workouts plan)) config onProgress
              (IntervalsIcu.mkResults 0 0 []) log) as [results log'] eqn:Hloop.
  apply uploadLoop_tally in Hloop as (evs & -> & Hlen & Hsucc & Hfail & Herrs & Hreqs).
  exists results, evs. cbv zeta. split; [|by repeat split].
  unfold Spec.aggregateError. by destruct (0 <? IntervalsIcu.failed results)%nat.
Qed.

End UploadFacts.

(** C1. [uploadWorkoutPlan] attempts every workout of the plan, in order.
    With [N] workouts of which [K] uploads fail, its tallies end at
    [succeeded = N - K] and [failed = K]; it has produced exactly [K] error
    strings, the string ["<name> (<date>): <message>"] of each failed
    workout, in order; the result is a success exactly when [K = 0], and then
    carries the tallies; with a failure it is the aggregate error, which
    carries the two counts and the error strings joined by "; ". *)
Theorem uploadWorkoutPlan_tally :
  forall (btoa : string -> string)
         (network : list IntervalsIcu.Request -> IntervalsIcu.Request
                    -> IntervalsIcu.FetchOutcome)
         (plan : TrainingPlan.t) (config : Api.IntervalsICUConfig)
         (onProgress : bool) (log : list IntervalsIcu.Effect),
    let run := IntervalsIcu.uploadWorkoutPlan btoa network plan config onProgress log in
    let result := fst (fst run) in
    let results := snd (fst run) in
    let attempts := IntervalsIcu.resultsOf (Spec.effectsOf log (snd run)) in
    let N := length (TrainingPlan.workouts plan) in
    let K := Spec.failures attempts in
    length attempts = N
    /\ IntervalsIcu.succeeded results = (N - K)%nat
    /\ IntervalsIcu.failed results = K
    /\ IntervalsIcu.errors results = Spec.itemErrors (TrainingPlan.workouts plan) attempts
    /\ length (IntervalsIcu.errors results) = K
    /\ (Api.success result = true <-> K = 0%nat)
    /\ (K = 0%nat -> result = Api.Success (IntervalsIcu.mkResults N 0 []))
    /\ (K <> 0%nat ->
        result = Api.Failure
                   (Spec.aggregateError (N - K) K (IntervalsIcu.errors results))).
Proof.
  intros btoa network plan config onProgress log.
  destruct (uploadWorkoutPlan_run btoa network plan config onProgress log)
    as (results & evs & Hrun & Hlen & Hsucc & Hfail & Herrs & _).
  cbv zeta. rewrite Hrun. cbn [fst snd].
  unfold Spec.effectsOf. rewrite drop_app_length.
  pose proof (successes_failures (IntervalsIcu.resultsOf evs)) as Hsum.
  assert (length (IntervalsIcu.errors results)
          = Spec.failures (IntervalsIcu.resultsOf evs)) as Hcount.
  { rewrite Herrs. by apply itemErrors_length. }
  repeat split.
  - exact Hlen.
  - lia.
  - exact Hfail.
  - exact Herrs.
  - exact Hcount.
  - rewrite <- Hfail. by destruct (IntervalsIcu.failed results).
  - rewrite <- Hfail. intros HK. rewrite HK. reflexivity.
  - intros HK. rewrite <- Hfail in HK. rewrite HK. cbn [Nat.ltb Nat.leb].
    f_equal. destruct results as [s f e]. cbn in *.
    destruct e; [|simpl in Hcount; lia]. f_equal; lia.
  - intros HK. rewrite Hfail.
    destruct (Spec.failures (IntervalsIcu.resultsOf evs)) eqn:HKe; [done|].
    cbn [Nat.ltb Nat.leb]. do 2 f_equal. lia.
Qed.

Lemma uploadWorkoutPlan_tally_witness :
  let network := fun (_ : list IntervalsIcu.Request) (r : IntervalsIcu.Request) =>
    if bool_decide (Api.name (IntervalsIcu.body r) = "Tempo")
    then IntervalsIcu.ResponseNotOk (inr (Api.mkError (Some "Rate limited") 429))
    else IntervalsIcu.ResponseOk
           (inr (Api.mkUploadResponse 1 7 (Api.start_date_local (IntervalsIcu.body r))
                   (Api.name (IntervalsIcu.body r)))) in
  let plan :=
    TrainingPlan.mk "p1" "Base" "2024-05-01" "2024-05-07" (Some 1)
      [Workout.mk "w1" "2024-05-01" "run" "Easy" "30 min easy" (Some 30) None
         (Some "easy") None None;
       Workout.mk "w2" "2024-05-02" "run" "Tempo" "20 min tempo" (Some 20) None
         (Some "hard") None None;
       Workout.mk "w3" "2024-05-03" "rest" "Rest" "" None None None None None]
      None in
  fst (fst (IntervalsIcu.uploadWorkoutPlan (fun s => s) network plan
              (Api.mkConfig "key" None) true []))
  = Api.Failure
      "Uploaded 2 workouts, 1 failed. Errors: Tempo (2024-05-02): Rate limited".
Proof.
  intros network plan.
  destruct (uploadWorkoutPlan_tally (fun s => s) network plan
              (Api.mkConfig "key" None) true [])
    as (_ & _ & _ & _ & _ & _ & _ & Hfailure).
  rewrite Hfailure; [vm_compute; reflexivity|vm_compute; discriminate].
Defined.

(** C10. The description of the event built for a workout is the workout's
    description as it stands when its intervals are absent or empty: no
    interval is synthesized and no phase is extracted. The formatter is
    used only for a workout with a non-empty interval list, and then with
    the empty pace mapping. The events [uploadWorkoutPlan] sends are these
    events, one per workout, in plan order. *)
Theorem upload_description_source :
  forall (btoa : string -> string)
         (network : list IntervalsIcu.Request -> IntervalsIcu.Request
                    -> IntervalsIcu.FetchOutcome),
    (forall workout : Workout.t,
        Workout.intervals workout = None \/ Workout.intervals workout = Some [] ->
        Api.description (IntervalsIcu.formatWorkoutForAPI workout)
        = Workout.description workout)
    /\ (forall (workout : Workout.t) (interval : Interval.t) (rest : list Interval.t),
          Workout.intervals workout = Some (interval :: rest) ->
          Api.description (IntervalsIcu.formatWorkoutForAPI workout)
          = Formatter.formatWorkoutForIntervalsICU workout ∅)
    /\ (forall (plan : TrainingPlan.t) (config : Api.IntervalsICUConfig)
               (onProgress : bool) (log : list IntervalsIcu.Effect),
          map IntervalsIcu.body
            (IntervalsIcu.requestsOf
               (Spec.effectsOf log
                  (snd (IntervalsIcu.uploadWorkoutPlan btoa network plan config
                          onProgress log))))
          = map IntervalsIcu.formatWorkoutForAPI (TrainingPlan.workouts plan)).
Proof.
  intros btoa network. repeat split.
  - intros workout [H|H]; unfold IntervalsIcu.formatWorkoutForAPI;
      rewrite H; reflexivity.
  - intros workout interval rest H. unfold IntervalsIcu.formatWorkoutForAPI.
    rewrite H. reflexivity.
  - intros plan config onProgress log.
    destruct (uploadWorkoutPlan_run btoa network plan config onProgress log)
      as (results & evs & Hrun & _ & _ & _ & _ & Hreqs).
    rewrite Hrun. cbn [snd]. unfold Spec.effectsOf. by rewrite drop_app_length.
Qed.

Lemma upload_description_source_witness :
  Api.description
    (IntervalsIcu.formatWorkoutForAPI (Spec.easyRun "w1" "2024-05-01" "Easy Run" None))
  = ""
  /\ Api.description
       (IntervalsIcu.formatWorkoutForAPI
          (Workout.mk "w2" "2024-05-02" "run" "Repeats" "5 x 1 km" None None None
             (Some [Spec.kilometerRepeats]) None))
     = JS.join JS.nl ["5x"; "- 1.0km 5K pace"; "- 200m Easy pace"].
Proof.
  destruct (upload_description_source (fun s => s)
              (fun _ _ => IntervalsIcu.FetchRejected IntervalsIcu.ThrownOther))
    as (Hplain & Hstructured & _).
  split.
  - rewrite Hplain; [reflexivity|left; reflexivity].
  - rewrite (Hstructured _ Spec.kilometerRepeats []); [|reflexivity].
    vm_compute. reflexivity.
Defined.

(** ** Determinism *)




(** * Further properties of the code *)

(** ** The intensity text *)


Lemma truthy_neq (s : string) : JS.truthy s = true -> s <> "".
Proof.
  unfold JS.truthy. intros H. apply negb_true_iff in H.
  by apply bool_decide_eq_false in H.
Qed.

Lemma truthyEntry_truthy (m : gmap string string) (key value : string) :
  Formatter.truthyEntry m key = Some value -> JS.truthy value = true.
Proof.
  unfold Formatter.truthyEntry. destruct (m !! key) as [v|]; [|done].
  destruct (JS.truthy v) eqn:Hv; [|done]. by intros [= <-].
Qed.

Lemma append_truthy_l (s t : string) : JS.truthy s = true -> JS.truthy (s +:+ t) = true.
Proof. destruct s; [done|]. reflexivity. Qed.

Lemma mapChars_truthy f (s : string) : JS.truthy (JS.mapChars f s) = JS.truthy s.
Proof. by destruct s. Qed.

(** The text of an intensity is never empty: an empty label gets the
    default of the discipline, a mapped label its non-empty value, and any
    other label a zone, a lexicon token or itself. *)
Theorem formatIntensity_never_empty :
  forall (intensity workoutType : string) (paceMapping : gmap string string),
    Formatter.formatIntensity intensity workoutType paceMapping <> "".
Proof.
  intros intensity workoutType paceMapping. apply truthy_neq.
  unfold Formatter.formatIntensity.
  destruct (JS.truthy intensity) eqn:Hi; cbn [negb].
  - destruct (Formatter.truthyEntry paceMapping intensity) as [v|] eqn:Hm.
    + apply truthyEntry_truthy in Hm.
      case_match; [by apply append_truthy_l|done].
    + destruct (Formatter.testZone intensity).
      { unfold JS.toUpperCase. by rewrite mapChars_truthy. }
      destruct (JS.includes "%" intensity); [done|]. cbv zeta.
      destruct (Formatter.truthyEntry (Formatter.intensityMap workoutType) _)
        as [token|] eqn:Ht; [|done].
      by apply truthyEntry_truthy in Ht.
  - by case_bool_decide.
Qed.





(** ** The sections of a workout *)

Lemma formatWorkout_sections (w : Workout.t) (paceMapping : gmap string string) :
  Formatter.formatWorkoutForIntervalsICU w paceMapping
  = match Spec.intervalData w with
    | None => Workout.description w
    | Some intervals =>
        let formatted :=
          JS.trim (JS.join JS.nl
            (Spec.sections
               (Formatter.detectWorkoutPhases (Workout.description w) paceMapping)
               intervals (Workout.type w) paceMapping)) in
        if negb (JS.truthy formatted) then Workout.description w else formatted
    end.
Proof.
  unfold Formatter.formatWorkoutForIntervalsICU, Spec.intervalData, Spec.sections.
  cbv zeta.
  destruct (Formatter.detectWorkoutPhases (Workout.description w) paceMapping)
    as [warmup mainSet cooldown].
  cbn [Formatter.warmup Formatter.cooldown Formatter.mainSet].
  destruct (Workout.intervals w) as [[|interval rest]|];
    cbn [default from_option id length Nat.eqb Nat.ltb Nat.leb];
    try destruct (Num.truthy (Workout.distance w) || Num.truthy (Workout.duration w));
    try reflexivity;
    rewrite if_same;
    destruct (JS.truthyOpt warmup), (JS.truthyOpt cooldown);
    cbn [orb app]; try reflexivity.
  all: destruct rest; reflexivity.
Qed.

Lemma formatIntervals_lines (intervals : list Interval.t) (workoutType : string)
    (paceMapping : gmap string string) :
  Formatter.formatIntervals intervals workoutType paceMapping
  = JS.join JS.nl
      (flat_map (fun interval =>
                   Formatter.intervalLines interval workoutType paceMapping)
                intervals).
Proof.
  unfold Formatter.formatIntervals. cbv zeta. f_equal.
  rewrite <- (app_nil_l (flat_map _ intervals)).
  generalize (@nil string). induction intervals as [|interval rest IH]; intros acc.
  - simpl. by rewrite app_nil_r.
  - simpl. rewrite IH. by rewrite <- app_assoc.
Qed.

(** A step line, and the repeat marker before it, start with a visible
    character. *)
Lemma intervalLines_head (interval : Interval.t) (workoutType : string)
    (paceMapping : gmap string string) :
  exists (c : ascii) (s : string) (rest : list string),
    Formatter.intervalLines interval workoutType paceMapping = String c s :: rest
    /\ JS.isSpace c = false.
Proof.
  unfold Formatter.intervalLines.
  destruct (1 <? Interval.repeat interval).
  - pose proof (toString_numeral (Interval.repeat interval)) as Hnum.
    destruct (Num.toString (Interval.repeat interval)) as [|c s] eqn:Hrepeat.
    + eexists _, _, _. split; [reflexivity|reflexivity].
    + eexists _, _, _. split; [reflexivity|].
      simpl in Hnum. apply andb_prop in Hnum as [Hc _].
      revert Hc. clear. destruct c as [[] [] [] [] [] [] [] []]; vm_compute; congruence.
  - eexists _, _, _. split; [reflexivity|reflexivity].
Qed.

Lemma join_head (sep : string) (c : ascii) (s : string) (rest : list string) :
  exists s' : string, JS.join sep (String c s :: rest) = String c s'.
Proof.
  unfold JS.join. destruct rest as [|r rest]; simpl; [by eexists|].
  rewrite append_cons. by eexists.
Qed.

Lemma formatIntervals_head (interval : Interval.t) (rest : list Interval.t)
    (workoutType : string) (paceMapping : gmap string string) :
  exists (c : ascii) (s : string),
    Formatter.formatIntervals (interval :: rest) workoutType paceMapping = String c s
    /\ JS.isSpace c = false.
Proof.
  rewrite formatIntervals_lines. cbn [flat_map].
  destruct (intervalLines_head interval workoutType paceMapping)
    as (c & s & lines & -> & Hc).
  cbn [app]. destruct (join_head JS.nl c s (lines ++ flat_map
    (fun i => Formatter.intervalLines i workoutType paceMapping) rest)) as [s' ->].
  by exists c, s'.
Qed.

(** The joined sections of a workout with intervals are never blank. *)
Lemma sections_truthy (phases : Formatter.Phases) (interval : Interval.t)
    (rest : list Interval.t) (workoutType : string)
    (paceMapping : gmap string string) :
  JS.truthy (JS.trim (JS.join JS.nl
    (Spec.sections phases (interval :: rest) workoutType paceMapping))) = true.
Proof.
  unfold Spec.sections.
  destruct (formatIntervals_head interval rest workoutType paceMapping)
    as (c & s & -> & Hc).
  destruct (JS.truthyOpt (Formatter.warmup phases)),
    (JS.truthyOpt (Formatter.cooldown phases)),
    (1 <? length (interval :: rest))%nat; cbn [orb app];
    match goal with
    | |- context [JS.join ?sep (String ?a ?b :: ?l)] =>
        destruct (join_head sep a b l) as [s' ->]
    end;
    by apply trim_truthy.
Qed.

Lemma intervalData_nonempty (w : Workout.t) (intervals : list Interval.t) :
  Spec.intervalData w = Some intervals ->
  exists interval rest, intervals = interval :: rest.
Proof.
  unfold Spec.intervalData. intros H.
  destruct (Workout.intervals w) as [[|interval rest]|];
    try (destruct (_ || _); [|discriminate H]); injection H as <-; by eexists _, _.
Qed.

(** A workout with intervals, or with a distance or a duration, formats to
    its sections in the fixed order Warmup, Main Set, Cooldown, joined by
    line feeds and trimmed; the "Main Set" header is there exactly when
    another phase was detected or there are several intervals. The text is
    never empty, so the raw description is never substituted for it. A
    workout with none of the three formats to its description as it
    stands. *)
Theorem structured_workout_text :
  forall (w : Workout.t) (paceMapping : gmap string string),
    (forall intervals : list Interval.t,
        Spec.intervalData w = Some intervals ->
        Formatter.formatWorkoutForIntervalsICU w paceMapping
        = JS.trim (JS.join JS.nl
            (Spec.sections
               (Formatter.detectWorkoutPhases (Workout.description w) paceMapping)
               intervals (Workout.type w) paceMapping))
        /\ Formatter.formatWorkoutForIntervalsICU w paceMapping <> "")
    /\ (Spec.intervalData w = None ->
        Formatter.formatWorkoutForIntervalsICU w paceMapping = Workout.description w).
Proof.
  intros w paceMapping. rewrite formatWorkout_sections. split.
  - intros intervals Hdata. rewrite Hdata. cbv zeta.
    destruct (intervalData_nonempty w intervals Hdata) as (interval & rest & ->).
    pose proof (sections_truthy
      (Formatter.detectWorkoutPhases (Workout.description w) paceMapping)
      interval rest (Workout.type w) paceMapping) as Htruthy.
    rewrite Htruthy. cbn [negb]. split; [reflexivity|by apply truthy_neq].
  - intros Hdata. by rewrite Hdata.
Qed.

Lemma structured_workout_text_witness :
  Formatter.formatWorkoutForIntervalsICU
    (Workout.mk "w1" "2024-05-01" "bike" "Endurance" "Cooldown: spin" (Some 90) None
       (Some "moderate") None None) ∅
  = JS.join JS.nl ["Main Set"; "- 90m moderate"; ""; "Cooldown"; "- spin"]
  /\ Formatter.formatWorkoutForIntervalsICU
       (Workout.mk "w2" "2024-05-02" "rest" "Rest" "Rest day" None (Some 0) None
          (Some []) None) ∅
     = "Rest day".
Proof.
  split.
  - destruct (structured_workout_text
                (Workout.mk "w1" "2024-05-01" "bike" "Endurance" "Cooldown: spin"
                   (Some 90) None (Some "moderate") None None) ∅) as [Hs _].
    destruct (Hs _ eq_refl) as [-> _]. vm_compute. reflexivity.
  - destruct (structured_workout_text
                (Workout.mk "w2" "2024-05-02" "rest" "Rest" "Rest day" None (Some 0)
                   None (Some []) None) ∅) as [_ Hn].
    rewrite Hn; reflexivity.
Defined.

(** ** The synthesized interval *)

(** A workout without intervals is formatted as the same workout carrying
    one explicit interval, repeated once: of [distance * 1000] meters when it
    has a distance, else of [duration * 60] seconds, at the intensity of the
    workout or "Easy". *)
Theorem scalar_workout_as_single_interval :
  forall (w : Workout.t) (paceMapping : gmap string string),
    Workout.intervals w = None \/ Workout.intervals w = Some [] ->
    (forall km : Z,
        Workout.distance w = Some km -> km <> 0 ->
        Formatter.formatWorkoutForIntervalsICU w paceMapping
        = Formatter.formatWorkoutForIntervalsICU
            (Workout.mk (Workout.id w) (Workout.date w) (Workout.type w)
               (Workout.name w) (Workout.description w) (Workout.duration w)
               (Workout.distance w) (Workout.intensity w)
               (Some [Interval.mk 1 (km * 1000) (Some "distance")
                        (JS.orElse (default "" (Workout.intensity w)) "Easy")
                        None None None])
               (Workout.notes w))
            paceMapping)
    /\ (forall minutes : Z,
          Num.truthy (Workout.distance w) = false ->
          Workout.duration w = Some minutes -> minutes <> 0 ->
          Formatter.formatWorkoutForIntervalsICU w paceMapping
          = Formatter.formatWorkoutForIntervalsICU
              (Workout.mk (Workout.id w) (Workout.date w) (Workout.type w)
                 (Workout.name w) (Workout.description w) (Workout.duration w)
                 (Workout.distance w) (Workout.intensity w)
                 (Some [Interval.mk 1 (minutes * 60) (Some "time")
                          (JS.orElse (default "" (Workout.intensity w)) "Easy")
                          None None None])
                 (Workout.notes w))
              paceMapping).
Proof.
  intros w paceMapping Hnone. split.
  - intros km Hkm Hnz. rewrite !formatWorkout_sections.
    unfold Spec.intervalData, Formatter.syntheticInterval.
    cbn [Workout.intervals Workout.distance Workout.duration Workout.intensity
         Workout.description Workout.type].
    apply Z.eqb_neq in Hnz.
    destruct Hnone as [-> | ->]; rewrite Hkm; cbn [Num.truthy orb];
      rewrite Hnz; reflexivity.
  - intros minutes Hdist Hmin Hnz. rewrite !formatWorkout_sections.
    unfold Spec.intervalData, Formatter.syntheticInterval.
    cbn [Workout.intervals Workout.distance Workout.duration Workout.intensity
         Workout.description Workout.type].
    apply Z.eqb_neq in Hnz.
    rewrite Hdist, Hmin. cbn [Num.truthy orb default from_option id]. rewrite Hnz.
    cbn [negb].
    destruct Hnone as [-> | ->];
      (destruct (Workout.distance w) as [d|];
        [cbn [Num.truthy] in Hdist; apply negb_false_iff in Hdist; rewrite Hdist|];
        reflexivity).
Qed.

Lemma scalar_workout_as_single_interval_witness :
  Formatter.formatWorkoutForIntervalsICU
    (Workout.mk "w1" "2024-05-01" "run" "Long run" "" (Some 120) (Some 21) None None None)
    ∅
  = "- 21.0km Easy pace"
  /\ Formatter.formatWorkoutForIntervalsICU
       (Workout.mk "w2" "2024-05-02" "swim" "Swim" "" (Some 45) (Some 0) (Some "hard")
          (Some []) None) ∅
     = "- 45m hard".
Proof.
  split.
  - destruct (scalar_workout_as_single_interval
                (Workout.mk "w1" "2024-05-01" "run" "Long run" "" (Some 120) (Some 21)
                   None None None) ∅ (or_introl eq_refl)) as [Hd _].
    rewrite (Hd 21); [vm_compute; reflexivity|reflexivity|discriminate].
  - destruct (scalar_workout_as_single_interval
                (Workout.mk "w2" "2024-05-02" "swim" "Swim" "" (Some 45) (Some 0)
                   (Some "hard") (Some []) None) ∅ (or_intror eq_refl)) as [_ Ht].
    rewrite (Ht 45); [vm_compute; reflexivity|reflexivity|reflexivity|discriminate].
Defined.


(** ** The phases of a description *)

Section PhaseDetection.

Variable paceMapping : gmap string string.

Lemma phases_fold (lines : list string) (init : Formatter.Phases) :
  let phases := fold_left (Formatter.phaseStep paceMapping) lines init in
  Formatter.warmup phases
  = match Spec.lastWarmup lines with
    | Some g => Some (Formatter.formatPhaseText g paceMapping)
    | None => Formatter.warmup init
    end
  /\ Formatter.cooldown phases
     = match Spec.lastCooldown lines with
       | Some g => Some (Formatter.formatPhaseText g paceMapping)
       | None => Formatter.cooldown init
       end
  /\ Formatter.mainSet phases = Formatter.mainSet init.
Proof.
  cbv zeta. unfold Spec.lastWarmup, Spec.lastCooldown.
  revert init. induction lines as [|line lines IH]; intros init; [done|].
  cbn [fold_left omap list_omap].
  destruct (IH (Formatter.phaseStep paceMapping init line)) as (-> & -> & ->).
  unfold Formatter.phaseStep.
  destruct (Formatter.warmupPattern line) as [g|].
  - rewrite last_cons. cbn [Formatter.warmup Formatter.cooldown Formatter.mainSet].
    by destruct (last (omap Formatter.warmupPattern lines)).
  - destruct (Formatter.cooldownPattern line) as [g|].
    + rewrite last_cons.
      cbn [Formatter.warmup Formatter.cooldown Formatter.mainSet].
      by repeat case_match.
    + done.
Qed.

(** Of several warmup lines the last one counts, and likewise for the
    cooldown; a description without such a line has no such phase. A main
    set is never detected, so the main set of a formatted workout always
    comes from its intervals. *)
Theorem detected_phases :
  forall description : string,
    let phases := Formatter.detectWorkoutPhases description paceMapping in
    let lines := Spec.descriptionLines description in
    Formatter.warmup phases
    = (fun g => Formatter.formatPhaseText g paceMapping) <$> Spec.lastWarmup lines
    /\ Formatter.cooldown phases
       = (fun g => Formatter.formatPhaseText g paceMapping) <$> Spec.lastCooldown lines
    /\ Formatter.mainSet phases = None.
Proof.
  intros description. cbv zeta. unfold Formatter.detectWorkoutPhases.
  destruct (phases_fold (Spec.descriptionLines description)
              (Formatter.mkPhases None None None)) as (Hw & Hc & Hm).
  unfold Spec.descriptionLines in *. rewrite Hw, Hc, Hm.
  by destruct (Spec.lastWarmup _), (Spec.lastCooldown _).
Qed.

End PhaseDetection.

(** ** The interval block *)

Lemma join_app (sep : string) (xs ys : list string) :
  xs <> [] -> ys <> [] ->
  JS.join sep (xs ++ ys) = JS.join sep xs +:+ sep +:+ JS.join sep ys.
Proof.
  intros Hxs Hys. unfold JS.join.
  induction xs as [|x [|x' xs] IH]; [done| |].
  - destruct ys; [done|]. reflexivity.
  - change (String.concat sep ((x :: x' :: xs) ++ ys))
      with (x +:+ sep +:+ String.concat sep ((x' :: xs) ++ ys)).
    rewrite IH by done.
    change (String.concat sep (x :: x' :: xs))
      with (x +:+ sep +:+ String.concat sep (x' :: xs)).
    by rewrite !append_assoc.
Qed.

Lemma interval_lines_nonempty (intervals : list Interval.t) (workoutType : string)
    (paceMapping : gmap string string) :
  intervals <> [] ->
  flat_map (fun i => Formatter.intervalLines i workoutType paceMapping) intervals <> [].
Proof.
  destruct intervals as [|interval rest]; [done|]. intros _. cbn [flat_map].
  destruct (intervalLines_head interval workoutType paceMapping) as (c & s & l & -> & _).
  done.
Qed.

(** The block of a list of intervals is the blocks of its parts, one below
    the other: the lines of an interval never depend on its neighbours. An
    empty list gives the empty block. *)
Theorem formatIntervals_app :
  forall (first second : list Interval.t) (workoutType : string)
         (paceMapping : gmap string string),
    Formatter.formatIntervals [] workoutType paceMapping = ""
    /\ (first <> [] -> second <> [] ->
        Formatter.formatIntervals (first ++ second) workoutType paceMapping
        = Formatter.formatIntervals first workoutType paceMapping
          +:+ JS.nl
          +:+ Formatter.formatIntervals second workoutType paceMapping).
Proof.
  intros first second workoutType paceMapping. split; [reflexivity|].
  intros Hfirst Hsecond. rewrite !formatIntervals_lines, flat_map_app.
  apply join_app; by apply interval_lines_nonempty.
Qed.

Lemma formatIntervals_app_witness :
  Formatter.formatIntervals
    ([Spec.kilometerRepeats]
     ++ [Interval.mk 1 600 None "Z1" None None None]) "run" ∅
  = JS.join JS.nl ["5x"; "- 1.0km 5K pace"; "- 200m Easy pace"; "- 10m Z1"].
Proof.
  destruct (formatIntervals_app [Spec.kilometerRepeats]
              [Interval.mk 1 600 None "Z1" None None None] "run" ∅) as [_ H].
  rewrite H; [vm_compute; reflexivity|discriminate|discriminate].
Defined.


(** ** What the validator accepts *)

Lemma no_messages (rules : list (bool * string)) :
  (length (Spec.messages rules) =? 0)%nat = forallb (fun r => negb (fst r)) rules.
Proof.
  induction rules as [|[b m] rules IH]; [done|].
  rewrite messages_cons. cbn [forallb fst]. destruct b; [done|]. exact IH.
Qed.

Lemma length_app_zero {A} (xs ys : list A) :
  (length (xs ++ ys) =? 0)%nat = (length xs =? 0)%nat && (length ys =? 0)%nat.
Proof. by destruct xs, ys. Qed.

Section Acceptance.

Variable dateTime : string -> option Z.

Lemma isValidISODate_truthy (d : string) :
  WorkoutValidator.isValidISODate dateTime d = true -> JS.truthy d = true.
Proof.
  unfold WorkoutValidator.isValidISODate.
  destruct (WorkoutValidator.iso8601Regex d) eqn:Hregex; [|done].
  intros _. by apply iso8601Regex_truthy.
Qed.

Lemma isValidWorkoutType_truthy (t : string) :
  WorkoutValidator.isValidWorkoutType t = true -> JS.truthy t = true.
Proof. by destruct t. Qed.

Lemma validateWorkout_decides (w : PartialWorkout.t) :
  WorkoutValidator.valid (WorkoutValidator.validateWorkout dateTime w)
  = Spec.workoutAccepted dateTime w.
Proof.
  rewrite validateWorkout_valid, validateWorkout_errors, no_messages.
  unfold Spec.workoutRules, Spec.workoutAccepted. cbv zeta.
  cbn [forallb fst]. rewrite !truthyOpt_default.
  pose proof (isValidISODate_truthy (default "" (PartialWorkout.date w))) as Hdate.
  pose proof (isValidWorkoutType_truthy (default "" (PartialWorkout.type w))) as Htype.
  destruct (WorkoutValidator.isValidISODate dateTime _);
    destruct (JS.truthy (default "" (PartialWorkout.date w)));
    try discriminate (Hdate eq_refl);
    destruct (WorkoutValidator.isValidWorkoutType _);
    destruct (JS.truthy (default "" (PartialWorkout.type w)));
    try discriminate (Htype eq_refl);
    destruct (JS.truthy (default "" (PartialWorkout.id w)));
    destruct (JS.truthy (default "" (PartialWorkout.name w)));
    destruct (JS.truthy (default "" (PartialWorkout.description w)));
    destruct (Spec.isNegative (PartialWorkout.duration w));
    destruct (Spec.isNegative (PartialWorkout.distance w));
    destruct (JS.truthy (default "" (PartialWorkout.intensity w)));
    destruct (WorkoutValidator.isValidIntensity _);
    reflexivity.
Qed.

Lemma no_reports (f : nat -> PartialWorkout.t -> option string)
    (ws : list PartialWorkout.t) :
  (forall i w, f i w = None <-> Spec.workoutAccepted dateTime w = true) ->
  (length (omap id (imap f ws)) =? 0)%nat = forallb (Spec.workoutAccepted dateTime) ws.
Proof.
  revert f. induction ws as [|w ws IH]; intros f Hf; [done|].
  rewrite imap_cons. cbn [omap list_omap forallb].
  destruct (f 0%nat w) as [report|] eqn:Hreport.
  - destruct (Spec.workoutAccepted dateTime w) eqn:Hacc; [|done].
    apply (proj2 (Hf 0%nat w)) in Hacc. congruence.
  - apply Hf in Hreport as ->. cbn [id andb]. apply IH.
    intros i w'. apply Hf.
Qed.

Lemma workoutReport_None (index : nat) (w : PartialWorkout.t) :
  Spec.workoutReport dateTime index w = None
  <-> Spec.workoutAccepted dateTime w = true.
Proof.
  rewrite <- validateWorkout_decides, validateWorkout_valid, validateWorkout_errors.
  unfold Spec.workoutReport.
  by destruct (Spec.messages (Spec.workoutRules dateTime w)).
Qed.

(** [validateWorkout] passes exactly the workouts of [Spec.workoutAccepted],
    and it is for these that it reports no error. *)
Theorem validateWorkout_accepts :
  forall w : PartialWorkout.t,
    WorkoutValidator.valid (WorkoutValidator.validateWorkout dateTime w)
    = Spec.workoutAccepted dateTime w
    /\ (WorkoutValidator.errors (WorkoutValidator.validateWorkout dateTime w) = []
        <-> Spec.workoutAccepted dateTime w = true).
Proof.
  intros w. split; [apply validateWorkout_decides|].
  rewrite <- validateWorkout_decides, validateWorkout_valid.
  by destruct (WorkoutValidator.errors (WorkoutValidator.validateWorkout dateTime w)).
Qed.

(** [validateTrainingPlan] passes exactly the plans of [Spec.planAccepted]:
    in particular a plan without workouts, with equal dates, or with one
    rejected workout anywhere in it, fails. *)
Theorem validateTrainingPlan_accepts :
  forall plan : PartialTrainingPlan.t,
    WorkoutValidator.valid (WorkoutValidator.validateTrainingPlan dateTime plan)
    = Spec.planAccepted dateTime plan.
Proof.
  intros plan.
  rewrite validateTrainingPlan_valid, validateTrainingPlan_errors,
    length_app_zero, no_messages.
  unfold Spec.workoutReports. rewrite (no_reports _ _ workoutReport_None).
  unfold Spec.planRules, Spec.planAccepted. cbv zeta.
  cbn [forallb fst]. rewrite !truthyOpt_default.
  pose proof (isValidISODate_truthy
                (default "" (PartialTrainingPlan.startDate plan))) as Hstart.
  pose proof (isValidISODate_truthy
                (default "" (PartialTrainingPlan.endDate plan))) as Hend.
  destruct (PartialTrainingPlan.workouts plan) as [[|w ws]|];
    cbn [default from_option id forallb];
    destruct (WorkoutValidator.isValidISODate dateTime
                (default "" (PartialTrainingPlan.startDate plan)));
    destruct (JS.truthy (default "" (PartialTrainingPlan.startDate plan)));
    try discriminate (Hstart eq_refl);
    destruct (WorkoutValidator.isValidISODate dateTime
                (default "" (PartialTrainingPlan.endDate plan)));
    destruct (JS.truthy (default "" (PartialTrainingPlan.endDate plan)));
    try discriminate (Hend eq_refl);
    destruct (JS.truthy (default "" (PartialTrainingPlan.id plan)));
    destruct (JS.truthy (default "" (PartialTrainingPlan.name plan)));
    destruct (WorkoutValidator.dateLe dateTime _ _);
    cbn [andb negb orb]; rewrite ?andb_false_r; reflexivity.
Qed.

(** ** The week count *)

Lemma ceilDiv_nested (a d : Z) :
  0 < d ->
  WorkoutValidator.ceilDiv (WorkoutValidator.ceilDiv a d) 7
  = WorkoutValidator.ceilDiv a (7 * d).
Proof.
  intros Hd. unfold WorkoutValidator.ceilDiv.
  replace ((a + d - 1) / d + 7 - 1) with ((a + d - 1 + 6 * d) / d)
    by (rewrite Z.div_add by lia; lia).
  rewrite Z.div_div by lia. f_equal; lia.
Qed.

(** [calculateWeeks] is the least number of whole weeks that covers the
    span between the two dates, in whichever order they are given: [0] for
    equal dates, [1] for anything up to seven days. It is [NaN] exactly when
    one of the dates is invalid. *)
Theorem calculateWeeks_covers :
  forall startDate endDate : string,
    WorkoutValidator.calculateWeeks dateTime startDate endDate
    = WorkoutValidator.calculateWeeks dateTime endDate startDate
    /\ (WorkoutValidator.calculateWeeks dateTime startDate endDate = None
        <-> dateTime startDate = None \/ dateTime endDate = None)
    /\ (forall start end_ : Z,
          dateTime startDate = Some start -> dateTime endDate = Some end_ ->
          exists weeks : Z,
            WorkoutValidator.calculateWeeks dateTime startDate endDate = Some weeks
            /\ (weeks - 1) * Spec.msPerWeek < Z.abs (end_ - start)
               <= weeks * Spec.msPerWeek).
Proof.
  intros startDate endDate. unfold WorkoutValidator.calculateWeeks.
  destruct (dateTime startDate) as [start|], (dateTime endDate) as [end_|];
    cbv zeta; repeat split; try done; try (intros [H|H]; discriminate H);
    try (intros _; by (left + right)).
  - do 3 f_equal. lia.
  - intros start' end' [= <-] [= <-]. eexists. split; [reflexivity|].
    rewrite ceilDiv_nested by lia. unfold WorkoutValidator.ceilDiv, Spec.msPerWeek.
    pose proof (Z.abs_nonneg (end_ - start)) as Habs.
    generalize dependent (Z.abs (end_ - start)). intros span Hspan.
    pose proof (Z.div_mod (span + 7 * (1000 * 60 * 60 * 24) - 1)
                  (7 * (1000 * 60 * 60 * 24))) as Hdiv.
    pose proof (Z.mod_pos_bound (span + 7 * (1000 * 60 * 60 * 24) - 1)
                  (7 * (1000 * 60 * 60 * 24))) as Hmod.
    lia.
Qed.

End Acceptance.

Lemma validateWorkout_leap_day_example :
  WorkoutValidator.valid
    (WorkoutValidator.validateWorkout Engine.isoDateTime
       (PartialWorkout.mk (Some "w1") (Some "2024-02-29") (Some "swim") (Some "Swim")
          (Some "2 km") (Some 0) None (Some "") None None)) = true
  /\ WorkoutValidator.valid
       (WorkoutValidator.validateWorkout Engine.isoDateTime
          (PartialWorkout.mk (Some "w1") (Some "2023-02-29") (Some "swim") (Some "Swim")
             (Some "2 km") None None None None None)) = false.
Proof. split; vm_compute; reflexivity. Qed.

Lemma calculateWeeks_covers_witness :
  WorkoutValidator.calculateWeeks Engine.isoDateTime "2024-05-01" "2024-05-08" = Some 1
  /\ WorkoutValidator.calculateWeeks Engine.isoDateTime "2024-05-09" "2024-05-01" = Some 2
  /\ WorkoutValidator.calculateWeeks Engine.isoDateTime "2024-05-01" "2024-13-01" = None.
Proof.
  destruct (calculateWeeks_covers Engine.isoDateTime "2024-05-01" "2024-13-01")
    as (_ & Hnan & _).
  destruct (calculateWeeks_covers Engine.isoDateTime "2024-05-01" "2024-05-08")
    as (_ & _ & Hweeks).
  destruct (Hweeks _ _ eq_refl eq_refl) as (weeks & Heq & _).
  split; [|split].
  - rewrite Heq. vm_compute in Heq. congruence.
  - vm_compute. reflexivity.
  - apply Hnan. right. reflexivity.
Defined.

(** ** Identifiers *)

Lemma numeral_prefix_inj (a a' s s' : string) :
  Spec.allChars Spec.isNumeralChar a = true ->
  Spec.allChars Spec.isNumeralChar a' = true ->
  a +:+ String "_" s = a' +:+ String "_" s' ->
  a = a' /\ s = s'.
Proof.
  revert a'. induction a as [|c a IH]; intros [|c' a'] Ha Ha' Heq.
  - by injection Heq as ->.
  - rewrite append_nil_l, append_cons in Heq. injection Heq as <- _.
    simpl in Ha'. discriminate Ha'.
  - rewrite append_nil_l, append_cons in Heq. injection Heq as -> _.
    simpl in Ha. discriminate Ha.
  - rewrite !append_cons in Heq. injection Heq as -> Heq.
    simpl in Ha, Ha'. apply andb_prop in Ha as [_ Ha]. apply andb_prop in Ha' as [_ Ha'].
    destruct (IH a' Ha Ha' Heq) as [-> ->]. done.
Qed.

Lemma generated_ids_pair (now now' : Z) (suffix suffix' : string) :
  WorkoutValidator.generateWorkoutId now suffix
  = WorkoutValidator.generateWorkoutId now' suffix' ->
  now = now' /\ suffix = suffix'.
Proof.
  unfold WorkoutValidator.generateWorkoutId. intros Heq.
  apply (inj (String.app "workout_")) in Heq.
  apply (numeral_prefix_inj _ _ suffix suffix') in Heq as [Hnow ->];
    try apply toString_numeral.
  split; [|done]. by apply (inj pretty) in Hnow.
Qed.

(** A generated identifier determines the clock reading and the random
    suffix it was built from: two identifiers of a kind are equal only when
    both agree, and a workout identifier is never a plan identifier. *)
Theorem generated_ids_distinct :
  forall (now now' : Z) (suffix suffix' : string),
    (WorkoutValidator.generateWorkoutId now suffix
     = WorkoutValidator.generateWorkoutId now' suffix'
     -> now = now' /\ suffix = suffix')
    /\ (WorkoutValidator.generatePlanId now suffix
        = WorkoutValidator.generatePlanId now' suffix'
        -> now = now' /\ suffix = suffix')
    /\ WorkoutValidator.generateWorkoutId now suffix
       <> WorkoutValidator.generatePlanId now' suffix'.
Proof.
  intros now now' suffix suffix'.
  unfold WorkoutValidator.generateWorkoutId, WorkoutValidator.generatePlanId.
  split; [|split].
  - intros Heq. apply (inj (String.app "workout_")) in Heq.
    apply (numeral_prefix_inj _ _ suffix suffix') in Heq as [Hnow ->];
      try apply toString_numeral.
    split; [|done]. by apply (inj pretty) in Hnow.
  - intros Heq. apply (inj (String.app "plan_")) in Heq.
    apply (numeral_prefix_inj _ _ suffix suffix') in Heq as [Hnow ->];
      try apply toString_numeral.
    split; [|done]. by apply (inj pretty) in Hnow.
  - rewrite !append_cons. discriminate.
Qed.

Lemma generated_ids_distinct_witness :
  WorkoutValidator.generateWorkoutId 1714550400000 "k3j9x2m1q"
  <> WorkoutValidator.generateWorkoutId 1714550400000 "k3j9x2m1r".
Proof.
  intros Heq.
  destruct (generated_ids_distinct 1714550400000 1714550400000 "k3j9x2m1q" "k3j9x2m1r")
    as (Hinj & _ & _).
  destruct (Hinj Heq) as [_ Hsuffix]. discriminate Hsuffix.
Defined.


(** ** The JSON import: failures and what a success guarantees *)

Lemma nonEmptyString_Some (v : option Json.t) (s : string) :
  Json.nonEmptyString v = Some s -> v = Some (Json.Str s) /\ s <> "".
Proof.
  destruct v as [[| | |s'| |]|]; try done. simpl.
  destruct (JS.truthy s') eqn:Hs; [|done]. intros [= ->].
  split; [done|by apply truthy_neq].
Qed.

Lemma validateWorkout_checked (w : Json.t) (index : nat) (result : ImportedWorkout.t) :
  JsonParser.validateWorkout w index = JsonParser.Valid result ->
  Json.get "date" w = Some (Json.Str (ImportedWorkout.date result))
  /\ Json.get "type" w = Some (Json.Str (ImportedWorkout.type result))
  /\ Json.get "name" w = Some (Json.Str (ImportedWorkout.name result))
  /\ JsonParser.dateRegex (ImportedWorkout.date result) = true
  /\ ImportedWorkout.type result ∈ JsonParser.validTypes
  /\ ImportedWorkout.name result <> "".
Proof.
  unfold JsonParser.validateWorkout. cbv zeta.
  destruct (Json.isObject w); [|done]. cbn [negb].
  destruct (Json.nonEmptyString (Json.get "date" w)) as [date|] eqn:Hdate; [|done].
  destruct (JsonParser.dateRegex date) eqn:Hregex; [|done]. cbn [negb].
  destruct (Json.nonEmptyString (Json.get "type" w)) as [type|] eqn:Htype; [|done].
  destruct (bool_decide (type ∈ JsonParser.validTypes)) eqn:Hvalid; [|done].
  cbn [negb].
  destruct (Json.nonEmptyString (Json.get "name" w)) as [name|] eqn:Hname; [|done].
  apply nonEmptyString_Some in Hdate as [Hdate _].
  apply nonEmptyString_Some in Htype as [Htype _].
  apply nonEmptyString_Some in Hname as [Hname Hnonempty].
  apply bool_decide_eq_true in Hvalid.
  destruct (Json.nonEmptyString (Json.get "intensity" w)) as [intensity|].
  - destruct (bool_decide (intensity ∈ JsonParser.validIntensities)); [|done].
    cbn [negb]. intros [= <-]. done.
  - intros [= <-]. done.
Qed.

Section ImportGuarantees.

Variable dateTime : string -> option Z.
Variable idSource : nat -> Z * string.

(** The loop stops at the first workout that fails its check, with the
    error of that workout. *)
Lemma validateAll_first_invalid (workouts : list Json.t) :
  forall (start index : nat) (validated : list ImportedWorkout.t)
         (w : Json.t) (error : string),
    workouts !! index = Some w ->
    JsonParser.validateWorkout w (start + index) = JsonParser.Invalid error ->
    (forall (j : nat) (w' : Json.t),
        (j < index)%nat -> workouts !! j = Some w' ->
        JsonParser.valid (JsonParser.validateWorkout w' (start + j)) = true) ->
    JsonParser.validateAll idSource workouts start validated
    = JsonParser.Invalid error.
Proof.
  induction workouts as [|first rest IH];
    intros start index validated w error Hw Hinvalid Hbefore; [done|].
  cbn [JsonParser.validateAll]. destruct index as [|index].
  - injection Hw as ->. rewrite Nat.add_0_r in Hinvalid. by rewrite Hinvalid.
  - pose proof (Hbefore 0%nat first ltac:(lia) eq_refl) as Hfirst.
    rewrite Nat.add_0_r in Hfirst.
    destruct (JsonParser.validateWorkout first start) as [result|]; [|done].
    cbv zeta. apply (IH (S start) index _ w error).
    + exact Hw.
    + by replace (S start + index)%nat with (start + S index)%nat by lia.
    + intros j w' Hj Hw'. replace (S start + j)%nat with (start + S j)%nat by lia.
      apply Hbefore; [lia|exact Hw'].
Qed.

(** What the loop returns when it runs to the end: one imported workout
    per workout of the file, in order, behind what was validated before. *)
Lemma validateAll_imported (workouts : list Json.t) :
  forall (start : nat) (validated out : list ImportedWorkout.t),
    JsonParser.validateAll idSource workouts start validated = JsonParser.Valid out ->
    exists imported : list ImportedWorkout.t,
      out = validated ++ imported
      /\ length imported = length workouts
      /\ (forall (i : nat) (iw : ImportedWorkout.t),
            imported !! i = Some iw ->
            exists w, workouts !! i = Some w
                      /\ Spec.importedFrom idSource (start + i) w iw).
Proof.
  induction workouts as [|first rest IH]; intros start validated out Hrun.
  - injection Hrun as <-. exists []. rewrite app_nil_r. by repeat split.
  - cbn [JsonParser.validateAll] in Hrun.
    destruct (JsonParser.validateWorkout first start) as [result|] eqn:Hfirst;
      [|done].
    cbv zeta in Hrun. apply IH in Hrun as (imported & -> & Hlen & Heach).
    exists (ImportedWorkout.withId result
              (WorkoutValidator.generateWorkoutId (idSource start).1
                 (idSource start).2) :: imported).
    split; [by rewrite <- app_assoc|]. split; [simpl; by rewrite Hlen|].
    intros [|i] iw Hiw.
    + injection Hiw as <-. exists first. split; [done|].
      rewrite Nat.add_0_r.
      destruct (validateWorkout_checked _ _ _ Hfirst)
        as (Hd & Ht & Hn & Hr & Hv & Hne).
      by repeat split.
    + destruct (Heach i iw Hiw) as (w & Hw & Hfrom).
      exists w. split; [done|].
      by replace (start + S i)%nat with (S start + i)%nat by lia.
Qed.

(** With the top level of the file in order, the import is decided by the
    loop over the workouts. *)
Lemma import_runs_loop (data : Json.t) (workouts : list Json.t) (error : string) :
  Spec.planShape data workouts ->
  JsonParser.validateAll idSource workouts 0 [] = JsonParser.Invalid error ->
  JsonParser.validateTrainingPlanJSON dateTime idSource data
  = JsonParser.Invalid error.
Proof.
  intros (Hobj & [name Hname] & [startDate [Hstart Hs]] & [endDate [Hend He]] & Hws)
    Hloop.
  unfold JsonParser.validateTrainingPlanJSON.
  rewrite Hobj, Hname, Hstart, Hend, Hs, He, Hws. cbn [negb].
  destruct workouts as [|first rest]; [done|]. cbn [length Nat.eqb].
  by rewrite Hloop.
Qed.

(** The import fails fast: when the top level of the file is in order, the
    first workout that fails its check decides the result, which is the
    error of that workout and nothing else; no plan is produced from the
    valid workouts around it. *)
Theorem import_fails_at_first_invalid :
  forall (data : Json.t) (workouts : list Json.t) (index : nat)
         (w : Json.t) (error : string),
    Spec.planShape data workouts ->
    workouts !! index = Some w ->
    JsonParser.validateWorkout w index = JsonParser.Invalid error ->
    (forall (j : nat) (w' : Json.t),
        (j < index)%nat -> workouts !! j = Some w' ->
        JsonParser.valid (JsonParser.validateWorkout w' j) = true) ->
    JsonParser.validateTrainingPlanJSON dateTime idSource data
    = JsonParser.Invalid error.
Proof.
  intros data workouts index w error Hshape Hw Hinvalid Hbefore.
  apply (import_runs_loop data workouts error Hshape).
  by apply (validateAll_first_invalid workouts 0 index [] w error).
Qed.


(** What a successful import guarantees: the plan has the name and the
    dates of the file, both dates of the shape [YYYY-MM-DD], the source
    "json-import" and the week count of its dates; it has one workout per
    workout of the file, in the order of the file, each with the date, type
    and name it was given, a known discipline and its own generated
    identifier. *)
Theorem import_result :
  forall (data : Json.t) (plan : ImportedPlan.t),
    JsonParser.validateTrainingPlanJSON dateTime idSource data
    = JsonParser.Valid plan ->
    exists workouts : list Json.t,
      Json.get "workouts" data = Some (Json.Array workouts)
      /\ workouts <> []
      /\ Json.get "name" data = Some (Json.Str (ImportedPlan.name plan))
      /\ Json.get "startDate" data = Some (Json.Str (ImportedPlan.startDate plan))
      /\ Json.get "endDate" data = Some (Json.Str (ImportedPlan.endDate plan))
      /\ JsonParser.dateRegex (ImportedPlan.startDate plan) = true
      /\ JsonParser.dateRegex (ImportedPlan.endDate plan) = true
      /\ ImportedPlan.weeks plan
         = WorkoutValidator.calculateWeeks dateTime
             (ImportedPlan.startDate plan) (ImportedPlan.endDate plan)
      /\ ImportedPlan.source plan = Some "json-import"
      /\ ImportedPlan.id plan
         = WorkoutValidator.generatePlanId
             (fst (idSource (length workouts))) (snd (idSource (length workouts)))
      /\ length (ImportedPlan.workouts plan) = length workouts
      /\ (forall (i : nat) (iw : ImportedWorkout.t),
            ImportedPlan.workouts plan !! i = Some iw ->
            exists w, workouts !! i = Some w
                      /\ Spec.importedFrom idSource i w iw).
Proof.
  intros data plan. unfold JsonParser.validateTrainingPlanJSON.
  destruct (Json.isObject data); [|done]. cbn [negb].
  destruct (Json.nonEmptyString (Json.get "name" data)) as [name|] eqn:Hname; [|done].
  destruct (Json.nonEmptyString (Json.get "startDate" data)) as [startDate|]
    eqn:Hstart; [|done].
  destruct (Json.nonEmptyString (Json.get "endDate" data)) as [endDate|]
    eqn:Hend; [|done].
  destruct (JsonParser.dateRegex startDate) eqn:Hs; [|done].
  destruct (JsonParser.dateRegex endDate) eqn:He; [|done]. cbn [negb].
  destruct (Json.get "workouts" data) as [[| | | |workouts|]|] eqn:Hws; try done.
  destruct workouts as [|first rest]; [done|]. cbn [length Nat.eqb].
  destruct (JsonParser.validateAll idSource (first :: rest) 0 [])
    as [validated|] eqn:Hall; [|done].
  intros [= <-].
  apply validateAll_imported in Hall as (imported & -> & Hlen & Heach).
  apply nonEmptyString_Some in Hname as [Hname _].
  apply nonEmptyString_Some in Hstart as [Hstart _].
  apply nonEmptyString_Some in Hend as [Hend _].
  exists (first :: rest). cbn [ImportedPlan.name ImportedPlan.startDate
    ImportedPlan.endDate ImportedPlan.weeks ImportedPlan.source ImportedPlan.id
    ImportedPlan.workouts app].
  repeat split; try done.
Qed.

Lemma import_result_lookup (data : Json.t) (plan : ImportedPlan.t) :
  JsonParser.validateTrainingPlanJSON dateTime idSource data = JsonParser.Valid plan ->
  exists workouts : list Json.t,
    Json.get "workouts" data = Some (Json.Array workouts)
    /\ (forall (i : nat) (iw : ImportedWorkout.t),
          ImportedPlan.workouts plan !! i = Some iw ->
          exists w, workouts !! i = Some w
                    /\ Spec.importedFrom idSource i w iw).
Proof.
  unfold JsonParser.validateTrainingPlanJSON.
  destruct (Json.isObject data); [|done]. cbn [negb].
  destruct (Json.nonEmptyString (Json.get "name" data)); [|done].
  destruct (Json.nonEmptyString (Json.get "startDate" data)) as [startDate|]; [|done].
  destruct (Json.nonEmptyString (Json.get "endDate" data)) as [endDate|]; [|done].
  destruct (JsonParser.dateRegex startDate); [|done].
  destruct (JsonParser.dateRegex endDate); [|done]. cbn [negb].
  destruct (Json.get "workouts" data) as [[| | | |workouts|]|] eqn:Hws; try done.
  destruct workouts as [|first rest]; [done|]. cbn [length Nat.eqb].
  destruct (JsonParser.validateAll idSource (first :: rest) 0 [])
    as [validated|] eqn:Hall; [|done].
  intros [= <-].
  apply validateAll_imported in Hall as (imported & -> & Hlen & Heach).
  by exists (first :: rest).
Qed.

(** When the clock readings and random suffixes drawn during an import
    differ from one another, the identifiers of the imported workouts are
    all different. *)
Theorem import_ids_unique :
  forall (data : Json.t) (plan : ImportedPlan.t),
    JsonParser.validateTrainingPlanJSON dateTime idSource data
    = JsonParser.Valid plan ->
    (forall i j : nat,
        (i < length (ImportedPlan.workouts plan))%nat ->
        (j < length (ImportedPlan.workouts plan))%nat ->
        idSource i = idSource j -> i = j) ->
    NoDup (map ImportedWorkout.id (ImportedPlan.workouts plan)).
Proof.
  intros data plan Himport Hdistinct.
  destruct (import_result_lookup data plan Himport) as (workouts & _ & Heach).
  apply NoDup_alt. intros i j x Hi Hj.
  rewrite list_lookup_fmap in Hi, Hj.
  destruct (ImportedPlan.workouts plan !! i) as [wi|] eqn:Hwi; [|done].
  destruct (ImportedPlan.workouts plan !! j) as [wj|] eqn:Hwj; [|done].
  injection Hi as <-. injection Hj as Hsame.
  destruct (Heach i wi Hwi) as (w1 & _ & (_ & _ & _ & _ & _ & _ & Hid1)).
  destruct (Heach j wj Hwj) as (w2 & _ & (_ & _ & _ & _ & _ & _ & Hid2)).
  rewrite Hid1, Hid2 in Hsame.
  assert (WorkoutValidator.generateWorkoutId (idSource j).1 (idSource j).2
          = WorkoutValidator.generateWorkoutId (idSource i).1 (idSource i).2)
    as Hids by congruence.
  destruct (generated_ids_pair _ _ _ _ Hids) as [Hnow Hsuffix].
  apply Hdistinct.
  - by apply lookup_lt_Some in Hwi.
  - by apply lookup_lt_Some in Hwj.
  - destruct (idSource i), (idSource j). simpl in *. congruence.
Qed.

End ImportGuarantees.

Lemma import_fails_at_first_invalid_witness :
  JsonParser.validateTrainingPlanJSON Engine.isoDateTime
    (fun n => (1700000000000 + Z.of_nat n, "k3j9x2m1q"))
    (Json.Object
       [("name", Json.Str "Base");
        ("startDate", Json.Str "2024-06-01");
        ("endDate", Json.Str "2024-06-30");
        ("workouts",
         Json.Array
           [Json.Object [("date", Json.Str "2024-06-02"); ("type", Json.Str "run");
                         ("name", Json.Str "Easy Run")];
            Json.Object [("date", Json.Str "June 3"); ("type", Json.Str "run");
                         ("name", Json.Str "Tempo")];
            Json.Object [("date", Json.Str "2024-06-04"); ("type", Json.Str "yoga");
                         ("name", Json.Str "Stretch")]])])
  = JsonParser.Invalid
      "Workout at index 1 has invalid date format: June 3. Expected YYYY-MM-DD".
Proof.
  apply (import_fails_at_first_invalid Engine.isoDateTime _ _
           [Json.Object [("date", Json.Str "2024-06-02"); ("type", Json.Str "run");
                         ("name", Json.Str "Easy Run")];
            Json.Object [("date", Json.Str "June 3"); ("type", Json.Str "run");
                         ("name", Json.Str "Tempo")];
            Json.Object [("date", Json.Str "2024-06-04"); ("type", Json.Str "yoga");
                         ("name", Json.Str "Stretch")]]
           1
           (Json.Object [("date", Json.Str "June 3"); ("type", Json.Str "run");
                         ("name", Json.Str "Tempo")])).
  - unfold Spec.planShape. split; [reflexivity|].
    split; [by exists "Base"|]. split; [by exists "2024-06-01"|].
    split; [by exists "2024-06-30"|]. reflexivity.
  - reflexivity.
  - vm_compute. reflexivity.
  - intros [|j] w' Hj Hw'; [|lia]. injection Hw' as <-. vm_compute. reflexivity.
Defined.


Lemma import_result_witness :
  exists plan : ImportedPlan.t,
    JsonParser.validateTrainingPlanJSON Engine.isoDateTime
      (fun n => (1700000000000 + Z.of_nat n, "k3j9x2m1q"))
      (Json.Object
         [("name", Json.Str "Base");
          ("startDate", Json.Str "2024-06-01");
          ("endDate", Json.Str "2024-06-30");
          ("workouts",
           Json.Array
             [Json.Object [("date", Json.Str "2024-06-02"); ("type", Json.Str "run");
                           ("name", Json.Str "Easy Run")];
              Json.Object [("date", Json.Str "2024-06-04"); ("type", Json.Str "bike");
                           ("name", Json.Str "Spin")]])])
    = JsonParser.Valid plan
    /\ ImportedPlan.source plan = Some "json-import"
    /\ length (ImportedPlan.workouts plan) = 2%nat.
Proof.
  eexists. split; [vm_compute; reflexivity|].
  destruct (import_result Engine.isoDateTime
              (fun n => (1700000000000 + Z.of_nat n, "k3j9x2m1q"))
              (Json.Object
                 [("name", Json.Str "Base");
                  ("startDate", Json.Str "2024-06-01");
                  ("endDate", Json.Str "2024-06-30");
                  ("workouts",
                   Json.Array
                     [Json.Object [("date", Json.Str "2024-06-02");
                                   ("type", Json.Str "run");
                                   ("name", Json.Str "Easy Run")];
                      Json.Object [("date", Json.Str "2024-06-04");
                                   ("type", Json.Str "bike");
                                   ("name", Json.Str "Spin")]])])
              _ eq_refl)
    as (workouts & Hws & _ & _ & _ & _ & _ & _ & _ & Hsource & _ & Hlen & _).
  split; [exact Hsource|].
  transitivity (length workouts); [exact Hlen|].
  injection Hws as <-. reflexivity.
Defined.

Lemma import_ids_unique_witness :
  exists plan : ImportedPlan.t,
    JsonParser.validateTrainingPlanJSON Engine.isoDateTime
      (fun n => (1700000000000 + Z.of_nat n, "k3j9x2m1q"))
      (Json.Object
         [("name", Json.Str "Base");
          ("startDate", Json.Str "2024-06-01");
          ("endDate", Json.Str "2024-06-30");
          ("workouts",
           Json.Array
             [Json.Object [("date", Json.Str "2024-06-02"); ("type", Json.Str "run");
                           ("name", Json.Str "Easy Run")];
              Json.Object [("date", Json.Str "2024-06-04"); ("type", Json.Str "bike");
                           ("name", Json.Str "Spin")]])])
    = JsonParser.Valid plan
    /\ NoDup (map ImportedWorkout.id (ImportedPlan.workouts plan)).
Proof.
  eexists. split; [vm_compute; reflexivity|].
  apply (import_ids_unique Engine.isoDateTime
           (fun n => (1700000000000 + Z.of_nat n, "k3j9x2m1q"))
           (Json.Object
              [("name", Json.Str "Base");
               ("startDate", Json.Str "2024-06-01");
               ("endDate", Json.Str "2024-06-30");
               ("workouts",
                Json.Array
                  [Json.Object [("date", Json.Str "2024-06-02");
                                ("type", Json.Str "run");
                                ("name", Json.Str "Easy Run")];
                   Json.Object [("date", Json.Str "2024-06-04");
                                ("type", Json.Str "bike");
                                ("name", Json.Str "Spin")]])])).
  - vm_compute. reflexivity.
  - intros i j _ _ Hsame. injection Hsame as Hsame. lia.
Defined.

(** ** Strings: prefixes, suffixes and occurrences *)

Lemma append_nil_r (s : string) : s +:+ "" = s.
Proof. induction s as [|c s IH]; [done|]. by rewrite append_cons, IH. Qed.

Lemma stripPrefix_Some (p s rest : string) :
  JS.stripPrefix p s = Some rest <-> s = p +:+ rest.
Proof.
  revert s. induction p as [|a p IH]; intros s.
  - destruct s; simpl; rewrite append_nil_l; split; congruence.
  - destruct s as [|b s]; simpl.
    + split; [done|]. rewrite append_cons. discriminate.
    + rewrite append_cons. case_bool_decide as Hab.
      * subst b. rewrite IH. split; [by intros ->|]. by intros [= ->].
      * split; [done|]. intros [= -> _]. done.
Qed.

Lemma startsWith_prefix (p s : string) :
  JS.startsWith p s = true <-> exists rest, s = p +:+ rest.
Proof.
  unfold JS.startsWith. rewrite bool_decide_eq_true. split.
  - intros [rest Hrest]. exists rest. by apply stripPrefix_Some.
  - intros [rest Hrest]. exists rest. by apply stripPrefix_Some.
Qed.

Lemma rev_app_append (s acc : string) :
  String.rev_app s acc = String.rev s +:+ acc.
Proof.
  unfold String.rev. revert acc. induction s as [|c s IH]; intros acc; [done|].
  cbn [String.rev_app]. rewrite (IH (String c acc)), (IH (String c "")).
  by rewrite append_assoc.
Qed.

Lemma rev_append (s t : string) :
  String.rev (s +:+ t) = String.rev t +:+ String.rev s.
Proof.
  induction s as [|c s IH].
  - by rewrite append_nil_l, append_nil_r.
  - rewrite append_cons. unfold String.rev at 1 3. cbn [String.rev_app].
    rewrite !rev_app_append, IH. by rewrite append_assoc.
Qed.

Lemma rev_involutive (s : string) : String.rev (String.rev s) = s.
Proof.
  induction s as [|c s IH]; [done|].
  unfold String.rev at 2. cbn [String.rev_app].
  rewrite rev_app_append, rev_append, IH. reflexivity.
Qed.

Lemma endsWith_suffix (suffix s : string) :
  JsonParser.endsWith suffix s = true <-> exists stem, s = stem +:+ suffix.
Proof.
  unfold JsonParser.endsWith. rewrite startsWith_prefix. split.
  - intros [rest Hrest]. exists (String.rev rest).
    rewrite <- (rev_involutive s), Hrest, rev_append. by rewrite rev_involutive.
  - intros [stem ->]. exists (String.rev stem). by rewrite rev_append.
Qed.


(** ** Reading a plan file *)

Section FileImport.

Variable dateTime : string -> option Z.
Variable idSource : nat -> Z * string.
Variable JSON_parse : string -> option Json.t.

Lemma validateJSONFile_accepts (file : JsonParser.File) :
  JsonParser.valid (JsonParser.validateJSONFile file) = true
  <-> Spec.acceptedFile file.
Proof.
  unfold JsonParser.validateJSONFile, Spec.acceptedFile. cbv zeta.
  rewrite <- endsWith_suffix.
  destruct (JsonParser.endsWith ".json" (JsonParser.file_name file));
    case_bool_decide as Htype; cbn [negb andb];
    destruct (Z.ltb_spec (5 * 1024 * 1024) (JsonParser.file_size file));
    cbn [JsonParser.valid]; split; try done; try (intros [_ ?]; lia);
    try (intros _; split; [tauto|lia]).
  all: intros [[?|?] _]; done.
Qed.

(** A file is imported exactly when it is named [*.json] or typed as JSON,
    has at most 5 MB, can be read, parses as JSON and passes the plan check;
    the plan handed on is the checked plan with the name of the file as its
    source. In every other case the import is a failure: nothing is thrown
    to the caller. *)
Theorem processJSONFile_success :
  forall (file : JsonParser.File) (plan : ImportedPlan.t),
    JsonParser.processJSONFile dateTime idSource JSON_parse file = Api.Success plan
    <-> Spec.acceptedFile file
        /\ exists (text : string) (data : Json.t) (checked : ImportedPlan.t),
             JsonParser.file_text file = Some text
             /\ JSON_parse text = Some data
             /\ JsonParser.validateTrainingPlanJSON dateTime idSource data
                = JsonParser.Valid checked
             /\ plan = ImportedPlan.withSource checked (JsonParser.file_name file).
Proof.
  intros file plan. rewrite <- validateJSONFile_accepts.
  unfold JsonParser.processJSONFile, JsonParser.readJSONFile. split.
  - destruct (JsonParser.validateJSONFile file); [|done].
    destruct (JsonParser.file_text file) as [text|]; [|done].
    destruct (JSON_parse text) as [data|] eqn:Hparse; [|done].
    destruct (JsonParser.validateTrainingPlanJSON dateTime idSource data)
      as [checked|] eqn:Hchecked; [|done].
    intros [= <-]. split; [done|]. by exists text, data, checked.
  - intros [Hfile (text & data & checked & -> & -> & -> & ->)].
    by destruct (JsonParser.validateJSONFile file).
Qed.

(** A file that is refused by its name, type or size is not read: the result
    does not depend on what the file holds. *)
Theorem refused_file_not_read :
  forall (file : JsonParser.File) (text : option string),
    ~ Spec.acceptedFile file ->
    JsonParser.processJSONFile dateTime idSource JSON_parse
      (JsonParser.mkFile (JsonParser.file_name file) (JsonParser.file_type file)
         (JsonParser.file_size file) text)
    = JsonParser.processJSONFile dateTime idSource JSON_parse file
    /\ Api.success (JsonParser.processJSONFile dateTime idSource JSON_parse file)
       = false.
Proof.
  intros file text Hrefused. rewrite <- validateJSONFile_accepts in Hrefused.
  unfold JsonParser.processJSONFile.
  assert (JsonParser.validateJSONFile
            (JsonParser.mkFile (JsonParser.file_name file)
               (JsonParser.file_type file) (JsonParser.file_size file) text)
          = JsonParser.validateJSONFile file) as -> by reflexivity.
  by destruct (JsonParser.validateJSONFile file).
Qed.

End FileImport.

Lemma refused_file_not_read_witness :
  let file := JsonParser.mkFile "plan.txt" "text/plain" 120 (Some "{}") in
  JsonParser.processJSONFile Engine.isoDateTime
    (fun n => (1700000000000 + Z.of_nat n, "k3j9x2m1q")) (fun _ => None)
    (JsonParser.mkFile (JsonParser.file_name file) (JsonParser.file_type file)
       (JsonParser.file_size file) None)
  = JsonParser.processJSONFile Engine.isoDateTime
      (fun n => (1700000000000 + Z.of_nat n, "k3j9x2m1q")) (fun _ => None) file
  /\ Api.success
       (JsonParser.processJSONFile Engine.isoDateTime
          (fun n => (1700000000000 + Z.of_nat n, "k3j9x2m1q")) (fun _ => None) file)
     = false.
Proof.
  apply (refused_file_not_read Engine.isoDateTime _ _
           (JsonParser.mkFile "plan.txt" "text/plain" 120 (Some "{}")) None).
  intros [[[stem Hstem]|Htype] _]; [|discriminate Htype].
  simpl in Hstem.
  assert (JsonParser.endsWith ".json" "plan.txt" = true) as Hends
    by (apply endsWith_suffix; by exists stem).
  vm_compute in Hends. discriminate Hends.
Defined.

(** ** The events sent and the course of an upload *)




Lemma upload_requests_of_rounds (btoa : string -> string)
    (config : Api.IntervalsICUConfig) (onProgress : bool) (total : nat) rounds :
  forall i : nat,
    Forall (fun round => Spec.uploadRequest btoa config (fst round)) rounds ->
    Forall (Spec.uploadRequest btoa config)
      (IntervalsIcu.requestsOf
         (concat (imap (fun k => Spec.roundEffects onProgress total (i + k)) rounds))).
Proof.
  induction rounds as [|round rounds IH]; intros i Hrounds; [constructor|].
  inversion Hrounds as [|? ? Hround Hrest]; subst.
  rewrite imap_cons. cbn [concat]. unfold IntervalsIcu.requestsOf in *.
  rewrite omap_app. apply Forall_app. split.
  - unfold Spec.roundEffects. rewrite Nat.add_0_r.
    destruct onProgress, (i <? total - 1)%nat; cbn;
      (constructor; [exact Hround|constructor]).
  - rewrite (imap_ext _ (fun k => Spec.roundEffects onProgress total (S i + k)));
      [|intros k r _; cbn; by replace (i + S k)%nat with (S i + k)%nat by lia].
    by apply IH.
Qed.

Section UploadCourse.

Variable btoa : string -> string.
Variable network : list IntervalsIcu.Request -> IntervalsIcu.Request
                   -> IntervalsIcu.FetchOutcome.

Lemma uploadSingleWorkout_request workout config log :
  exists request result,
    IntervalsIcu.uploadSingleWorkout btoa network workout config log
    = (result, log ++ [IntervalsIcu.Upload request result])
    /\ Spec.uploadRequest btoa config request.
Proof.
  unfold IntervalsIcu.uploadSingleWorkout. cbv zeta. eexists _, _.
  split; [reflexivity|]. unfold Spec.uploadRequest, Spec.eventsUrl.
  cbn [IntervalsIcu.url IntervalsIcu.method IntervalsIcu.authorization].
  split; [|done]. unfold JS.orElse, JS.truthy.
  destruct (Api.athleteId config) as [athlete|]; cbn [default from_option id];
    [|reflexivity].
  by case_bool_decide.
Qed.

Lemma uploadLoop_rounds (ws : list Workout.t) :
  forall (i total : nat) config (onProgress : bool)
         (results : IntervalsIcu.Results) (log : list IntervalsIcu.Effect)
         results' log',
    IntervalsIcu.uploadLoop btoa network ws i total config onProgress results log
    = (results', log') ->
    exists rounds,
      log' = log ++ concat (imap (fun k => Spec.roundEffects onProgress total (i + k))
                                 rounds)
      /\ length rounds = length ws
      /\ Forall (fun round => Spec.uploadRequest btoa config (fst round)) rounds.
Proof.
  induction ws as [|w ws IH]; intros i total config onProgress results log
    results' log' Hrun.
  - injection Hrun as <- <-. exists []. by rewrite app_nil_r.
  - cbn [IntervalsIcu.uploadLoop] in Hrun.
    destruct (uploadSingleWorkout_request w config log)
      as (request & result & Hsingle & Hrequest).
    rewrite Hsingle in Hrun. cbv zeta in Hrun. rewrite !push_if in Hrun.
    apply IH in Hrun as (rounds & -> & Hlen & Hall).
    exists ((request, result) :: rounds). split; [|split].
    + rewrite imap_cons. cbn [concat]. unfold Spec.roundEffects at 2.
      cbn [fst snd]. rewrite Nat.add_0_r, <- !app_assoc.
      do 4 f_equal. symmetry. f_equal. apply imap_ext. intros k round _. cbn.
      by replace (i + S k)%nat with (S i + k)%nat by lia.
    + simpl. by rewrite Hlen.
    + by constructor.
Qed.

Lemma progressOf_rounds (onProgress : bool) (total : nat) rounds :
  forall i : nat,
    Spec.progressOf
      (concat (imap (fun k => Spec.roundEffects onProgress total (i + k)) rounds))
    = if onProgress
      then map (fun j => ((j + 1)%nat, total)) (seq i (length rounds))
      else [].
Proof.
  induction rounds as [|round rounds IH]; intros i; [by destruct onProgress|].
  rewrite imap_cons. cbn [concat]. unfold Spec.progressOf in *.
  rewrite omap_app.
  rewrite (imap_ext _ (fun k => Spec.roundEffects onProgress total (S i + k)));
    [|intros k r _; cbn; by replace (i + S k)%nat with (S i + k)%nat by lia].
  rewrite IH. unfold Spec.roundEffects. rewrite Nat.add_0_r.
  by destruct onProgress, (i <? total - 1)%nat.
Qed.

Lemma waitsOf_rounds (onProgress : bool) (total : nat) rounds :
  forall i : nat,
    Spec.waitsOf
      (concat (imap (fun k => Spec.roundEffects onProgress total (i + k)) rounds))
    = replicate (length rounds `min` (total - 1 - i)) 200.
Proof.
  induction rounds as [|round rounds IH]; intros i; [done|].
  rewrite imap_cons. cbn [concat]. unfold Spec.waitsOf in *.
  rewrite omap_app.
  rewrite (imap_ext _ (fun k => Spec.roundEffects onProgress total (S i + k)));
    [|intros k r _; cbn; by replace (i + S k)%nat with (S i + k)%nat by lia].
  rewrite IH. unfold Spec.roundEffects. rewrite Nat.add_0_r. cbn [length].
  destruct (Nat.ltb_spec i (total - 1)) as [Hlt|Hge].
  - replace (S (length rounds) `min` (total - 1 - i))%nat
      with (S (length rounds `min` (total - 1 - S i)))%nat by lia.
    by destruct onProgress.
  - replace (S (length rounds) `min` (total - 1 - i))%nat with 0%nat by lia.
    replace (length rounds `min` (total - 1 - S i))%nat with 0%nat by lia.
    by destruct onProgress.
Qed.

Lemma uploadWorkoutPlan_rounds plan config onProgress log :
  exists rounds,
    snd (IntervalsIcu.uploadWorkoutPlan btoa network plan config onProgress log)
    = log ++ concat (imap (Spec.roundEffects onProgress
                             (length (TrainingPlan.workouts plan))) rounds)
    /\ length rounds = length (TrainingPlan.workouts plan)
    /\ Forall (fun round => Spec.uploadRequest btoa config (fst round)) rounds.
Proof.
  unfold IntervalsIcu.uploadWorkoutPlan. cbv zeta.
  destruct (IntervalsIcu.uploadLoop btoa network (TrainingPlan.workouts plan) 0
              (length (TrainingPlan.workouts plan)) config onProgress
              (IntervalsIcu.mkResults 0 0 []) log) as [results log'] eqn:Hloop.
  apply uploadLoop_rounds in Hloop as (rounds & -> & Hlen & Hall).
  exists rounds. by destruct (0 <? IntervalsIcu.failed results)%nat.
Qed.

(** The course of an upload of a plan of [N] workouts: one round per
    workout, each being the upload attempt, then the progress report
    [(index + 1, N)] when a callback was passed, then a pause of 200 ms unless
    the workout was the last. So the callback is told 1 of N, 2 of N, ...,
    N of N, and there are [N - 1] pauses. Every request is a POST to the
    events of the configured athlete (of athlete 0 when none is configured)
    and carries the key in its basic authorization. *)
Theorem upload_course :
  forall (plan : TrainingPlan.t) (config : Api.IntervalsICUConfig)
         (onProgress : bool) (log : list IntervalsIcu.Effect),
    let N := length (TrainingPlan.workouts plan) in
    let effects :=
      Spec.effectsOf log
        (snd (IntervalsIcu.uploadWorkoutPlan btoa network plan config onProgress log)) in
    (exists rounds,
        length rounds = N
        /\ effects = concat (imap (Spec.roundEffects onProgress N) rounds))
    /\ Spec.progressOf effects
       = (if onProgress then map (fun j => ((j + 1)%nat, N)) (seq 0 N) else [])
    /\ Spec.waitsOf effects = replicate (N - 1) 200
    /\ Forall (Spec.uploadRequest btoa config) (IntervalsIcu.requestsOf effects).
Proof.
  intros plan config onProgress log. cbv zeta.
  destruct (uploadWorkoutPlan_rounds plan config onProgress log)
    as (rounds & -> & Hlen & Hall).
  unfold Spec.effectsOf. rewrite drop_app_length. split; [by exists rounds|].
  set (total := length (TrainingPlan.workouts plan)) in *.
  assert (Spec.progressOf (concat (imap (Spec.roundEffects onProgress total) rounds))
          = if onProgress
            then map (fun j => ((j + 1)%nat, total)) (seq 0 (length rounds))
            else []) as Hprogress
    by exact (progressOf_rounds onProgress total rounds 0).
  assert (Spec.waitsOf (concat (imap (Spec.roundEffects onProgress total) rounds))
          = replicate (length rounds `min` (total - 1 - 0)) 200) as Hwaits
    by exact (waitsOf_rounds onProgress total rounds 0).
  rewrite Hprogress, Hwaits, Hlen. split; [done|]. split; [f_equal; lia|].
  clear Hprogress Hwaits Hlen.
  exact (upload_requests_of_rounds btoa config onProgress total rounds 0 Hall).
Qed.

End UploadCourse.

(** ** The upload from the preview page *)

Lemma itemErrors_withDescription {T} (text : Workout.t -> string)
    (ws : list Workout.t) (results : list (Api.APIResult T)) :
  Spec.itemErrors (map (fun w => PreviewPage.withDescription w (text w)) ws) results
  = Spec.itemErrors ws results.
Proof.
  unfold Spec.itemErrors. revert results.
  induction ws as [|w ws IH]; intros [|r results]; try done.
  cbn [map zip zip_with]. specialize (IH results).
  change (list_omap ?A ?B ?f ?l) with (omap f l).
  cbn [omap list_omap fst snd]. change (list_omap ?A ?B ?f ?l) with (omap f l).
  rewrite IH. by destruct r.
Qed.

Lemma aggregateError_not_key_error (succeeded failed : nat) (errors : list string) :
  Spec.aggregateError succeeded failed errors <> "intervals.icu API key not found".
Proof. unfold Spec.aggregateError. rewrite append_cons. discriminate. Qed.

Section PreviewUpload.

Variable btoa : string -> string.
Variable network : list IntervalsIcu.Request -> IntervalsIcu.Request
                   -> IntervalsIcu.FetchOutcome.

Lemma getAPIKey_noKey (storage : Storage.LocalStorage) :
  JS.truthyOpt (Storage.getAPIKey Storage.intervals storage) = false
  <-> Spec.noKey storage.
Proof.
  unfold Storage.getAPIKey, Spec.noKey, Storage.storageKey,
    Storage.INTERVALS_API_KEY.
  destruct (Storage.disabled storage); [by split; [left|]|].
  destruct (Storage.entries storage !! "intervals_icu_api_key") as [key|] eqn:Hkey;
    cbn [JS.truthyOpt].
  - unfold JS.truthyOpt, JS.truthy. case_bool_decide as Hempty; cbn [negb].
    + subst key. split; [by right; right|done].
    + split; [done|]. intros [?|[?|[= ?]]]; done.
  - split; [by right; left|done].
Qed.

Lemma handleUpload_with_key (storage : Storage.LocalStorage) (plan : TrainingPlan.t)
    (paceMapping : gmap string string) (log : list IntervalsIcu.Effect) :
  ~ Spec.noKey storage ->
  exists key results effects,
    Storage.entries storage !! "intervals_icu_api_key" = Some key
    /\ key <> ""
    /\ IntervalsIcu.uploadWorkoutPlan btoa network
         (PlanPreview.withWorkouts plan
            (map (fun w => PreviewPage.withDescription w
                             (Formatter.formatWorkoutForIntervalsICU w paceMapping))
                 (TrainingPlan.workouts plan)))
         (Api.mkConfig key None) true log
       = (if (0 <? IntervalsIcu.failed results)%nat
          then Api.Failure
                 (Spec.aggregateError (IntervalsIcu.succeeded results)
                    (IntervalsIcu.failed results) (IntervalsIcu.errors results))
          else Api.Success results,
          results, log ++ effects)
    /\ PreviewPage.handleUpload btoa network storage plan paceMapping log
       = (if (0 <? IntervalsIcu.failed results)%nat
          then PreviewPage.ErrorShown
                 (Spec.aggregateError (IntervalsIcu.succeeded results)
                    (IntervalsIcu.failed results) (IntervalsIcu.errors results))
          else PreviewPage.Navigated (TrainingPlan.name plan)
                 (pretty (length (TrainingPlan.workouts plan))),
          log ++ effects).
Proof.
  intros Hkey. pose proof (getAPIKey_noKey storage) as Hiff.
  destruct (JS.truthyOpt (Storage.getAPIKey Storage.intervals storage)) eqn:Htruthy;
    [|by destruct Hkey; apply Hiff].
  clear Hiff. unfold PreviewPage.handleUpload. cbv zeta. rewrite Htruthy. cbn [negb].
  unfold Storage.getAPIKey, Storage.storageKey, Storage.INTERVALS_API_KEY in *.
  destruct (Storage.disabled storage); [done|].
  destruct (Storage.entries storage !! "intervals_icu_api_key") as [key|]; [|done].
  cbn [default from_option id].
  destruct (uploadWorkoutPlan_run btoa network
              (PlanPreview.withWorkouts plan
                 (map (fun w => PreviewPage.withDescription w
                                  (Formatter.formatWorkoutForIntervalsICU w paceMapping))
                      (TrainingPlan.workouts plan)))
              (Api.mkConfig key None) true log)
    as (results & effects & Hrun & _).
  exists key, results, effects. rewrite Hrun.
  split; [done|]. split; [by apply truthy_neq|]. split; [done|].
  by destruct (0 <? IntervalsIcu.failed results)%nat.
Qed.

(** Without a usable key the handler shows "intervals.icu API key not
    found" and sends nothing; and that message is shown in no other case. *)
Theorem upload_needs_key :
  forall (storage : Storage.LocalStorage) (plan : TrainingPlan.t)
         (paceMapping : gmap string string) (log : list IntervalsIcu.Effect),
    (Spec.noKey storage ->
     PreviewPage.handleUpload btoa network storage plan paceMapping log
     = (PreviewPage.ErrorShown "intervals.icu API key not found", log))
    /\ (fst (PreviewPage.handleUpload btoa network storage plan paceMapping log)
        = PreviewPage.ErrorShown "intervals.icu API key not found"
        -> Spec.noKey storage).
Proof.
  intros storage plan paceMapping log. split.
  - intros Hno. apply getAPIKey_noKey in Hno.
    unfold PreviewPage.handleUpload. cbv zeta. by rewrite Hno.
  - intros Hshown.
    destruct (JS.truthyOpt (Storage.getAPIKey Storage.intervals storage)) eqn:Hkey;
      [|by apply getAPIKey_noKey].
    assert (~ Spec.noKey storage) as Hhas.
    { intros Hno. apply getAPIKey_noKey in Hno. congruence. }
    destruct (handleUpload_with_key storage plan paceMapping log Hhas)
      as (key & results & effects & _ & _ & _ & Hrun).
    rewrite Hrun in Hshown. cbn [fst] in Hshown.
    destruct (0 <? IntervalsIcu.failed results)%nat; [|done].
    exfalso.
    apply (aggregateError_not_key_error (IntervalsIcu.succeeded results)
             (IntervalsIcu.failed results) (IntervalsIcu.errors results)).
    congruence.
Qed.

(** With a key, every workout of the plan is sent, in plan order, to the
    events of athlete 0 and under that key. The description sent for a
    workout without intervals is its text formatted with the pace mapping;
    for a workout with intervals it is that text formatted a second time,
    with the empty mapping. *)
Theorem preview_upload_requests :
  forall (storage : Storage.LocalStorage) (plan : TrainingPlan.t)
         (paceMapping : gmap string string) (log : list IntervalsIcu.Effect),
    ~ Spec.noKey storage ->
    let run := PreviewPage.handleUpload btoa network storage plan paceMapping log in
    let requests := IntervalsIcu.requestsOf (Spec.effectsOf log (snd run)) in
    exists key,
      Storage.entries storage !! "intervals_icu_api_key" = Some key
      /\ map (fun r => Api.description (IntervalsIcu.body r)) requests
         = map (Spec.uploadedText paceMapping) (TrainingPlan.workouts plan)
      /\ map (fun r => Api.external_id (IntervalsIcu.body r)) requests
         = map (fun w => Some (Workout.id w)) (TrainingPlan.workouts plan)
      /\ Forall (fun r =>
                   IntervalsIcu.url r = "https://intervals.icu/api/v1/athlete/0/events"
                   /\ IntervalsIcu.authorization r
                      = "Basic " +:+ btoa ("API_KEY:" +:+ key))
                requests.
Proof.
  intros storage plan paceMapping log Hhas. cbv zeta.
  destruct (handleUpload_with_key storage plan paceMapping log Hhas)
    as (key & results & effects & Hkey & _ & Hplan & Hrun).
  exists key. split; [exact Hkey|].
  rewrite Hrun. cbn [snd]. unfold Spec.effectsOf. rewrite drop_app_length.
  set (planToUpload :=
         PlanPreview.withWorkouts plan
           (map (fun w => PreviewPage.withDescription w
                            (Formatter.formatWorkoutForIntervalsICU w paceMapping))
                (TrainingPlan.workouts plan))) in *.
  destruct (uploadWorkoutPlan_run btoa network planToUpload
              (Api.mkConfig key None) true log)
    as (results' & effects' & Hrun' & _ & _ & _ & _ & Hbodies).
  destruct (uploadWorkoutPlan_rounds btoa network planToUpload
              (Api.mkConfig key None) true log) as (rounds & Hrounds & _ & Hall).
  pose proof (upload_requests_of_rounds btoa (Api.mkConfig key None) true
                (length (TrainingPlan.workouts planToUpload)) rounds 0 Hall)
    as Hrequests.
  rewrite Hplan in Hrun', Hrounds. cbn [snd] in Hrounds.
  injection Hrun' as _ _ Heffects. apply app_inv_head in Heffects. subst effects'.
  apply app_inv_head in Hrounds. subst effects.
  split; [|split].
  - rewrite <- (map_map IntervalsIcu.body Api.description), Hbodies.
    unfold planToUpload. cbn [PlanPreview.withWorkouts TrainingPlan.workouts].
    rewrite !map_map. apply map_ext. intros w.
    unfold IntervalsIcu.formatWorkoutForAPI, Spec.uploadedText. cbv zeta.
    cbn [Api.description PreviewPage.withDescription Workout.intervals
         Workout.description].
    by destruct (Workout.intervals w) as [[|interval intervals]|].
  - rewrite <- (map_map IntervalsIcu.body Api.external_id), Hbodies.
    unfold planToUpload. cbn [PlanPreview.withWorkouts TrainingPlan.workouts].
    rewrite !map_map. by apply map_ext.
  - eapply Forall_impl; [exact Hrequests|].
    intros r (Hurl & _ & Hauth). split; [by rewrite Hurl|exact Hauth].
Qed.

(** With a key, the handler leaves the page for the success page, with
    the name of the plan and its number of workouts, exactly when no upload
    failed; when [K] of the [N] uploads failed it shows the aggregate error,
    which counts [N - K] uploaded and [K] failed workouts and lists each
    failed workout by name and date. *)
Theorem preview_upload_outcome :
  forall (storage : Storage.LocalStorage) (plan : TrainingPlan.t)
         (paceMapping : gmap string string) (log : list IntervalsIcu.Effect),
    ~ Spec.noKey storage ->
    let run := PreviewPage.handleUpload btoa network storage plan paceMapping log in
    let attempts := IntervalsIcu.resultsOf (Spec.effectsOf log (snd run)) in
    let N := length (TrainingPlan.workouts plan) in
    let K := Spec.failures attempts in
    length attempts = N
    /\ fst run
       = if (0 <? K)%nat
         then PreviewPage.ErrorShown
                (Spec.aggregateError (N - K) K
                   (Spec.itemErrors (TrainingPlan.workouts plan) attempts))
         else PreviewPage.Navigated (TrainingPlan.name plan) (pretty N).
Proof.
  intros storage plan paceMapping log Hhas. cbv zeta.
  destruct (handleUpload_with_key storage plan paceMapping log Hhas)
    as (key & results & effects & _ & _ & Hplan & Hrun).
  rewrite Hrun. cbn [fst snd]. unfold Spec.effectsOf. rewrite drop_app_length.
  set (planToUpload :=
         PlanPreview.withWorkouts plan
           (map (fun w => PreviewPage.withDescription w
                            (Formatter.formatWorkoutForIntervalsICU w paceMapping))
                (TrainingPlan.workouts plan))) in *.
  destruct (uploadWorkoutPlan_run btoa network planToUpload
              (Api.mkConfig key None) true log)
    as (results' & effects' & Hrun' & Hlen & Hsucc & Hfail & Herrs & _).
  rewrite Hplan in Hrun'.
  injection Hrun' as _ Hresults Heffects. apply app_inv_head in Heffects.
  subst effects' results'.
  unfold planToUpload in Hlen, Herrs.
  cbn [PlanPreview.withWorkouts TrainingPlan.workouts] in Hlen, Herrs.
  rewrite length_map in Hlen. rewrite itemErrors_withDescription in Herrs.
  split; [exact Hlen|].
  pose proof (successes_failures (IntervalsIcu.resultsOf effects)) as Hsum.
  rewrite <- Hfail, <- Herrs.
  replace (length (TrainingPlan.workouts plan) - IntervalsIcu.failed results)%nat
    with (IntervalsIcu.succeeded results) by lia.
  reflexivity.
Qed.

End PreviewUpload.

Lemma upload_needs_key_witness :
  PreviewPage.handleUpload (fun s => s)
    (fun _ _ => IntervalsIcu.FetchRejected IntervalsIcu.ThrownOther)
    (Storage.mkStorage {["google_ai_api_key" := "g-1"]} false false)
    (TrainingPlan.mk "p1" "Base" "2024-05-01" "2024-05-07" (Some 1)
       [Spec.easyRun "w1" "2024-05-01" "Easy Run" None] None)
    ∅ []
  = (PreviewPage.ErrorShown "intervals.icu API key not found", []).
Proof.
  apply (upload_needs_key (fun s => s)
           (fun _ _ => IntervalsIcu.FetchRejected IntervalsIcu.ThrownOther)).
  right. left. vm_compute. reflexivity.
Defined.

Lemma preview_upload_requests_witness :
  let network := fun (_ : list IntervalsIcu.Request) (r : IntervalsIcu.Request) =>
    IntervalsIcu.ResponseOk
      (inr (Api.mkUploadResponse 1 7 (Api.start_date_local (IntervalsIcu.body r))
              (Api.name (IntervalsIcu.body r)))) in
  let storage :=
    Storage.mkStorage {["intervals_icu_api_key" := "abc"]} false false in
  let plan :=
    TrainingPlan.mk "p1" "Base" "2024-05-01" "2024-05-07" (Some 1)
      [Spec.easyRun "w1" "2024-05-01" "Easy Run" None;
       Workout.mk "w2" "2024-05-02" "run" "Repeats" "5 x 1 km" None None None
         (Some [Spec.kilometerRepeats]) None]
      None in
  let paceMapping : gmap string string := {["easy" := "5:30/km"]} in
  let run := PreviewPage.handleUpload (fun s => s) network storage plan paceMapping [] in
  let requests := IntervalsIcu.requestsOf (Spec.effectsOf [] (snd run)) in
  exists key,
    Storage.entries storage !! "intervals_icu_api_key" = Some key
    /\ map (fun r => Api.description (IntervalsIcu.body r)) requests
       = map (Spec.uploadedText paceMapping) (TrainingPlan.workouts plan)
    /\ map (fun r => Api.external_id (IntervalsIcu.body r)) requests
       = map (fun w => Some (Workout.id w)) (TrainingPlan.workouts plan)
    /\ Forall (fun r =>
                 IntervalsIcu.url r = "https://intervals.icu/api/v1/athlete/0/events"
                 /\ IntervalsIcu.authorization r
                    = "Basic " +:+ (fun s : string => s) ("API_KEY:" +:+ key))
              requests.
Proof.
  intros network storage plan paceMapping.
  apply (preview_upload_requests (fun s => s) network storage plan paceMapping []).
  intros [Hno|[Hno|Hno]]; vm_compute in Hno; discriminate Hno.
Defined.

Lemma preview_upload_outcome_witness :
  let network := fun (_ : list IntervalsIcu.Request) (r : IntervalsIcu.Request) =>
    if bool_decide (Api.name (IntervalsIcu.body r) = "Tempo")
    then IntervalsIcu.ResponseNotOk (inr (Api.mkError (Some "Rate limited") 429))
    else IntervalsIcu.ResponseOk
           (inr (Api.mkUploadResponse 1 7 (Api.start_date_local (IntervalsIcu.body r))
                   (Api.name (IntervalsIcu.body r)))) in
  let storage :=
    Storage.mkStorage {["intervals_icu_api_key" := "abc"]} false false in
  let plan :=
    TrainingPlan.mk "p1" "Base" "2024-05-01" "2024-05-07" (Some 1)
      [Workout.mk "w1" "2024-05-01" "run" "Easy" "30 min easy" (Some 30) None
         (Some "easy") None None;
       Workout.mk "w2" "2024-05-02" "run" "Tempo" "20 min tempo" (Some 20) None
         (Some "hard") None None]
      None in
  fst (PreviewPage.handleUpload (fun s => s) network storage plan ∅ [])
  = PreviewPage.ErrorShown
      "Uploaded 1 workouts, 1 failed. Errors: Tempo (2024-05-02): Rate limited".
Proof.
  intros network storage plan.
  assert (~ Spec.noKey storage) as Hkey.
  { intros [Hno|[Hno|Hno]]; vm_compute in Hno; discriminate Hno. }
  destruct (preview_upload_outcome (fun s => s) network storage plan ∅ [] Hkey)
    as [_ Houtcome].
  etransitivity; [exact Houtcome|]. vm_compute. reflexivity.
Defined.

(** ** The stored API keys *)

(** A key saved in a working storage is read back as saved, and saving the
    key of one service leaves the key of the other service and every other
    entry as they were. When the storage refuses the write, saving changes
    nothing and throws nothing. *)
Theorem saved_key_read_back :
  forall (service other : Storage.Service) (key : string) (ls : Storage.LocalStorage),
    (Storage.disabled ls = false -> Storage.full ls = false ->
     Storage.getAPIKey service (Storage.saveAPIKey service key ls) = Some key
     /\ (other <> service ->
         Storage.getAPIKey other (Storage.saveAPIKey service key ls)
         = Storage.getAPIKey other ls)
     /\ (forall name : string,
           name <> Storage.storageKey service ->
           Storage.entries (Storage.saveAPIKey service key ls) !! name
           = Storage.entries ls !! name)
     /\ Storage.hasAPIKeys (Storage.saveAPIKey service key ls)
        = match service with
          | Storage.intervals => (JS.truthy key, snd (Storage.hasAPIKeys ls))
          | Storage.googleai => (fst (Storage.hasAPIKeys ls), JS.truthy key)
          end)
    /\ (Storage.disabled ls = true \/ Storage.full ls = true ->
        Storage.saveAPIKey service key ls = ls).
Proof.
  intros service other key ls. split.
  - intros Hdisabled Hfull.
    unfold Storage.hasAPIKeys, Storage.getAPIKey, Storage.saveAPIKey.
    rewrite Hdisabled, Hfull. cbn [orb Storage.disabled Storage.entries].
    split; [by rewrite lookup_insert_eq|]. split; [|split].
    + intros Hother. rewrite lookup_insert_ne; [done|].
      by destruct service, other.
    + intros name Hname. by rewrite lookup_insert_ne.
    + destruct service; cbn [Storage.storageKey fst snd];
        rewrite lookup_insert_eq, lookup_insert_ne by done; done.
  - unfold Storage.saveAPIKey. by intros [->| ->]; [|rewrite orb_true_r].
Qed.

Lemma saved_key_read_back_witness :
  Storage.getAPIKey Storage.intervals
    (Storage.saveAPIKey Storage.intervals "abc"
       (Storage.mkStorage {["google_ai_api_key" := "g-1"]} false false))
  = Some "abc"
  /\ Storage.getAPIKey Storage.googleai
       (Storage.saveAPIKey Storage.intervals "abc"
          (Storage.mkStorage {["google_ai_api_key" := "g-1"]} false false))
     = Some "g-1".
Proof.
  destruct (saved_key_read_back Storage.intervals Storage.googleai "abc"
              (Storage.mkStorage {["google_ai_api_key" := "g-1"]} false false))
    as [Hworking _].
  destruct (Hworking eq_refl eq_refl) as (Hsame & Hother & _).
  split; [exact Hsame|]. rewrite Hother; [|discriminate].
  vm_compute. reflexivity.
Defined.

(** After the keys are cleared from a readable storage neither service has
    a key, and every other entry (the preferences among them) is kept;
    clearing the whole storage leaves no key either. *)
Theorem cleared_keys_gone :
  forall (service : Storage.Service) (ls : Storage.LocalStorage),
    Storage.disabled ls = false ->
    Storage.getAPIKey service (Storage.clearAPIKeys ls) = None
    /\ Storage.hasAPIKeys (Storage.clearAPIKeys ls) = (false, false)
    /\ (forall name : string,
          name <> Storage.INTERVALS_API_KEY -> name <> Storage.GOOGLE_AI_API_KEY ->
          Storage.entries (Storage.clearAPIKeys ls) !! name
          = Storage.entries ls !! name)
    /\ Storage.getAPIKey service (Storage.clearAllStorage ls) = None.
Proof.
  intros service ls Hdisabled.
  assert (forall s, Storage.getAPIKey s (Storage.clearAPIKeys ls) = None) as Hgone.
  { intros s. unfold Storage.getAPIKey, Storage.clearAPIKeys.
    rewrite Hdisabled. cbn [Storage.disabled Storage.entries].
    destruct s; cbn [Storage.storageKey].
    - rewrite lookup_delete_ne by done. by rewrite lookup_delete_eq.
    - by rewrite lookup_delete_eq. }
  split; [apply Hgone|]. split; [|split].
  - unfold Storage.hasAPIKeys. by rewrite !Hgone.
  - intros name Hintervals Hgoogle. unfold Storage.clearAPIKeys.
    rewrite Hdisabled. cbn [Storage.entries].
    by rewrite !lookup_delete_ne.
  - unfold Storage.getAPIKey, Storage.clearAllStorage.
    rewrite Hdisabled. by cbn [Storage.disabled Storage.entries].
Qed.

Lemma cleared_keys_gone_witness :
  Storage.getAPIKey Storage.intervals
    (Storage.clearAPIKeys
       (Storage.mkStorage
          {["intervals_icu_api_key" := "abc"; "user_preferences" := "{}"]}
          false false))
  = None
  /\ Storage.entries
       (Storage.clearAPIKeys
          (Storage.mkStorage
             {["intervals_icu_api_key" := "abc"; "user_preferences" := "{}"]}
             false false)) !! "user_preferences"
     = Some "{}".
Proof.
  destruct (cleared_keys_gone Storage.intervals
              (Storage.mkStorage
                 {["intervals_icu_api_key" := "abc"; "user_preferences" := "{}"]}
                 false false) eq_refl)
    as (Hgone & _ & Hkept & _).
  split; [exact Hgone|].
  rewrite (Hkept "user_preferences"); [|discriminate|discriminate].
  vm_compute. reflexivity.
Defined.

(** ** Editing the plan in the preview *)

Lemma withWorkouts_same (plan : TrainingPlan.t) :
  PlanPreview.withWorkouts plan (TrainingPlan.workouts plan) = plan.
Proof. by destruct plan. Qed.

Lemma filter_all {A} (f : A -> bool) (l : list A) :
  (forall x, x ∈ l -> f x = true) -> List.filter f l = l.
Proof.
  induction l as [|x l IH]; intros Hall; [done|]. cbn [List.filter].
  rewrite (Hall x) by left. f_equal. apply IH. intros y Hy. apply Hall. by right.
Qed.

Lemma filter_elem_of {A} (f : A -> bool) (l : list A) (x : A) :
  x ∈ List.filter f l <-> x ∈ l /\ f x = true.
Proof. rewrite !list_elem_of_In. apply filter_In. Qed.

Lemma filter_sublist {A} (f : A -> bool) (l : list A) :
  sublist (List.filter f l) l.
Proof.
  induction l as [|x l IH]; [constructor|]. cbn [List.filter].
  destruct (f x); by constructor.
Qed.

(** Deleting a workout removes exactly the workouts with that identifier:
    the others stay, in their order, and nothing else of the plan changes;
    deleting an identifier the plan does not have changes nothing. *)
Theorem workout_delete :
  forall (plan : TrainingPlan.t) (id : string),
    let edited := PlanPreview.handleWorkoutDelete plan id in
    (forall w : Workout.t,
        w ∈ TrainingPlan.workouts edited
        <-> w ∈ TrainingPlan.workouts plan /\ Workout.id w <> id)
    /\ sublist (TrainingPlan.workouts edited) (TrainingPlan.workouts plan)
    /\ (id ∉ map Workout.id (TrainingPlan.workouts edited))
    /\ (id ∉ map Workout.id (TrainingPlan.workouts plan) -> edited = plan)
    /\ PlanPreview.handleWorkoutDelete edited id = edited
    /\ (TrainingPlan.id edited, TrainingPlan.name edited,
        TrainingPlan.startDate edited, TrainingPlan.endDate edited,
        TrainingPlan.weeks edited, TrainingPlan.source edited)
       = (TrainingPlan.id plan, TrainingPlan.name plan,
          TrainingPlan.startDate plan, TrainingPlan.endDate plan,
          TrainingPlan.weeks plan, TrainingPlan.source plan).
Proof.
  intros plan id. cbv zeta. unfold PlanPreview.handleWorkoutDelete. cbv zeta.
  cbn [PlanPreview.withWorkouts TrainingPlan.workouts TrainingPlan.id
       TrainingPlan.name TrainingPlan.startDate TrainingPlan.endDate
       TrainingPlan.weeks TrainingPlan.source].
  assert (forall w : Workout.t,
    w ∈ List.filter (fun w => negb (bool_decide (Workout.id w = id)))
          (TrainingPlan.workouts plan)
    <-> w ∈ TrainingPlan.workouts plan /\ Workout.id w <> id) as Hkept.
  { intros w. rewrite filter_elem_of, negb_true_iff, bool_decide_eq_false. done. }
  split; [exact Hkept|]. split; [apply filter_sublist|]. split; [|split; [|split]].
  - intros Hin. apply list_elem_of_fmap in Hin as (w & -> & Hw).
    apply Hkept in Hw as [_ Hid]. done.
  - intros Habsent. rewrite filter_all; [apply withWorkouts_same|].
    intros w Hw. apply negb_true_iff, bool_decide_eq_false. intros <-.
    apply Habsent. apply list_elem_of_fmap. by exists w.
  - f_equal. apply filter_all. intros w Hw. by apply filter_elem_of in Hw as [_ ?].
  - reflexivity.
Qed.

(** Saving an edited workout puts it in the place of every workout with its
    identifier: the plan keeps its length and its sequence of identifiers,
    the workouts with another identifier stay as they are, and saving a
    workout whose identifier the plan does not have changes nothing. Saving
    the same edit twice is the same as saving it once. *)
Theorem workout_update :
  forall (plan : TrainingPlan.t) (updated : Workout.t),
    let edited := PlanPreview.handleWorkoutUpdate plan updated in
    map Workout.id (TrainingPlan.workouts edited)
    = map Workout.id (TrainingPlan.workouts plan)
    /\ (forall (i : nat) (w : Workout.t),
          TrainingPlan.workouts edited !! i = Some w ->
          (w = updated /\ exists old, TrainingPlan.workouts plan !! i = Some old
                                      /\ Workout.id old = Workout.id updated)
          \/ (TrainingPlan.workouts plan !! i = Some w
              /\ Workout.id w <> Workout.id updated))
    /\ (Workout.id updated ∉ map Workout.id (TrainingPlan.workouts plan) ->
        edited = plan)
    /\ PlanPreview.handleWorkoutUpdate edited updated = edited.
Proof.
  intros plan updated. cbv zeta. unfold PlanPreview.handleWorkoutUpdate. cbv zeta.
  cbn [PlanPreview.withWorkouts TrainingPlan.workouts].
  split; [|split; [|split]].
  - rewrite map_map. apply map_ext. intros w. by case_bool_decide.
  - intros i w Hw. change map with (@fmap list _) in Hw.
    rewrite list_lookup_fmap in Hw.
    destruct (TrainingPlan.workouts plan !! i) as [old|]; [|done].
    injection Hw as <-. case_bool_decide as Hid; [left|by right].
    split; [done|]. by exists old.
  - intros Habsent.
    transitivity (PlanPreview.withWorkouts plan (TrainingPlan.workouts plan));
      [|apply withWorkouts_same].
    f_equal.
    transitivity (map (fun w : Workout.t => w) (TrainingPlan.workouts plan));
      [|apply map_id].
    apply map_ext_in. intros w Hw.
    rewrite bool_decide_eq_false_2; [done|]. intros Hid. apply Habsent.
    apply list_elem_of_fmap. exists w. split; [done|]. by apply list_elem_of_In.
  - f_equal. rewrite map_map. apply map_ext. intros w.
    destruct (decide (Workout.id w = Workout.id updated)) as [Hid|Hid].
    + rewrite (bool_decide_eq_true_2 _ Hid). by rewrite bool_decide_eq_true_2.
    + rewrite (bool_decide_eq_false_2 _ Hid). by rewrite (bool_decide_eq_false_2 _ Hid).
Qed.

